(** * product-mcp-server: intent and slot classification, verified

    A shallow embedding of the chat API's two classifiers
    ([chat_api/ml_classifier], the rule-based joint classifier, and
    [chat_api/classifier], the corpus-trained classifier with its dynamic
    argument extractor, CSV loader, trainer and persistence), and of the
    response message of [chat_api/chat], followed by the properties the
    specification states about them and further properties read off the
    code.

    Modelling conventions.
    - Python [str] is [string]; the functions of the Python library the
      code calls ([str.lower], [str.title], [str.strip], [str.split],
      [re.search], [re.sub], [re.escape], [int], [float]) are written out
      for ASCII text.  Characters above 127 are outside the modelled
      fragment: they are kept as caseless symbols that are neither
      whitespace nor word characters.
    - Python [float] is [Q]: confidences and prices are the exact decimal
      rationals of the literals; binary64 rounding is not modelled.
      [int] and [float] read every numeral Python reads from ASCII text
      (whitespace around it, a sign, underscores between digits, a
      point, an exponent); [inf] and [nan] have no rational value and
      are left unread.  [str] of a float is written out for the values
      below [1e16] that need no rounding, where Python prints the
      decimal expansion.
    - A Python [dict] with string keys is a [gmap string _].
    - An exception is the [Raise] branch of [Res].
    - scikit-learn's pipeline and [ast.literal_eval] are not part of the
      repository: they are parameters of the corpus classifier.
    - [pickle] and the file system are not modelled: saving is the
      dictionary handed to [pickle.dump], loading is the dictionary
      [pickle.load] returns, the empty one when the file cannot be
      read. *)

From stdpp Require Import gmap strings.
From Stdlib Require Import QArith ZArith Ascii String List Lia Lqa.
Import ListNotations.

Local Open Scope string_scope.
Local Open Scope list_scope.

(** ** Python text primitives *)

Module Py.

Abbreviation chars := (list ascii).

Definition code (c : ascii) : nat := nat_of_ascii c.

Definition between (lo hi : nat) (c : ascii) : bool :=
  (lo <=? code c)%nat && (code c <=? hi)%nat.

(** [str.isspace] on one ASCII character: TAB..CR, FS..US and SPACE. *)
Definition is_space (c : ascii) : bool :=
  between 9 13 c || between 28 32 c.

Definition is_digit (c : ascii) : bool := between 48 57 c.
Definition is_upper (c : ascii) : bool := between 65 90 c.
Definition is_lower (c : ascii) : bool := between 97 122 c.
Definition is_alpha (c : ascii) : bool := is_upper c || is_lower c.
Definition is_alnum (c : ascii) : bool := is_alpha c || is_digit c.

(** [\w] of the [re] module: letters, digits and the underscore. *)
Definition is_word (c : ascii) : bool := is_alnum c || (code c =? 95)%nat.

Definition lower_char (c : ascii) : ascii :=
  if is_upper c then ascii_of_nat (code c + 32) else c.

Definition upper_char (c : ascii) : ascii :=
  if is_lower c then ascii_of_nat (code c - 32) else c.

Definition of_str (s : string) : chars := list_ascii_of_string s.
Definition to_str (l : chars) : string := string_of_list_ascii l.

(** [s.lower()] *)
Definition lower (s : string) : string := to_str (map lower_char (of_str s)).

(** [s.upper()] *)
Definition upper (s : string) : string := to_str (map upper_char (of_str s)).

(** [s.title()]: a letter that follows a letter is lower-cased, any
    other letter is upper-cased. *)
Fixpoint title_from (prev_cased : bool) (l : chars) : chars :=
  match l with
  | [] => []
  | c :: l' =>
      if is_alpha c
      then (if prev_cased then lower_char c else upper_char c)
             :: title_from true l'
      else c :: title_from false l'
  end.

Definition title (s : string) : string := to_str (title_from false (of_str s)).

Fixpoint lstrip (l : chars) : chars :=
  match l with
  | c :: l' => if is_space c then lstrip l' else l
  | [] => []
  end.

Definition rstrip (l : chars) : chars := rev (lstrip (rev l)).

(** [s.strip()] *)
Definition strip (s : string) : string := to_str (rstrip (lstrip (of_str s))).

(** [s.split()]: the maximal runs of non-whitespace characters. *)
Fixpoint split_from (cur : chars) (l : chars) : list string :=
  match l with
  | [] => match cur with [] => [] | _ => [to_str (rev cur)] end
  | c :: l' =>
      if is_space c
      then match cur with
           | [] => split_from [] l'
           | _ => to_str (rev cur) :: split_from [] l'
           end
      else split_from (c :: cur) l'
  end.

Definition split (s : string) : list string := split_from [] (of_str s).

Fixpoint starts_with (p l : chars) : bool :=
  match p, l with
  | [], _ => true
  | _ :: _, [] => false
  | a :: p', b :: l' => Ascii.eqb a b && starts_with p' l'
  end.

Fixpoint contains_from (p l : chars) : bool :=
  starts_with p l ||
  match l with
  | [] => false
  | _ :: l' => contains_from p l'
  end.

(** [sub in s] *)
Definition contains (sub s : string) : bool :=
  contains_from (of_str sub) (of_str s).

Definition digit_val (c : ascii) : Z := Z.of_nat (code c - 48).

Fixpoint digits_val (acc : Z) (l : chars) : Z :=
  match l with
  | [] => acc
  | c :: l' => digits_val (10 * acc + digit_val c) l'
  end.

Definition all_digits (l : chars) : bool :=
  match l with [] => false | _ => forallb is_digit l end.

(** The whitespace [int] and [float] ignore around a numeral: of the
    characters below 128, the space and the controls 9 to 13, but not
    the separators 28 to 31 that [str.strip] removes. *)
Definition is_numeral_space (c : ascii) : bool :=
  between 9 13 c || Nat.eqb (code c) 32.

Fixpoint drop_spaces (l : chars) : chars :=
  match l with
  | c :: l' => if is_numeral_space c then drop_spaces l' else l
  | [] => []
  end.

Definition numeral_text (s : string) : chars :=
  rev (drop_spaces (rev (drop_spaces (of_str s)))).

(** A leading sign: whether it is a minus, and the rest. *)
Definition split_sign (l : chars) : bool * chars :=
  match l with
  | c :: l' =>
      if Ascii.eqb c "-"%char then (true, l')
      else if Ascii.eqb c "+"%char then (false, l')
      else (false, l)
  | [] => (false, l)
  end.

(** The numeral without its digit separators: an underscore must
    follow a digit and be followed by a digit; [prev] is the character
    before [l]. *)
Fixpoint drop_underscores (prev : option ascii) (l : chars) : option chars :=
  match l with
  | [] =>
      match prev with
      | Some p => if Ascii.eqb p "_"%char then None else Some []
      | None => Some []
      end
  | c :: l' =>
      if Ascii.eqb c "_"%char then
        match prev with
        | Some p =>
            if is_digit p then drop_underscores (Some c) l' else None
        | None => None
        end
      else
        match prev with
        | Some p =>
            if Ascii.eqb p "_"%char && negb (is_digit c) then None
            else option_map (cons c) (drop_underscores (Some c) l')
        | None => option_map (cons c) (drop_underscores (Some c) l')
        end
  end.

Definition signed (neg : bool) (z : Z) : Z := if neg then (- z)%Z else z.

(** [int(s)]: surrounding whitespace is ignored; then an optional sign
    and decimal digits, with single underscores between digits.
    Everything else is the [ValueError] branch. *)
Definition int_of_str (s : string) : option Z :=
  let '(neg, l) := split_sign (numeral_text s) in
  match drop_underscores None l with
  | Some d => if all_digits d then Some (signed neg (digits_val 0 d)) else None
  | None => None
  end.

Fixpoint split_dot (acc : chars) (l : chars) : chars * option chars :=
  match l with
  | [] => (rev acc, None)
  | c :: l' =>
      if Ascii.eqb c "."%char then (rev acc, Some l')
      else split_dot (c :: acc) l'
  end.

(** The text before the exponent mark and the text after it. *)
Fixpoint split_exp (acc : chars) (l : chars) : chars * option chars :=
  match l with
  | [] => (rev acc, None)
  | c :: l' =>
      if Ascii.eqb c "e"%char || Ascii.eqb c "E"%char then (rev acc, Some l')
      else split_exp (c :: acc) l'
  end.

Fixpoint pow10 (n : nat) : positive :=
  match n with
  | O => 1%positive
  | S n' => (10 * pow10 n')%positive
  end.

(** The digits of a mantissa, read as an integer, and the number of
    digits after the point: digits with an optional point, at least
    one digit. *)
Definition mantissa (l : chars) : option (Z * nat) :=
  match split_dot [] l with
  | (ip, None) =>
      if all_digits ip then Some (digits_val 0 ip, 0%nat) else None
  | (ip, Some fp) =>
      if forallb is_digit (ip ++ fp) && negb (Nat.eqb (length (ip ++ fp)) 0)
      then Some (digits_val 0 (ip ++ fp), length fp)
      else None
  end.

(** An exponent: an optional sign and digits. *)
Definition exponent (l : chars) : option Z :=
  let '(neg, d) := split_sign l in
  if all_digits d then Some (signed neg (digits_val 0 d)) else None.

(** [m * 10 ** e] *)
Definition scale (m e : Z) : Q :=
  if (0 <=? e)%Z then (m * 10 ^ e) # 1
  else m # pow10 (Z.to_nat (- e)).

(** [float(s)], read as the exact rational: surrounding whitespace is
    ignored; then an optional sign, a mantissa and an optional
    exponent, with single underscores between digits.  Everything else
    is the [ValueError] branch; so are [inf], [infinity] and [nan],
    which have no rational value. *)
Definition float_of_str (s : string) : option Q :=
  let '(neg, l) := split_sign (numeral_text s) in
  match drop_underscores None l with
  | Some l =>
      let '(mt, ex) := split_exp [] l in
      match mantissa mt,
            match ex with Some x => exponent x | None => Some 0%Z end with
      | Some (m, fraction_digits), Some e =>
          Some (scale (signed neg m) (e - Z.of_nat fraction_digits))
      | _, _ => None
      end
  | None => None
  end.

(** The character of the last decimal digit of [n]. *)
Definition digit_char (n : nat) : ascii := ascii_of_nat (48 + n mod 10).

Fixpoint nat_digits (fuel n : nat) (acc : chars) : chars :=
  match fuel with
  | O => acc
  | S f =>
      let acc' := digit_char (n mod 10) :: acc in
      if (n <? 10)%nat then acc' else nat_digits f (n / 10) acc'
  end.

(** [str(n)] for a natural number. *)
Definition str_of_nat (n : nat) : chars := nat_digits (S n) n [].

(** The decimal digits of [r / d] after the point, at most [fuel] of
    them, stopping when the expansion ends. *)
Fixpoint frac_digits (fuel : nat) (r d : Z) : chars :=
  match fuel with
  | O => []
  | S f =>
      if (r =? 0)%Z then []
      else digit_char (Z.to_nat (10 * r / d))
             :: frac_digits f ((10 * r) mod d) d
  end.

(** [str(x)] for a non-negative float below [1e16] whose decimal
    expansion has at most 17 digits after the point: the integer part,
    a point, and the fraction without trailing zeros ([12.0], [49.99]).
    (Python switches to exponent notation at [1e16].) *)
Definition str_of_float (q : Q) : string :=
  let n := Qnum q in
  let d := Zpos (Qden q) in
  let fd := frac_digits 17 (n mod d) d in
  to_str (str_of_nat (Z.to_nat (n / d)) ++ "."%char
            :: match fd with [] => ["0"%char] | _ => fd end).

End Py.

(** ** The fragment of Python's [re] module the patterns use *)

Module Re.
Import Py.

Inductive cls := ClsSpace | ClsDigit | ClsWord.

Inductive set_item :=
| SChar (c : ascii)
| SRange (lo hi : ascii)
| SClass (neg : bool) (k : cls).

(** Compiled patterns.  [RRep mn mx greedy r] is [r{mn,mx}]; [*], [+]
    and [?] are [RRep 0 None], [RRep 1 None] and [RRep 0 (Some 1)]. *)
Inductive regex :=
| REmpty
| RChar (c : ascii)
| RAny
| RClass (neg : bool) (k : cls)
| RSet (neg : bool) (items : list set_item)
| RBol
| REol
| RWordB (neg : bool)
| RSeq (a b : regex)
| RAlt (a b : regex)
| RRep (mn : nat) (mx : option nat) (greedy : bool) (r : regex)
| RGroup (n : nat) (r : regex).

Definition in_cls (k : cls) (c : ascii) : bool :=
  match k with
  | ClsSpace => is_space c
  | ClsDigit => is_digit c
  | ClsWord => is_word c
  end.

Definition in_item (c : ascii) (i : set_item) : bool :=
  match i with
  | SChar x => Ascii.eqb x c
  | SRange lo hi => (code lo <=? code c)%nat && (code c <=? code hi)%nat
  | SClass neg k => xorb neg (in_cls k c)
  end.

(** *** Matching: a backtracking matcher in continuation-passing style

    A matcher state is a position in the subject: the characters still
    to read, the character just before them, and the groups captured so
    far.  Alternatives are tried left to right and a greedy repetition
    tries one more iteration before it tries to stop, as [re] does. *)

Record mstate := MState {
  pos : nat;
  prev : option ascii;
  rest : chars;
  caps : list (nat * (nat * nat))
}.

Definition advance (st : mstate) (c : ascii) (l : chars) : mstate :=
  MState (S (pos st)) (Some c) l (caps st).

Definition set_cap (n start : nat) (st : mstate) : mstate :=
  MState (pos st) (prev st) (rest st) ((n, (start, pos st)) :: caps st).

Definition step_char (p : ascii -> bool) (k : mstate -> option mstate)
    (st : mstate) : option mstate :=
  match rest st with
  | c :: l => if p c then k (advance st c l) else None
  | [] => None
  end.

Definition word_opt (o : option ascii) : bool :=
  match o with Some c => is_word c | None => false end.

Definition at_boundary (st : mstate) : bool :=
  xorb (word_opt (prev st)) (word_opt (head (rest st))).

(** [$] without MULTILINE: the end, or just before a final newline. *)
Definition at_eol (st : mstate) : bool :=
  match rest st with
  | [] => true
  | [c] => Ascii.eqb c "010"%char
  | _ => false
  end.

Definition or_else {A} (a : option A) (b : unit -> option A) : option A :=
  match a with Some x => Some x | None => b tt end.

Definition below (cnt : nat) (mx : option nat) : bool :=
  match mx with Some n => (cnt <? n)%nat | None => true end.

(** The loop of a repetition whose body is matched by [body]: [cnt]
    iterations are done; an iteration that consumes nothing is only
    taken while the minimum is not reached.  Each iteration past the
    minimum consumes a character, so [fuel] never runs out when it
    starts above the minimum plus the length of the subject. *)
Fixpoint rep_loop (body : (mstate -> option mstate) -> mstate -> option mstate)
    (mn : nat) (mx : option nat) (greedy : bool)
    (k : mstate -> option mstate) (fuel cnt : nat) (st : mstate)
    {struct fuel} : option mstate :=
  match fuel with
  | O => None
  | S f =>
      let more (_ : unit) :=
        if below cnt mx
        then body (fun st' =>
                     if (pos st <? pos st')%nat || (cnt <? mn)%nat
                     then rep_loop body mn mx greedy k f (S cnt) st'
                     else None) st
        else None in
      let stop (_ : unit) :=
        if (mn <=? cnt)%nat then k st else None in
      if greedy then or_else (more tt) stop
      else or_else (stop tt) more
  end.

Fixpoint m (r : regex) (k : mstate -> option mstate) (st : mstate)
    {struct r} : option mstate :=
  match r with
  | REmpty => k st
  | RChar c => step_char (Ascii.eqb c) k st
  | RAny => step_char (fun x => negb (Ascii.eqb x "010"%char)) k st
  | RClass neg c => step_char (fun x => xorb neg (in_cls c x)) k st
  | RSet neg items =>
      step_char (fun x => xorb neg (existsb (in_item x) items)) k st
  | RBol => if (pos st =? 0)%nat then k st else None
  | REol => if at_eol st then k st else None
  | RWordB neg => if xorb neg (at_boundary st) then k st else None
  | RSeq a b => m a (m b k) st
  | RAlt a b => or_else (m a k st) (fun _ => m b k st)
  | RGroup n r' => m r' (fun st' => k (set_cap n (pos st) st')) st
  | RRep mn mx greedy r' =>
      rep_loop (m r') mn mx greedy k (S (mn + length (rest st))) 0%nat st
  end.

(** A match object: where the whole match starts and ends and the
    captured groups, within the subject [subject]. *)
Record rmatch := RMatch {
  m_subject : chars;
  m_start : nat;
  m_end : mstate
}.

Fixpoint search_from (r : regex) (subject : chars) (st : mstate)
    (l : chars) {struct l} : option rmatch :=
  match m r Some st with
  | Some e => Some (RMatch subject (pos st) e)
  | None =>
      match l with
      | [] => None
      | c :: l' => search_from r subject (advance st c l') l'
      end
  end.

Definition start_state (l : chars) : mstate := MState 0 None l [].

(** [pattern.search(s)] for a compiled pattern. *)
Definition search (r : regex) (s : string) : option rmatch :=
  let l := of_str s in search_from r l (start_state l) l.

Fixpoint lookup_cap (n : nat) (l : list (nat * (nat * nat)))
    : option (nat * nat) :=
  match l with
  | [] => None
  | (i, se) :: l' => if (i =? n)%nat then Some se else lookup_cap n l'
  end.

(** [match.span(n)] for a group that took part in the match. *)
Definition span (mt : rmatch) (n : nat) : option (nat * nat) :=
  lookup_cap n (caps (m_end mt)).

Definition slice (l : chars) (s e : nat) : chars :=
  firstn (e - s) (skipn s l).

(** [match.group(n)]; [None] is Python's [None]. *)
Definition group (mt : rmatch) (n : nat) : option string :=
  match span mt n with
  | Some (s, e) => Some (to_str (slice (m_subject mt) s e))
  | None => None
  end.

(** [pattern.sub(repl, s)]: the matches are found left to right, each
    search starting where the previous match ended; after an empty
    match one character is copied. *)
Fixpoint sub_from (fuel : nat) (r : regex) (repl : chars) (st : mstate)
    : chars :=
  match fuel with
  | O => rest st
  | S f =>
      match m r Some st with
      | Some e =>
          if (pos st <? pos e)%nat
          then repl ++ sub_from f r repl (MState (pos e) (prev e) (rest e) [])
          else match rest st with
               | [] => repl
               | c :: l => repl ++ c :: sub_from f r repl (advance st c l)
               end
      | None =>
          match rest st with
          | [] => []
          | c :: l => c :: sub_from f r repl (advance st c l)
          end
      end
  end.

Definition sub (r : regex) (repl s : string) : string :=
  let l := of_str s in
  to_str (sub_from (S (length l)) r (of_str repl) (start_state l)).

(** *** Compiling a pattern

    The pattern text is read left to right by a machine that keeps the
    enclosing groups on a stack.  A frame holds, for the group being
    read, the alternatives already closed and the items of the current
    alternative, both most recent first. *)

Record frame := Frame {
  f_cap : option nat;
  f_alts : list regex;
  f_cur : list regex
}.

(** What the last item of the current alternative is: a plain item, a
    greedy repetition (which a following [?] makes lazy), or a lazy
    repetition. *)
Inductive qstate := QNone | QGreedy | QDone.

Inductive pmode :=
| MNormal
| MEsc
| MOpen
| MOpenQ
| MSetStart
| MSet (neg : bool) (items : list set_item) (pend : option set_item)
| MSetEsc (neg : bool) (items : list set_item)
| MSetDash (neg : bool) (items : list set_item) (lo : set_item)
| MBrace (lo : option nat)
| MBrace2 (lo : option nat) (hi : option nat)
| MErr.

Record pstate := PState {
  stack : list frame;
  top : frame;
  mode : pmode;
  ngroups : nat;
  lastq : qstate
}.

Definition mkseq (cur : list regex) : regex :=
  fold_left (fun acc a => RSeq a acc) cur REmpty.

Fixpoint mkalt (l : list regex) : regex :=
  match l with
  | [] => REmpty
  | [r] => r
  | r :: l' => RAlt r (mkalt l')
  end.

Definition build (fr : frame) : regex :=
  mkalt (rev (mkseq (f_cur fr) :: f_alts fr)).

Definition fail (st : pstate) : pstate :=
  PState (stack st) (top st) MErr (ngroups st) (lastq st).

Definition with_mode (md : pmode) (st : pstate) : pstate :=
  PState (stack st) (top st) md (ngroups st) (lastq st).

Definition push (a : regex) (st : pstate) : pstate :=
  let t := top st in
  PState (stack st) (Frame (f_cap t) (f_alts t) (a :: f_cur t))
         MNormal (ngroups st) QNone.

Definition is_anchor (r : regex) : bool :=
  match r with
  | RBol | REol | RWordB _ => true
  | _ => false
  end.

Definition quant (mn : nat) (mx : option nat) (st : pstate) : pstate :=
  let t := top st in
  match lastq st, f_cur t with
  | QNone, a :: cur' =>
      if is_anchor a || negb (below mn (option_map S mx)) then fail st
      else PState (stack st)
                  (Frame (f_cap t) (f_alts t) (RRep mn mx true a :: cur'))
                  MNormal (ngroups st) QGreedy
  | _, _ => fail st
  end.

Definition make_lazy (st : pstate) : pstate :=
  let t := top st in
  match f_cur t with
  | RRep mn mx _ a :: cur' =>
      PState (stack st)
             (Frame (f_cap t) (f_alts t) (RRep mn mx false a :: cur'))
             MNormal (ngroups st) QDone
  | _ => fail st
  end.

Definition open_group (capturing : bool) (st : pstate) : pstate :=
  let n := if capturing then S (ngroups st) else ngroups st in
  PState (top st :: stack st)
         (Frame (if capturing then Some n else None) [] [])
         MNormal n QNone.

Definition close_group (st : pstate) : pstate :=
  match stack st with
  | parent :: s' =>
      let r := build (top st) in
      let r' := match f_cap (top st) with
                | Some n => RGroup n r
                | None => r
                end in
      PState s' (Frame (f_cap parent) (f_alts parent) (r' :: f_cur parent))
             MNormal (ngroups st) QNone
  | [] => fail st
  end.

Definition new_alt (st : pstate) : pstate :=
  let t := top st in
  PState (stack st) (Frame (f_cap t) (mkseq (f_cur t) :: f_alts t) [])
         MNormal (ngroups st) QNone.

Definition ctrl_char (c : ascii) : option ascii :=
  if Ascii.eqb c "n" then Some "010"%char
  else if Ascii.eqb c "t" then Some "009"%char
  else if Ascii.eqb c "r" then Some "013"%char
  else if Ascii.eqb c "f" then Some "012"%char
  else if Ascii.eqb c "v" then Some "011"%char
  else if Ascii.eqb c "a" then Some "007"%char
  else None.

Definition class_of (c : ascii) : option (bool * cls) :=
  if Ascii.eqb c "s" then Some (false, ClsSpace)
  else if Ascii.eqb c "S" then Some (true, ClsSpace)
  else if Ascii.eqb c "d" then Some (false, ClsDigit)
  else if Ascii.eqb c "D" then Some (true, ClsDigit)
  else if Ascii.eqb c "w" then Some (false, ClsWord)
  else if Ascii.eqb c "W" then Some (true, ClsWord)
  else None.

(** The item a backslash and [c] stand for outside a set.  Escaped
    letters and digits other than the ones below (back-references,
    [\A], [\Z], ...) are not in the fragment. *)
Definition escape_item (c : ascii) : option regex :=
  match class_of c with
  | Some (neg, k) => Some (RClass neg k)
  | None =>
      if Ascii.eqb c "b" then Some (RWordB false)
      else if Ascii.eqb c "B" then Some (RWordB true)
      else match ctrl_char c with
           | Some x => Some (RChar x)
           | None => if is_alnum c then None else Some (RChar c)
           end
  end.

Definition set_escape_item (c : ascii) : option set_item :=
  match class_of c with
  | Some (neg, k) => Some (SClass neg k)
  | None =>
      if Ascii.eqb c "b" then Some (SChar "008"%char)
      else match ctrl_char c with
           | Some x => Some (SChar x)
           | None => if is_alnum c then None else Some (SChar c)
           end
  end.

Definition commit (items : list set_item) (pend : option set_item)
    : list set_item :=
  match pend with Some i => i :: items | None => items end.

Definition normal_step (st : pstate) (c : ascii) : pstate :=
  if Ascii.eqb c "\" then with_mode MEsc st
  else if Ascii.eqb c "(" then with_mode MOpen st
  else if Ascii.eqb c ")" then close_group st
  else if Ascii.eqb c "[" then with_mode MSetStart st
  else if Ascii.eqb c "|" then new_alt st
  else if Ascii.eqb c "*" then quant 0 None st
  else if Ascii.eqb c "+" then quant 1 None st
  else if Ascii.eqb c "?" then
    match lastq st with
    | QGreedy => make_lazy st
    | _ => quant 0 (Some 1%nat) st
    end
  else if Ascii.eqb c "{" then with_mode (MBrace None) st
  else if Ascii.eqb c "." then push RAny st
  else if Ascii.eqb c "^" then push RBol st
  else if Ascii.eqb c "$" then push REol st
  else push (RChar c) st.

Definition set_step (neg : bool) (items : list set_item) (c : ascii)
    (st : pstate) : pstate :=
  if Ascii.eqb c "]" then
    match items with
    | [] => with_mode (MSet neg items (Some (SChar c))) st
    | _ => push (RSet neg (rev items)) st
    end
  else if Ascii.eqb c "\" then with_mode (MSetEsc neg items) st
  else with_mode (MSet neg items (Some (SChar c))) st.

Definition add_digit (o : option nat) (c : ascii) : option nat :=
  Some (10 * match o with Some n => n | None => 0 end + (code c - 48))%nat.

Definition pstep (st : pstate) (c : ascii) : pstate :=
  match mode st with
  | MErr => st
  | MNormal => normal_step st c
  | MEsc =>
      match escape_item c with
      | Some r => push r st
      | None => fail st
      end
  | MOpen =>
      if Ascii.eqb c "?" then with_mode MOpenQ st
      else normal_step (open_group true st) c
  | MOpenQ =>
      if Ascii.eqb c ":" then open_group false st else fail st
  | MSetStart =>
      if Ascii.eqb c "^" then with_mode (MSet true [] None) st
      else set_step false [] c st
  | MSet neg items pend =>
      match pend with
      | Some i =>
          if Ascii.eqb c "-" then with_mode (MSetDash neg items i) st
          else set_step neg (i :: items) c st
      | None => set_step neg items c st
      end
  | MSetEsc neg items =>
      match set_escape_item c with
      | Some i => with_mode (MSet neg items (Some i)) st
      | None => fail st
      end
  | MSetDash neg items lo =>
      if Ascii.eqb c "]" then
        push (RSet neg (rev (SChar "-" :: lo :: items))) st
      else if Ascii.eqb c "\" then fail st
      else match lo with
           | SChar l =>
               if (code l <=? code c)%nat
               then with_mode (MSet neg (SRange l c :: items) None) st
               else fail st
           | _ => fail st
           end
  | MBrace lo =>
      if is_digit c then with_mode (MBrace (add_digit lo c)) st
      else if Ascii.eqb c "}" then
        match lo with
        | Some n => quant n (Some n) (with_mode MNormal st)
        | None => fail st
        end
      else if Ascii.eqb c "," then with_mode (MBrace2 lo None) st
      else fail st
  | MBrace2 lo hi =>
      if is_digit c then with_mode (MBrace2 lo (add_digit hi c)) st
      else if Ascii.eqb c "}" then
        quant (match lo with Some n => n | None => 0%nat end) hi
              (with_mode MNormal st)
      else fail st
  end.

Definition pinit : pstate := PState [] (Frame None [] []) MNormal 0 QNone.

Definition finish (st : pstate) : option regex :=
  match mode st, stack st with
  | MNormal, [] => Some (build (top st))
  | _, _ => None
  end.

(** [re.compile(pattern)]; [None] is [re.error], or a construct outside
    the fragment (a brace that is not a repetition, an extension group
    other than [(?:...)], a back-reference). *)
Definition compile (pattern : string) : option regex :=
  finish (fold_left pstep (of_str pattern) pinit).

Definition special_chars : chars :=
  of_str "()[]{}?*+-|^$\.&~# " ++
  ["009"; "010"; "013"; "011"; "012"]%char.

Definition is_special (c : ascii) : bool :=
  existsb (Ascii.eqb c) special_chars.

Definition escape_chars (l : chars) : chars :=
  flat_map (fun c => if is_special c then ["\"%char; c] else [c]) l.

(** [re.escape(s)] *)
Definition escape (s : string) : string := to_str (escape_chars (of_str s)).

End Re.

(** ** Exceptions and dynamically typed values *)

Inductive exn :=
  ReError | AttributeError | ValueError | TypeError | KeyError | OSError.

Inductive Res (A : Type) :=
| Ok (a : A)
| Raise (e : exn).

Arguments Ok {A} a.
Arguments Raise {A} e.

#[global] Instance Res_ret : MRet Res := fun A a => Ok a.

#[global] Instance Res_bind : MBind Res := fun A B k r =>
  match r with
  | Ok a => k a
  | Raise e => Raise e
  end.

(** The values the classifiers store in slots and argument maps. *)
Inductive pyvalue :=
| VStr (s : string)
| VInt (z : Z)
| VFloat (q : Q)
| VBool (b : bool).

(** [a > b] on floats. *)
Definition Qgtb (a b : Q) : bool := negb (Qle_bool a b).

(** [re.search(pattern, text)] *)
Definition re_search (pattern text : string) : Res (option Re.rmatch) :=
  match Re.compile pattern with
  | Some r => Ok (Re.search r text)
  | None => Raise ReError
  end.

(** [re.sub(pattern, repl, text)] *)
Definition re_sub (pattern repl text : string) : Res string :=
  match Re.compile pattern with
  | Some r => Ok (Re.sub r repl text)
  | None => Raise ReError
  end.

(** [str(v)], as an f-string formats a value. *)
Definition py_str (v : pyvalue) : string :=
  match v with
  | VStr s => s
  | VInt z =>
      ((if (z <? 0)%Z then "-" else "")
         ++ Py.to_str (Py.str_of_nat (Z.abs_nat z)))%string
  | VFloat q => Py.str_of_float q
  | VBool b => if b then "True" else "False"
  end.

Fixpoint dict_get {V} (k : string) (d : list (string * V)) : option V :=
  match d with
  | [] => None
  | (k', v) :: d' => if String.eqb k' k then Some v else dict_get k d'
  end.

(** ** chat_api/ml_classifier: the rule-based joint classifier *)

Module Joint.

(** models.py *)
Record Slot := mkSlot {
  name : string;
  value : pyvalue;
  confidence : Q;
  start_pos : nat;
  end_pos : nat
}.

Record IntentSlotResult := mkIntentSlotResult {
  intent : string;
  intent_confidence : Q;
  slots : list Slot;
  raw_text : string
}.

(** patterns.py.  The tables keep the order of the dictionary
    literals, which is the order [items()] iterates in. *)
Definition INTENT_PATTERNS : list (string * list (string * Q)) :=
  [ ("product.create",
      [ ("\b(?:add|create|new product|insert)\b", 0.9);
        ("\b(?:add|create)\s+(?:a\s+)?(?:new\s+)?product\b", 0.95) ]);
    ("product.update",
      [ ("\b(?:update|modify|change|edit)\b", 0.9);
        ("\b(?:update|modify|change|edit)\s+(?:product\s+)?(?:id\s+)?\d+\b", 0.95) ]);
    ("product.delete",
      [ ("\b(?:delete|remove|drop)\b", 0.9);
        ("\b(?:delete|remove|drop)\s+(?:product\s+)?(?:id\s+)?\d+\b", 0.95) ]);
    ("product.get",
      [ ("\b(?:get|find|retrieve|show|display|view)\b", 0.8);
        ("\b(?:get|find|retrieve|show|display|view)\s+(?:product\s+)?(?:id\s+)?\d+\b", 0.9) ]);
    ("product.list",
      [ ("\b(?:list|show|display|view|get)\s+(?:all\s+)?products?\b", 0.95);
        ("\b(?:what\s+)?products?\s+(?:do\s+you\s+)?have\b", 0.9);
        ("\b(?:catalog|inventory)\b", 0.85);
        ("\b(?:get|show)\s+recent\s+(?:created\s+)?products?\b", 0.95);
        ("\b(?:show|get)\s+(?:latest|newest)\s+products?\b", 0.95);
        ("\b(?:recent|latest|newest)\s+products?\b", 0.9) ]) ].

Definition SLOT_PATTERNS : list (string * list (string * Q)) :=
  [ ("name",
      [ ("(?:add|create|new product called?|product called?|named?)\s+([^,]+?)(?:\s*,|\s+with|\s+price|$)", 0.9);
        ("(?:add|create)\s+([^,]+?)(?:\s*,|\s+with|\s+price|$)", 0.85) ]);
    ("price",
      [ ("price\s*\$?(\d+(?:\.\d{2})?)", 0.95);
        ("\$(\d+(?:\.\d{2})?)", 0.9);
        ("(\d+(?:\.\d{2})?)\s*dollars?", 0.85) ]);
    ("id",
      [ ("(?:product\s+)?id\s+(\d+)", 0.95);
        ("(?:update|modify|change|edit|delete|remove|drop|get|find|retrieve)\s+(?:product\s+)?(\d+)", 0.9) ]);
    ("description",
      [ ("with\s+([^,]+?)(?:\s*,|\s+price|$)", 0.9);
        ("description[:\s]+([^,]+?)(?:\s*,|\s+price|$)", 0.95);
        ("features?[:\s]+([^,]+?)(?:\s*,|\s+price|$)", 0.9) ]) ].

(** processors.py *)
Definition process_name (value : string) : Res (option pyvalue) :=
  s ← re_sub "\s+" " " value;
  let name := Py.strip s in
  mret (if String.eqb name "" then None else Some (VStr (Py.title name))).

Definition process_price (value : string) : Res (option pyvalue) :=
  mret (option_map VFloat (Py.float_of_str value)).

Definition process_id (value : string) : Res (option pyvalue) :=
  mret (option_map VInt (Py.int_of_str value)).

Definition process_description (value : string) : Res (option pyvalue) :=
  s ← re_sub "\s+" " " value;
  let desc := Py.strip s in
  mret (if String.eqb desc "" then None else Some (VStr desc)).

Definition VALUE_PROCESSORS
    : list (string * (string -> Res (option pyvalue))) :=
  [ ("name", process_name);
    ("price", process_price);
    ("id", process_id);
    ("description", process_description) ].

(** extractors.py *)
Fixpoint extract_slot_rules (slot_name text_lower : string)
    (patterns : list (string * Q)) : Res (option Slot) :=
  match patterns with
  | [] => mret None
  | (pattern, base_confidence) :: patterns' =>
      mt ← re_search pattern text_lower;
      match mt with
      | Some mt =>
          match Re.group mt 1, Re.span mt 1 with
          | Some g, Some (s, e) =>
              let raw_value := Py.strip g in
              match dict_get slot_name VALUE_PROCESSORS with
              | Some processor =>
                  processed_value ← processor raw_value;
                  match processed_value with
                  | Some v =>
                      mret (Some (mkSlot slot_name v base_confidence s e))
                  | None => extract_slot_rules slot_name text_lower patterns'
                  end
              | None => extract_slot_rules slot_name text_lower patterns'
              end
          | _, _ => Raise AttributeError
          end
      | None => extract_slot_rules slot_name text_lower patterns'
      end
  end.

(** [extract_slot(slot_name, text, text_lower)]; the function reads
    [text_lower] only. *)
Definition extract_slot (slot_name text text_lower : string)
    : Res (option Slot) :=
  match dict_get slot_name SLOT_PATTERNS with
  | None => mret None
  | Some patterns => extract_slot_rules slot_name text_lower patterns
  end.

(** [if slot: slots.append(slot)]; an instance of the dataclass is
    always true. *)
Definition append_opt (slots : list Slot) (o : option Slot) : list Slot :=
  match o with
  | Some s => slots ++ [s]
  | None => slots
  end.

Definition extract_create_slots (text text_lower : string)
    : Res (list Slot) :=
  let slots := [] in
  name_slot ← extract_slot "name" text text_lower;
  let slots := append_opt slots name_slot in
  price_slot ← extract_slot "price" text text_lower;
  let slots := append_opt slots price_slot in
  desc_slot ← extract_slot "description" text text_lower;
  let slots := append_opt slots desc_slot in
  mret slots.

Definition extract_update_slots (text text_lower : string)
    : Res (list Slot) :=
  let slots := [] in
  id_slot ← extract_slot "id" text text_lower;
  let slots := append_opt slots id_slot in
  name_slot ← extract_slot "name" text text_lower;
  let slots := append_opt slots name_slot in
  price_slot ← extract_slot "price" text text_lower;
  let slots := append_opt slots price_slot in
  desc_slot ← extract_slot "description" text text_lower;
  let slots := append_opt slots desc_slot in
  mret slots.

Definition extract_delete_slots (text text_lower : string)
    : Res (list Slot) :=
  let slots := [] in
  id_slot ← extract_slot "id" text text_lower;
  let slots := append_opt slots id_slot in
  mret slots.

Definition extract_get_slots (text text_lower : string)
    : Res (list Slot) :=
  let slots := [] in
  id_slot ← extract_slot "id" text text_lower;
  let slots := append_opt slots id_slot in
  mret slots.

Definition name_prefix : string :=
  "(?:add|create|new product called?|product called?|named?)\s+".

(** The pattern the f-string [rf'price\s*\$?{v}|${v}|{v}\s*dollars?']
    builds. *)
Definition price_pattern (v : string) : string :=
  "price\s*\$?" ++ v ++ "|$" ++ v ++ "|" ++ v ++ "\s*dollars?".

(** One round of the loop that removes the extracted slots from the
    text. *)
Definition remove_slot (temp_text : string) (slot : Slot) : Res string :=
  if String.eqb (name slot) "name" then
    match value slot with
    | VStr v => re_sub (name_prefix ++ Re.escape (Py.lower v)) "" temp_text
    | _ => Raise AttributeError
    end
  else if String.eqb (name slot) "price" then
    re_sub (price_pattern (py_str (value slot))) "" temp_text
  else mret temp_text.

Fixpoint remove_slots (temp_text : string) (existing_slots : list Slot)
    : Res string :=
  match existing_slots with
  | [] => mret temp_text
  | slot :: rest =>
      temp_text ← remove_slot temp_text slot;
      remove_slots temp_text rest
  end.

Definition extract_description_fallback (text : string)
    (existing_slots : list Slot) : Res (option Slot) :=
  let text_lower := Py.lower text in
  temp_text ← remove_slots text_lower existing_slots;
  temp_text ← re_sub "^\s*[,]\s*" "" temp_text;
  temp_text ← re_sub "\s+" " " temp_text;
  let temp_text := Py.strip temp_text in
  if (2 <? String.length temp_text)%nat
  then mret (Some (mkSlot "description" (VStr temp_text) 0.7 0
                          (String.length temp_text)))
  else mret None.

(** joint_classifier.py *)
Definition rule_confidence (pattern : string) (base_confidence : Q) : Q :=
  let confidence := base_confidence in
  if (20 <? String.length pattern)%nat then confidence + 0.05
  else confidence.

Fixpoint scan_rules (intent text : string) (patterns : list (string * Q))
    (best : string * Q) : Res (string * Q) :=
  match patterns with
  | [] => mret best
  | (pattern, base_confidence) :: patterns' =>
      mt ← re_search pattern text;
      let best :=
        match mt with
        | Some _ =>
            let confidence := rule_confidence pattern base_confidence in
            if Qgtb confidence (snd best) then (intent, confidence)
            else best
        | None => best
        end in
      scan_rules intent text patterns' best
  end.

Fixpoint scan_intents (text : string)
    (table : list (string * list (string * Q))) (best : string * Q)
    : Res (string * Q) :=
  match table with
  | [] => mret best
  | (intent, patterns) :: table' =>
      best ← scan_rules intent text patterns best;
      scan_intents text table' best
  end.

Definition _classify_intent (text : string) : Res (string * Q) :=
  let best_intent := "product.list" in
  let best_confidence := 0.5 in
  scan_intents text INTENT_PATTERNS (best_intent, best_confidence).

Definition _extract_slots (text text_lower intent : string)
    : Res (list Slot) :=
  if String.eqb intent "product.create"
  then extract_create_slots text text_lower
  else if String.eqb intent "product.update"
  then extract_update_slots text text_lower
  else if String.eqb intent "product.delete"
  then extract_delete_slots text text_lower
  else if String.eqb intent "product.get"
  then extract_get_slots text text_lower
  else mret [].

Definition _post_process_slots (slots : list Slot) (intent text : string)
    : Res (list Slot) :=
  if String.eqb intent "product.create" then
    if existsb (fun slot => String.eqb (name slot) "description") slots
    then mret slots
    else
      desc_slot ← extract_description_fallback text slots;
      mret (append_opt slots desc_slot)
  else mret slots.

Definition classify (text : string) : Res IntentSlotResult :=
  let text_lower := Py.lower text in
  '(intent, intent_confidence) ← _classify_intent text_lower;
  slots ← _extract_slots text text_lower intent;
  slots ← _post_process_slots slots intent text;
  mret (mkIntentSlotResult intent intent_confidence slots text).

(** The dictionary [to_dict] returns. *)
Record ToolDict := mkToolDict {
  d_tool_name : string;
  d_tool_args : gmap string pyvalue;
  d_confidence : Q;
  d_method : string;
  d_slots : list (string * pyvalue * Q)
}.

Definition recent_words : list string := ["recent"; "latest"; "newest"].

Definition to_dict (result : IntentSlotResult) : ToolDict :=
  let tool_args : gmap string pyvalue :=
    fold_left (fun args slot => <[name slot := value slot]> args)
              (slots result) ∅ in
  let tool_args :=
    if String.eqb (intent result) "product.list"
       && existsb (fun word => Py.contains word (Py.lower (raw_text result)))
                  recent_words
    then <["recent_only" := VBool true]> (<["limit" := VInt 1]> tool_args)
    else tool_args in
  mkToolDict (intent result) tool_args (intent_confidence result)
             "ml_joint_classifier"
             (map (fun slot => (name slot, value slot, confidence slot))
                  (slots result)).

End Joint.

(** ** chat_api/classifier: the corpus-trained classifier *)

Module Corpus.

(** models.py *)
Record QueryPattern := mkQueryPattern {
  query_pattern : string;
  qp_tool_name : string;
  qp_tool_args : string;
  qp_confidence : Q;
  qp_query_type : string;
  qp_entity : string;
  qp_intent : string;
  qp_description : string
}.

Record ClassificationResult := mkClassificationResult {
  tool_name : string;
  tool_args : gmap string pyvalue;
  confidence : Q;
  method : string;
  query_type : string;
  entity : string;
  intent : string;
  description : string
}.

(** argument_extractor.py *)
Module ArgumentExtractor.

Definition name_patterns : list string :=
  [ "(?:add|create|new product called?|product called?|named?)\s+([^,]+?)(?:\s*,|\s+with|\s+price|$)";
    "(?:add|create)\s+([^,]+?)(?:\s*,|\s+with|\s+price|$)" ].

Definition price_patterns : list string :=
  [ "price\s*\$?(\d+(?:\.\d{2})?)";
    "\$(\d+(?:\.\d{2})?)";
    "(\d+(?:\.\d{2})?)\s*dollars?";
    "(\d+(?:\.\d{2})?)\s*USD" ].

Definition id_patterns : list string :=
  [ "(?:product\s+)?id\s+(\d+)";
    "(?:update|modify|change|edit|delete|remove|drop|get|find|retrieve)\s+(?:product\s+)?(\d+)" ].

Definition description_patterns : list string :=
  [ "with\s+([^,]+?)(?:\s*,|\s+price|$)";
    "description[:\s]+([^,]+?)(?:\s*,|\s+price|$)";
    "features?[:\s]+([^,]+?)(?:\s*,|\s+price|$)" ].

Definition name_prefix_patterns : list string :=
  [ "starting\s+with\s+([A-Za-z])";
    "that\s+start\s+with\s+([A-Za-z])";
    "beginning\s+with\s+([A-Za-z])";
    "starting\s+with\s+letter\s+([A-Za-z])" ].

(** [match.group(1)] of the first pattern that matches. *)
Fixpoint first_group (patterns : list string) (message_lower : string)
    : Res (option string) :=
  match patterns with
  | [] => mret None
  | pattern :: patterns' =>
      mt ← re_search pattern message_lower;
      match mt with
      | Some mt =>
          match Re.group mt 1 with
          | Some g => mret (Some g)
          | None => Raise AttributeError
          end
      | None => first_group patterns' message_lower
      end
  end.

Definition _extract_name_prefix (message message_lower : string)
    : Res (option string) :=
  g ← first_group name_prefix_patterns message_lower;
  mret (option_map (fun g => Py.upper (Py.strip g)) g).

Definition _extract_name (message message_lower : string)
    : Res (option string) :=
  g ← first_group name_patterns message_lower;
  match g with
  | Some g =>
      let name := Py.strip g in
      name ← re_sub "\s+" " " name;
      mret (Some (Py.title name))
  | None => mret None
  end.

(** The loops of [_extract_price] and [_extract_id]: the first
    pattern that matches and whose capture converts. *)
Fixpoint first_converted {A} (conv : string -> option A)
    (patterns : list string) (message_lower : string)
    : Res (option A) :=
  match patterns with
  | [] => mret None
  | pattern :: patterns' =>
      mt ← re_search pattern message_lower;
      match mt with
      | Some mt =>
          match Re.group mt 1 with
          | Some g =>
              match conv g with
              | Some v => mret (Some v)
              | None => first_converted conv patterns' message_lower
              end
          | None => Raise TypeError
          end
      | None => first_converted conv patterns' message_lower
      end
  end.

Definition _extract_price (message message_lower : string)
    : Res (option Q) :=
  first_converted Py.float_of_str price_patterns message_lower.

Definition _extract_id (message message_lower : string)
    : Res (option Z) :=
  first_converted Py.int_of_str id_patterns message_lower.

Definition name_prefix : string :=
  "(?:add|create|new product called?|product called?|named?)\s+".

Definition price_pattern (v : string) : string :=
  "price\s*\$?" ++ v ++ "|$" ++ v ++ "|" ++ v ++ "\s*dollars?".

(** Truth values of the optional results: [None], the empty string
    and zero are false. *)
Definition truthy_str (o : option string) : bool :=
  match o with Some s => negb (String.eqb s "") | None => false end.

Definition truthy_float (o : option Q) : bool :=
  match o with Some q => negb (Qeq_bool q 0) | None => false end.

Definition truthy_int (o : option Z) : bool :=
  match o with Some z => negb (z =? 0)%Z | None => false end.

Definition _extract_description (message message_lower : string)
    : Res (option string) :=
  g ← first_group description_patterns message_lower;
  match g with
  | Some g =>
      let description := Py.strip g in
      description ← re_sub "\s+" " " description;
      mret (Some description)
  | None =>
      name ← _extract_name message message_lower;
      price ← _extract_price message message_lower;
      match name with
      | Some n =>
          if truthy_str name then
            let temp_message := message_lower in
            temp_message ←
              re_sub (name_prefix ++ Re.escape (Py.lower n)) ""
                     temp_message;
            temp_message ←
              match price with
              | Some p =>
                  if truthy_float price
                  then re_sub (price_pattern (Py.str_of_float p)) ""
                              temp_message
                  else mret temp_message
              | None => mret temp_message
              end;
            temp_message ← re_sub "^\s*[,]\s*" "" temp_message;
            temp_message ← re_sub "\s+" " " temp_message;
            let temp_message := Py.strip temp_message in
            if (2 <? String.length temp_message)%nat
            then mret (Some temp_message)
            else mret None
          else mret None
      | None => mret None
      end
  end.

(** [if v: args[key] = v] *)
Definition set_if {A} (truthy : option A -> bool) (inj : A -> pyvalue)
    (key : string) (o : option A) (args : gmap string pyvalue)
    : gmap string pyvalue :=
  match o with
  | Some v => if truthy o then <[key := inj v]> args else args
  | None => args
  end.

Definition _extract_create_args (message message_lower : string)
    : Res (gmap string pyvalue) :=
  let args : gmap string pyvalue := ∅ in
  name ← _extract_name message message_lower;
  let args := set_if truthy_str VStr "name" name args in
  price ← _extract_price message message_lower;
  let args := set_if truthy_float VFloat "price" price args in
  description ← _extract_description message message_lower;
  let args := set_if truthy_str VStr "description" description args in
  mret args.

Definition _extract_update_args (message message_lower : string)
    : Res (gmap string pyvalue) :=
  let args : gmap string pyvalue := ∅ in
  product_id ← _extract_id message message_lower;
  let args := set_if truthy_int VInt "id" product_id args in
  name ← _extract_name message message_lower;
  let args := set_if truthy_str VStr "name" name args in
  price ← _extract_price message message_lower;
  let args := set_if truthy_float VFloat "price" price args in
  description ← _extract_description message message_lower;
  let args := set_if truthy_str VStr "description" description args in
  mret args.

Definition _extract_delete_args (message message_lower : string)
    : Res (gmap string pyvalue) :=
  let args : gmap string pyvalue := ∅ in
  product_id ← _extract_id message message_lower;
  let args := set_if truthy_int VInt "id" product_id args in
  mret args.

Definition _extract_get_args (message message_lower : string)
    : Res (gmap string pyvalue) :=
  let args : gmap string pyvalue := ∅ in
  product_id ← _extract_id message message_lower;
  let args := set_if truthy_int VInt "id" product_id args in
  mret args.

Definition _extract_list_args (message message_lower : string)
    : Res (gmap string pyvalue) :=
  let args : gmap string pyvalue := ∅ in
  name_prefix ← _extract_name_prefix message message_lower;
  let args := set_if truthy_str VStr "name_prefix" name_prefix args in
  mret args.

Definition extract_arguments (message tool_name : string)
    (static_args : gmap string pyvalue) : Res (gmap string pyvalue) :=
  let message_lower := Py.lower message in
  if String.eqb tool_name "product.create"
  then _extract_create_args message message_lower
  else if String.eqb tool_name "product.update"
  then _extract_update_args message message_lower
  else if String.eqb tool_name "product.delete"
  then _extract_delete_args message message_lower
  else if String.eqb tool_name "product.get"
  then _extract_get_args message message_lower
  else if String.eqb tool_name "product.list"
  then _extract_list_args message message_lower
  else mret static_args.

End ArgumentExtractor.

(** What the code uses of a fitted scikit-learn pipeline: the class
    it predicts for a message and the class probabilities. *)
Record Pipeline := mkPipeline {
  predict : string -> string;
  predict_proba : string -> list Q
}.

(** [max(xs)]: the first greatest element; [ValueError] on an empty
    sequence. *)
Definition py_max (xs : list Q) : Res Q :=
  match xs with
  | [] => Raise ValueError
  | x :: xs' => mret (fold_left (fun mx y => if Qgtb y mx then y else mx) xs' x)
  end.

(** training/ml_classifier.py *)
Module MLClassifier.
Section WithLibraries.

(** [Pipeline([...]).fit(texts, tool_names)] of scikit-learn, which may
    raise, and [ast.literal_eval], whose [None] is any exception. *)
Variable fit : list string -> list string -> Res Pipeline.
Variable literal_eval : string -> option (gmap string pyvalue).

Record t := mk {
  patterns : list QueryPattern;
  pipeline : option Pipeline;
  is_trained : bool
}.

(** [MLClassifier(patterns)] *)
Definition init (patterns : list QueryPattern) : t :=
  mk patterns None false.

Definition train (self : t) : Res t :=
  match patterns self with
  | [] => mret self
  | _ =>
      let texts := map query_pattern (patterns self) in
      let tool_names := map qp_tool_name (patterns self) in
      p ← fit texts tool_names;
      mret (mk (patterns self) (Some p) true)
  end.

Definition words (s : string) : gset string :=
  list_to_set (Py.split (Py.lower s)).

Definition _calculate_similarity (message pattern : string) : Q :=
  let message_words := words message in
  let pattern_words := words pattern in
  if decide (pattern_words = ∅) then 0
  else
    let intersection := message_words ∩ pattern_words in
    let union := message_words ∪ pattern_words in
    if decide (union = ∅) then 0
    else Z.of_nat (size intersection) # Pos.of_nat (size union).

Definition _default_result (message : string) : ClassificationResult :=
  mkClassificationResult "product.list" ∅ 0.5 "default" "simple"
                         "products" "list" "Default fallback".

(** The loop over the corpus: the running best pattern and its
    similarity. *)
Fixpoint best_match (message predicted_tool : string)
    (patterns : list QueryPattern) (best : option QueryPattern * Q)
    : option QueryPattern * Q :=
  match patterns with
  | [] => best
  | pattern :: patterns' =>
      let best :=
        if String.eqb (qp_tool_name pattern) predicted_tool then
          let similarity :=
            _calculate_similarity message (query_pattern pattern) in
          if Qgtb similarity (snd best) then (Some pattern, similarity)
          else best
        else best in
      best_match message predicted_tool patterns' best
  end.

Definition classify (self : t) (message : string)
    : Res (ClassificationResult * t) :=
  self ← (if is_trained self then mret self else train self);
  match pipeline self with
  | None => mret (_default_result message, self)
  | Some p =>
      let predicted_tool := predict p message in
      let proba := predict_proba p message in
      confidence ← py_max proba;
      let best_pattern := None in
      let best_similarity := 0 in
      match fst (best_match message predicted_tool (patterns self)
                            (best_pattern, best_similarity)) with
      | Some best_pattern =>
          let tool_args :=
            match literal_eval (qp_tool_args best_pattern) with
            | Some d => d
            | None => ∅
            end in
          mret (mkClassificationResult
                  (qp_tool_name best_pattern)
                  tool_args
                  (confidence * qp_confidence best_pattern)
                  "ml_classifier"
                  (qp_query_type best_pattern)
                  (qp_entity best_pattern)
                  (qp_intent best_pattern)
                  (qp_description best_pattern), self)
      | None => mret (_default_result message, self)
      end
  end.

End WithLibraries.
End MLClassifier.

(** csv_classifier.py *)
Module CSVBasedClassifier.
Section WithLibraries.

Variable fit : list string -> list string -> Res Pipeline.
Variable literal_eval : string -> option (gmap string pyvalue).

(** The dictionary [ModelPersistence.load_model] returns: the keys it
    may hold; the empty dictionary stands for a failed load. *)
Record model_data := mkModelData {
  md_pipeline : option Pipeline;
  md_patterns : option (list QueryPattern)
}.

Variable load_model_data : model_data.

Record t := mk {
  patterns : list QueryPattern;
  ml_classifier : option MLClassifier.t;
  is_loaded : bool
}.

Definition init : t := mk [] None false.

Definition load_model (self : t) : Res t :=
  match md_pipeline load_model_data, md_patterns load_model_data with
  | None, None => Raise OSError
  | pl, ps =>
      let patterns := match ps with Some l => l | None => [] end in
      let ml := MLClassifier.init patterns in
      let ml := match pl with
                | Some p => MLClassifier.mk patterns (Some p) true
                | None => ml
                end in
      mret (mk patterns (Some ml) true)
  end.

Definition recent_words : list string := ["recent"; "latest"; "newest"].

Definition _enhance_with_dynamic_extraction (message : string)
    (result : ClassificationResult) : Res ClassificationResult :=
  dynamic_args ←
    ArgumentExtractor.extract_arguments message (tool_name result)
                                        (tool_args result);
  let dynamic_args :=
    if String.eqb (tool_name result) "product.list"
       && existsb (fun word => Py.contains word (Py.lower message))
                  recent_words
    then <["recent_only" := VBool true]>
           (<["limit" := VInt 1]> dynamic_args)
    else dynamic_args in
  mret (mkClassificationResult
          (tool_name result) dynamic_args (confidence result)
          (method result) (query_type result) (entity result)
          (intent result) (description result)).

(** [_result_to_dict] copies the eight fields into a dictionary. *)
Definition _result_to_dict (result : ClassificationResult)
    : ClassificationResult := result.

Definition classify (self : t) (message : string)
    : Res (ClassificationResult * t) :=
  self ← (if is_loaded self then mret self else load_model self);
  match ml_classifier self with
  | None => Raise AttributeError
  | Some ml =>
      '(ml_result, ml) ← MLClassifier.classify fit literal_eval ml message;
      enhanced_result ← _enhance_with_dynamic_extraction message ml_result;
      mret (_result_to_dict enhanced_result,
            mk (patterns self) (Some ml) (is_loaded self))
  end.

End WithLibraries.
End CSVBasedClassifier.

(** training/csv_loader.py *)
Module CSVPatternLoader.

(** A row as [csv.DictReader] yields it: the value of a column is
    [None] when the row is shorter than the header. *)
Abbreviation row := (gmap string (option string)).

(** A CSV file: [Raise] when it cannot be opened or read. *)
Abbreviation csv_file := (Res (list row)).

(** [row[key].strip()] *)
Definition field (r : row) (key : string) : Res string :=
  match r !! key with
  | None => Raise KeyError
  | Some None => Raise AttributeError
  | Some (Some s) => mret (Py.strip s)
  end.

(** [float(row[key])] *)
Definition float_field (r : row) (key : string) : Res Q :=
  match r !! key with
  | None => Raise KeyError
  | Some None => Raise TypeError
  | Some (Some s) =>
      match Py.float_of_str s with
      | Some q => mret q
      | None => Raise ValueError
      end
  end.

(** The [QueryPattern(...)] call of the loop body. *)
Definition pattern_of_row (r : row) : Res QueryPattern :=
  query_pattern ← field r "query_pattern";
  tool_name ← field r "tool_name";
  tool_args ← field r "tool_args";
  confidence ← float_field r "confidence";
  query_type ← field r "query_type";
  entity ← field r "entity";
  intent ← field r "intent";
  description ← field r "description";
  mret (mkQueryPattern query_pattern tool_name tool_args confidence
                       query_type entity intent description).

(** The [for row in reader] loop inside the [try]: an exception
    leaves the loop, and the patterns appended so far are returned. *)
Fixpoint load_rows (rows : list row) (patterns : list QueryPattern)
    : list QueryPattern :=
  match rows with
  | [] => patterns
  | r :: rows' =>
      match pattern_of_row r with
      | Ok pattern => load_rows rows' (patterns ++ [pattern])
      | Raise _ => patterns
      end
  end.

Definition _load_csv_file (f : csv_file) : list QueryPattern :=
  match f with
  | Ok rows => load_rows rows []
  | Raise _ => []
  end.

(** [load_patterns_from_csv]; [files] are the files of the data
    directory in the order [glob] yields them. *)
Definition load_patterns_from_csv (files : list csv_file)
    : list QueryPattern :=
  fold_left (fun patterns f => patterns ++ _load_csv_file f) files [].

End CSVPatternLoader.

End Corpus.

(** ** chat_api/classifier: persistence and training *)

(** persistence.py *)
Module ModelPersistence.

(** The dictionary [save_model] hands to [pickle.dump], for a pipeline
    that is set. *)
Definition save_model (pipeline : Corpus.Pipeline)
    (patterns : list Corpus.QueryPattern)
    : Corpus.CSVBasedClassifier.model_data :=
  Corpus.CSVBasedClassifier.mkModelData (Some pipeline) (Some patterns).

End ModelPersistence.

(** training/trainer.py *)
Module ClassifierTrainer.
Section WithLibraries.

Variable fit : list string -> list string -> Res Corpus.Pipeline.

Record t := mk {
  patterns : list Corpus.QueryPattern;
  ml_classifier : option Corpus.MLClassifier.t
}.

Definition init : t := mk [] None.

(** [train]; [files] are the CSV files of the data directory. *)
Definition train (self : t) (files : list Corpus.CSVPatternLoader.csv_file)
    : Res (option Corpus.MLClassifier.t * t) :=
  let patterns := Corpus.CSVPatternLoader.load_patterns_from_csv files in
  let self := mk patterns (ml_classifier self) in
  match patterns with
  | [] => mret (None, self)
  | _ =>
      let ml := Corpus.MLClassifier.init patterns in
      ml ← Corpus.MLClassifier.train fit ml;
      mret (Some ml, mk patterns (Some ml))
  end.

(** [save_trained_model]: the pipeline and the patterns passed to
    [ModelPersistence.save_model], or [None] when nothing is saved. *)
Definition save_trained_model (self : t)
    : option (option Corpus.Pipeline * list Corpus.QueryPattern) :=
  match ml_classifier self with
  | Some ml =>
      if Corpus.MLClassifier.is_trained ml
      then Some (Corpus.MLClassifier.pipeline ml, patterns self)
      else None
  | None => None
  end.

(** The dictionary [get_training_stats] returns. *)
Inductive stats :=
| StatsError (error : string)
| Stats (total_patterns : nat)
        (pattern_types entities intents : gmap string nat)
        (is_trained : bool).

(** [counts[key] = counts.get(key, 0) + 1] *)
Definition count (counts : gmap string nat) (key : string)
    : gmap string nat :=
  <[key := (default 0 (counts !! key) + 1)%nat]> counts.

Definition get_training_stats (self : t) : stats :=
  match patterns self with
  | [] => StatsError "No patterns loaded"
  | _ =>
      let type_counts :=
        fold_left (fun counts pattern =>
                     count counts (Corpus.qp_query_type pattern))
                  (patterns self) ∅ in
      let entity_counts :=
        fold_left (fun counts pattern =>
                     count counts (Corpus.qp_entity pattern))
                  (patterns self) ∅ in
      let intent_counts :=
        fold_left (fun counts pattern =>
                     count counts (Corpus.qp_intent pattern))
                  (patterns self) ∅ in
      Stats (length (patterns self)) type_counts entity_counts intent_counts
            (match ml_classifier self with
             | Some ml => Corpus.MLClassifier.is_trained ml
             | None => false
             end)
  end.

End WithLibraries.
End ClassifierTrainer.

(** ** chat_api/chat: the response message *)

Module Views.

(** A value [json.loads] returns.  No induction over it is needed. *)
#[local] Unset Elimination Schemes.
Inductive json :=
| JNull
| JBool (b : bool)
| JNumber (q : Q)
| JString (s : string)
| JList (items : list json)
| JObject (fields : list (string * json)).
#[local] Set Elimination Schemes.

Definition INTENT_TO_MESSAGE : list (string * string) :=
  [ ("product.create", "Added! Here's the product:");
    ("product.update", "Updated! Here's the product:");
    ("product.delete", "Deleted! Product removed successfully.");
    ("product.get", "Found! Here's the product:");
    ("product.list", "Here are the products:") ].

Definition get_response_message (tool_name : string) (parsed_result : json)
    : string :=
  let base_message := default "ok" (dict_get tool_name INTENT_TO_MESSAGE) in
  match parsed_result with
  | JList items =>
      if String.eqb tool_name "product.list" then
        if (length items =? 1)%nat then "Here's the product:"
        else if (length items =? 0)%nat then "No products found."
        else "Here are the products:"
      else base_message
  | _ => base_message
  end.

End Views.

(** ** Definitions used to state the properties *)

(** The five tool identifiers. *)
Definition tool_ids : list string :=
  ["product.create"; "product.update"; "product.delete"; "product.get";
   "product.list"].

Definition in_unit (q : Q) : Prop := 0 <= q /\ q <= 1.

(** A running maximum with a strict test, as both classifiers keep it:
    an element replaces the best so far only when its score is strictly
    greater. *)
Section Pick.
Context {A B : Type}.
Variable score : A -> Q.
Variable lab : A -> B.

Fixpoint pick (l : list A) (best : B * Q) : B * Q :=
  match l with
  | [] => best
  | x :: l' =>
      pick l' (if Qgtb (score x) (snd best) then (lab x, score x) else best)
  end.

(** [h] is the first element of [l] with the greatest score. *)
Definition first_max (l : list A) (h : A) : Prop :=
  exists l1 l2,
    l = l1 ++ h :: l2 /\
    Forall (fun x => score x < score h) l1 /\
    Forall (fun x => score x <= score h) l2.
End Pick.

(** The rules of the intent table in the order the loops visit them:
    intent by intent, and rule by rule within an intent. *)
Definition tag_rules (intent : string) (patterns : list (string * Q))
    : list (string * string * Q) :=
  map (fun '(pattern, base) => (intent, pattern, base)) patterns.

Definition all_rules : list (string * string * Q) :=
  flat_map (fun '(intent, patterns) => tag_rules intent patterns)
           Joint.INTENT_PATTERNS.

Definition rule_intent (x : string * string * Q) : string := fst (fst x).

(** The score of a rule as the specification words it: the base
    confidence, plus 0.05 when the pattern text is longer than 20. *)
Definition rule_score (x : string * string * Q) : Q :=
  let '(_, pattern, base) := x in
  if (20 <? String.length pattern)%nat then base + 0.05 else base.

(** [pattern] matches somewhere in [text]. *)
Definition rule_matches (text : string) (x : string * string * Q) : bool :=
  match re_search (snd (fst x)) text with
  | Ok (Some _) => true
  | _ => false
  end.

(** The rules that match [text], in table order. *)
Definition matching_rules (text : string) : list (string * string * Q) :=
  List.filter (rule_matches text) all_rules.

(** [re.compile] accepts the pattern. *)
Definition compiles (pattern : string) : bool :=
  match Re.compile pattern with Some _ => true | None => false end.

Definition rules_compile (patterns : list (string * Q)) : bool :=
  forallb (fun pc => compiles (fst pc)) patterns.

Definition table_compiles (table : list (string * list (string * Q))) : bool :=
  forallb (fun ip => rules_compile (snd ip)) table.

(** Every successful match of [r] captures group [n]: the group lies on
    every path through the pattern. *)
Fixpoint sets_group (n : nat) (r : Re.regex) : bool :=
  match r with
  | Re.RGroup i r' => (i =? n)%nat || sets_group n r'
  | Re.RSeq a b => sets_group n a || sets_group n b
  | Re.RAlt a b => sets_group n a && sets_group n b
  | Re.RRep mn _ _ r' => (0 <? mn)%nat && sets_group n r'
  | _ => false
  end.

Definition cap_set (n : nat) (st : Re.mstate) : bool :=
  match Re.lookup_cap n (Re.caps st) with Some _ => true | None => false end.

(** The pattern compiles and every match of it captures group 1. *)
Definition captures_one (pattern : string) : bool :=
  match Re.compile pattern with
  | Some r => sets_group 1 r
  | None => false
  end.

(** A later matcher state keeps group [n] when the earlier one had it. *)
Definition keeps (n : nat) (st st' : Re.mstate) : Prop :=
  cap_set n st = true -> cap_set n st' = true.

(** The pattern reader is between two items of the outermost group. *)
Definition ready (st : Re.pstate) : Prop :=
  Re.mode st = Re.MNormal /\ Re.stack st = [].

(** A character that stands for one item wherever it occurs outside a
    set: here the digits and the point of a printed number. *)
Definition plain (c : ascii) : bool := Py.is_digit c || Ascii.eqb c ".".

(** The values the processors give the name and price slots. *)
Definition slot_value_ok (slot_name : string) (v : pyvalue) : Prop :=
  (slot_name = "name" -> exists s, v = VStr s) /\
  (slot_name = "price" -> exists q, v = VFloat q).

Definition slot_ok (s : Joint.Slot) : Prop :=
  slot_value_ok (Joint.name s) (Joint.value s).

Definition table_captures (table : list (string * list (string * Q))) : bool :=
  forallb (fun ip => forallb (fun pc => captures_one (fst pc)) (snd ip)) table.

(** The corpus patterns labelled with the predicted tool, in corpus
    order. *)
Definition candidates (predicted_tool : string)
    (patterns : list Corpus.QueryPattern) : list Corpus.QueryPattern :=
  List.filter (fun p => String.eqb (Corpus.qp_tool_name p) predicted_tool)
              patterns.

(** Word-set Jaccard similarity as the specification words it: the
    number of common words over the number of words of either text,
    both lower-cased and split at whitespace. *)
Definition jaccard (message pattern : string) : Q :=
  let a : gset string := list_to_set (Py.split (Py.lower message)) in
  let b : gset string := list_to_set (Py.split (Py.lower pattern)) in
  if decide (b = ∅) then 0
  else Z.of_nat (size (a ∩ b)) # Pos.of_nat (size (a ∪ b)).

Definition similarity (message : string) (p : Corpus.QueryPattern) : Q :=
  Corpus.MLClassifier._calculate_similarity message (Corpus.query_pattern p).

(** The result the corpus classifier builds from the selected pattern. *)
Definition result_of (literal_eval : string -> option (gmap string pyvalue))
    (predicted_confidence : Q) (h : Corpus.QueryPattern)
    : Corpus.ClassificationResult :=
  Corpus.mkClassificationResult
    (Corpus.qp_tool_name h)
    (match literal_eval (Corpus.qp_tool_args h) with
     | Some d => d
     | None => ∅
     end)
    (predicted_confidence * Corpus.qp_confidence h)
    "ml_classifier"
    (Corpus.qp_query_type h) (Corpus.qp_entity h) (Corpus.qp_intent h)
    (Corpus.qp_description h).

(** The class probabilities of a pipeline are probabilities, at least
    one of them. *)
Definition pipeline_ok (p : Corpus.Pipeline) : Prop :=
  forall message,
    Corpus.predict_proba p message <> [] /\
    Forall in_unit (Corpus.predict_proba p message).

(** A corpus whose confidences lie in [0,1] and whose tools are among the
    five. *)
Definition confidences_ok (patterns : list Corpus.QueryPattern) : Prop :=
  Forall (fun p => in_unit (Corpus.qp_confidence p)) patterns.

Definition tools_ok (patterns : list Corpus.QueryPattern) : Prop :=
  Forall (fun p => In (Corpus.qp_tool_name p) tool_ids) patterns.

(** A classifier that holds a fitted pipeline, as [load_model] and
    [train] leave it. *)
Definition trained (self : Corpus.MLClassifier.t) (p : Corpus.Pipeline) : Prop :=
  Corpus.MLClassifier.is_trained self = true /\
  Corpus.MLClassifier.pipeline self = Some p.

(** The states in which the corpus classifier can answer: a fitted
    pipeline is held, or none is needed (no pattern), or fitting the
    corpus succeeds. *)
Inductive usable (fit : list string -> list string -> Res Corpus.Pipeline)
    : Corpus.MLClassifier.t -> Prop :=
| usable_trained self p :
    trained self p -> pipeline_ok p -> usable fit self
| usable_empty self :
    Corpus.MLClassifier.is_trained self = false ->
    Corpus.MLClassifier.pipeline self = None ->
    Corpus.MLClassifier.patterns self = [] -> usable fit self
| usable_fit self p :
    Corpus.MLClassifier.is_trained self = false ->
    Corpus.MLClassifier.patterns self <> [] ->
    fit (map Corpus.query_pattern (Corpus.MLClassifier.patterns self))
        (map Corpus.qp_tool_name (Corpus.MLClassifier.patterns self)) = Ok p ->
    pipeline_ok p -> usable fit self.

(** *** Concrete libraries and corpora for the examples *)

(** A pipeline that predicts [tool] for every message with probability
    [proba]. *)
Definition const_pipeline (tool : string) (proba : Q) : Corpus.Pipeline :=
  Corpus.mkPipeline (fun _ => tool) (fun _ => [proba]).

(** A fit that learns the first label. *)
Definition first_label_fit (texts tool_names : list string)
    : Res Corpus.Pipeline :=
  match tool_names with
  | n :: _ => Ok (const_pipeline n 1)
  | [] => Raise ValueError
  end.

(** [ast.literal_eval] on the empty dictionary literal; any other text
    is left unevaluated (the exception branch). *)
Definition empty_dict_eval (s : string) : option (gmap string pyvalue) :=
  if String.eqb s "{}" then Some ∅ else None.

Definition list_pattern : Corpus.QueryPattern :=
  Corpus.mkQueryPattern "list products" "product.list" "{}" 0.9
                        "simple" "products" "list" "List all products".

Definition list_all_pattern : Corpus.QueryPattern :=
  Corpus.mkQueryPattern "list all products" "product.list" "{}" 0.8
                        "simple" "products" "list" "List every product".

Definition search_pattern : Corpus.QueryPattern :=
  Corpus.mkQueryPattern "search gadgets" "product.search" "{}" 0.9
                        "simple" "products" "search" "Search products".

Definition list_classifier : Corpus.MLClassifier.t :=
  Corpus.MLClassifier.mk [list_pattern; list_all_pattern]
                         (Some (const_pipeline "product.list" 1)) true.

Definition search_classifier : Corpus.MLClassifier.t :=
  Corpus.MLClassifier.mk [search_pattern]
                         (Some (const_pipeline "product.search" 1)) true.

(** The raw text mentions recency: [any(word in text.lower() for word in
    ["recent", "latest", "newest"])]. *)
Definition mentions_recent (text : string) : bool :=
  existsb (fun word => Py.contains word (Py.lower text))
          ["recent"; "latest"; "newest"].

(** A corpus result with [arguments] in place of its arguments. *)
Definition with_args (result : Corpus.ClassificationResult)
    (arguments : gmap string pyvalue) : Corpus.ClassificationResult :=
  Corpus.mkClassificationResult
    (Corpus.tool_name result) arguments (Corpus.confidence result)
    (Corpus.method result) (Corpus.query_type result) (Corpus.entity result)
    (Corpus.intent result) (Corpus.description result).

(** A list result whose template asks for ten products. *)
Definition list_ten_result : Corpus.ClassificationResult :=
  Corpus.mkClassificationResult "product.list" {[ "limit" := VInt 10 ]}
    0.9 "ml_classifier" "simple" "products" "list" "List products".

Definition lamp_text : string :=
  "add Smart Lamp, with remote control, price $49.99".

(** Rows of a pattern file: two well-formed rows, and a row whose
    confidence is not a number. *)
Definition csv_row (query_pattern tool_name confidence : string)
    : Corpus.CSVPatternLoader.row :=
  list_to_map
    [ ("query_pattern", Some query_pattern); ("tool_name", Some tool_name);
      ("tool_args", Some "{}"); ("confidence", Some confidence);
      ("query_type", Some "simple"); ("entity", Some "products");
      ("intent", Some "list"); ("description", Some "List products") ].

Definition good_row_1 := csv_row "list products" "product.list" "0.9".
Definition bad_row := csv_row "show products" "product.list" "high".
Definition good_row_2 := csv_row "show all products" "product.list" "0.8".

(** Every row of [rows] parses, to the patterns [pats] in order. *)
Definition rows_parse (rows : list Corpus.CSVPatternLoader.row)
    (pats : list Corpus.QueryPattern) : Prop :=
  Forall2 (fun r p => Corpus.CSVPatternLoader.pattern_of_row r = Ok p)
          rows pats.

(** *** A relational reading of the matcher

    [matches r st st'] : the pattern [r] can take the matcher from state
    [st] to state [st'].  A repetition [r{mn,..}] is [r] followed by
    [r{mn-1,..}], and may stop when its minimum is 0; the maximum is not
    recorded, so the relation over-approximates the matcher. *)

(** The test of a pattern that reads one character. *)
Definition atom_pred (r : Re.regex) : option (ascii -> bool) :=
  match r with
  | Re.RChar c => Some (Ascii.eqb c)
  | Re.RAny => Some (fun x => negb (Ascii.eqb x "010"%char))
  | Re.RClass neg c => Some (fun x => xorb neg (Re.in_cls c x))
  | Re.RSet neg items =>
      Some (fun x => xorb neg (existsb (Re.in_item x) items))
  | _ => None
  end.

Inductive matches : Re.regex -> Re.mstate -> Re.mstate -> Prop :=
| M_empty st : matches Re.REmpty st st
| M_atom r p x l st :
    atom_pred r = Some p -> Re.rest st = x :: l -> p x = true ->
    matches r st (Re.advance st x l)
| M_bol st : matches Re.RBol st st
| M_eol st : matches Re.REol st st
| M_wordb neg st : matches (Re.RWordB neg) st st
| M_seq a b st st1 st2 :
    matches a st st1 -> matches b st1 st2 -> matches (Re.RSeq a b) st st2
| M_alt_l a b st st' : matches a st st' -> matches (Re.RAlt a b) st st'
| M_alt_r a b st st' : matches b st st' -> matches (Re.RAlt a b) st st'
| M_group n r st st' :
    matches r st st' ->
    matches (Re.RGroup n r) st (Re.set_cap n (Re.pos st) st')
| M_rep_stop mx greedy r st : matches (Re.RRep 0 mx greedy r) st st
| M_rep_more mn mx greedy r st st1 st2 :
    matches r st st1 ->
    matches (Re.RRep (Nat.pred mn) mx greedy r) st1 st2 ->
    matches (Re.RRep mn mx greedy r) st st2.

(** All 256 characters. *)
Definition all_chars : list ascii := map ascii_of_nat (seq 0 256).

(** Every match of [r] reads the character [c]. *)
Fixpoint needs (c : ascii) (r : Re.regex) : bool :=
  match r with
  | Re.RChar x => Ascii.eqb x c
  | Re.RSeq a b => needs c a || needs c b
  | Re.RAlt a b => needs c a && needs c b
  | Re.RRep mn _ _ r' => (0 <? mn)%nat && needs c r'
  | Re.RGroup _ r' => needs c r'
  | _ => false
  end.

(** Every character a match of [r] reads satisfies [P]. *)
Fixpoint reads_only (P : ascii -> bool) (r : Re.regex) : bool :=
  match r with
  | Re.RSeq a b | Re.RAlt a b => reads_only P a && reads_only P b
  | Re.RRep _ _ _ r' | Re.RGroup _ r' => reads_only P r'
  | _ =>
      match atom_pred r with
      | Some p => forallb (fun x => implb (p x) (P x)) all_chars
      | None => true
      end
  end.

(** Every group numbered [n] in [r] only reads characters that satisfy
    [P]. *)
Fixpoint group_reads (P : ascii -> bool) (n : nat) (r : Re.regex) : bool :=
  match r with
  | Re.RSeq a b | Re.RAlt a b => group_reads P n a && group_reads P n b
  | Re.RRep _ _ _ r' => group_reads P n r'
  | Re.RGroup i r' =>
      (if (i =? n)%nat then reads_only P r' else true) && group_reads P n r'
  | _ => true
  end.

(** The state lies in the subject [subj]: what is left to read is the
    subject from the position on. *)
Definition in_subject (subj : Py.chars) (st : Re.mstate) : Prop :=
  Re.rest st = skipn (Re.pos st) subj /\ (Re.pos st <= length subj)%nat.

(** Every capture of group [n] recorded in the state satisfies [P]
    throughout. *)
Definition caps_read (P : ascii -> bool) (n : nat) (subj : Py.chars)
    (st : Re.mstate) : Prop :=
  forall s e, Re.lookup_cap n (Re.caps st) = Some (s, e) ->
              forallb P (Re.slice subj s e) = true.

(** *** Definitions for the further properties *)

Definition no_space (c : ascii) : bool := negb (Py.is_space c).

(** The pattern compiles, every match captures group 1, and group 1 only
    reads characters that satisfy [P]. *)
Definition capture_ok (P : ascii -> bool) (pattern : string) : bool :=
  match Re.compile pattern with
  | Some r => sets_group 1 r && group_reads P 1 r
  | None => false
  end.

(** The pattern compiles and every match of it reads the character
    [c]. *)
Definition pattern_needs (c : ascii) (pattern : string) : bool :=
  match Re.compile pattern with
  | Some r => needs c r
  | None => false
  end.

(** The rule-based outcome [o] and the corpus outcome [a] of one
    extraction are the same: both nothing, or a slot named [slot_name]
    whose value is [inj] of the corpus value. *)
Definition same_outcome {A} (inj : A -> pyvalue) (slot_name : string)
    (o : option Joint.Slot) (a : option A) : Prop :=
  match o, a with
  | None, None => True
  | Some s, Some v => Joint.name s = slot_name /\ Joint.value s = inj v
  | _, _ => False
  end.

(** The number of characters every match of [r] reads, when the shape
    of [r] fixes it (repetitions are not analysed). *)
Fixpoint fixed_len (r : Re.regex) : option nat :=
  match r with
  | Re.RSeq a b =>
      match fixed_len a, fixed_len b with
      | Some x, Some y => Some (x + y)%nat
      | _, _ => None
      end
  | Re.RAlt a b =>
      match fixed_len a, fixed_len b with
      | Some x, Some y => if (x =? y)%nat then Some x else None
      | _, _ => None
      end
  | Re.RGroup _ r' => fixed_len r'
  | Re.RRep _ _ _ _ => None
  | _ => match atom_pred r with Some _ => Some 1%nat | None => Some 0%nat end
  end.

(** Every group numbered [n] in [r] reads exactly [k] characters. *)
Fixpoint group_len (k n : nat) (r : Re.regex) : bool :=
  match r with
  | Re.RSeq a b | Re.RAlt a b => group_len k n a && group_len k n b
  | Re.RRep _ _ _ r' => group_len k n r'
  | Re.RGroup i r' =>
      (if (i =? n)%nat
       then match fixed_len r' with Some x => (x =? k)%nat | None => false end
       else true) && group_len k n r'
  | _ => true
  end.

(** Every capture of group [n] recorded in the state spans [k]
    characters of the subject. *)
Definition caps_span (k n : nat) (subj : Py.chars) (st : Re.mstate) : Prop :=
  forall s e, Re.lookup_cap n (Re.caps st) = Some (s, e) ->
              e = (s + k)%nat /\ (e <= length subj)%nat.

(** The pattern compiles, every match captures group 1, and group 1 is
    one letter. *)
Definition captures_letter (pattern : string) : bool :=
  match Re.compile pattern with
  | Some r =>
      sets_group 1 r && group_reads Py.is_alpha 1 r && group_len 1 1 r
  | None => false
  end.

(** The slots the rule-based classifier asks for, by intent, in the order
    it extracts them. *)
Definition allowed_slots (intent : string) : list string :=
  if String.eqb intent "product.create" then ["name"; "price"; "description"]
  else if String.eqb intent "product.update"
  then ["id"; "name"; "price"; "description"]
  else if String.eqb intent "product.delete" then ["id"]
  else if String.eqb intent "product.get" then ["id"]
  else [].

(** A slot value of the type and range its slot name promises. *)
Definition typed_value (slot_name : string) (v : pyvalue) : Prop :=
  (slot_name = "name" /\ exists s, v = VStr s /\ s <> "") \/
  (slot_name = "price" /\ exists q, v = VFloat q /\ 0 <= q) \/
  (slot_name = "id" /\ exists z, v = VInt z /\ (0 <= z)%Z) \/
  (slot_name = "description" /\ exists s, v = VStr s /\ s <> "").

(** The arguments the corpus extractor may set for a tool. *)
Definition argument_keys (tool : string) : list string :=
  if String.eqb tool "product.create" then ["name"; "price"; "description"]
  else if String.eqb tool "product.update"
  then ["id"; "name"; "price"; "description"]
  else if String.eqb tool "product.delete" then ["id"]
  else if String.eqb tool "product.get" then ["id"]
  else if String.eqb tool "product.list" then ["name_prefix"]
  else [].

(** A value of the type its key has that counts as true in a
    condition: a nonzero number or a nonempty string. *)
Definition truthy_for (key : string) (v : pyvalue) : Prop :=
  match v with
  | VInt z => key = "id" /\ z <> 0%Z
  | VFloat q => key = "price" /\ ~ q == 0
  | VStr s =>
      (key = "name" \/ key = "description" \/ key = "name_prefix") /\ s <> ""
  | VBool _ => False
  end.

(** How often the field [f] of a pattern is [k]. *)
Definition occurrences (f : Corpus.QueryPattern -> string)
    (patterns : list Corpus.QueryPattern) (k : string) : nat :=
  length (List.filter (fun p => String.eqb (f p) k) patterns).

(** [counts] holds, for every value of the field [f], how often it
    occurs, and no entry for a value that does not occur. *)
Definition counts_of (f : Corpus.QueryPattern -> string)
    (patterns : list Corpus.QueryPattern) (counts : gmap string nat) : Prop :=
  forall k n, counts !! k = Some n <->
              n = occurrences f patterns k /\ (0 < n)%nat.

(** A trainer after training on one file with one well-formed row. *)
Definition one_row_patterns : list Corpus.QueryPattern :=
  Corpus.CSVPatternLoader.load_patterns_from_csv [Ok [good_row_1]].

Definition one_row_classifier : Corpus.MLClassifier.t :=
  Corpus.MLClassifier.mk one_row_patterns
                         (Some (const_pipeline "product.list" 1)) true.

Definition one_row_trainer : ClassifierTrainer.t :=
  ClassifierTrainer.mk one_row_patterns (Some one_row_classifier).

(** The characters a capture of the slot's patterns may hold: digits
    and the point for a price or an id, any character otherwise. *)
Definition slot_chars (slot_name : string) (c : ascii) : bool :=
  if String.eqb slot_name "price" || String.eqb slot_name "id"
  then plain c else true.

(** Every pattern of the table compiles, every match of it captures
    group 1, and group 1 only reads the characters of its slot. *)
Definition table_reads (table : list (string * list (string * Q))) : bool :=
  forallb (fun ip =>
             forallb (fun pc => capture_ok (slot_chars (fst ip)) (fst pc))
                     (snd ip))
          table.

(** ** Properties *)

Ltac res_simpl := cbn [mbind mret Res_bind Res_ret].

Lemma bind_Ok {A B} (f : A -> Res B) (a : A) : mbind f (Ok a) = f a.
Proof. reflexivity. Qed.

(** Rewriting steps through a bind whose first computation has returned;
    unlike a conversion step it never compares two matcher terms. *)
Ltac res_step := rewrite ?bind_Ok.

Lemma Qgtb_true a b : Qgtb a b = true <-> b < a.
Proof.
  unfold Qgtb. rewrite negb_true_iff, <- not_true_iff_false, Qle_bool_iff.
  split; [apply Qnot_le_lt | apply Qlt_not_le].
Qed.

Lemma Qgtb_false a b : Qgtb a b = false <-> a <= b.
Proof. unfold Qgtb. rewrite negb_false_iff. apply Qle_bool_iff. Qed.

Section PickFacts.
Context {A B : Type}.
Variable score : A -> Q.
Variable lab : A -> B.

Lemma pick_app l1 l2 best :
  pick score lab (l1 ++ l2) best = pick score lab l2 (pick score lab l1 best).
Proof. revert best. induction l1 as [|x l1 IH]; intros best; simpl; auto. Qed.

(** Either nothing beats the initial score and the initial pair is
    returned, or the first element with the greatest score is. *)
Lemma pick_spec l b0 q0 :
  (Forall (fun x => score x <= q0) l /\ pick score lab l (b0, q0) = (b0, q0))
  \/ (exists h, first_max score l h /\ q0 < score h /\
                pick score lab l (b0, q0) = (lab h, score h)).
Proof.
  revert b0 q0. induction l as [|x l IH]; intros b0 q0; simpl.
  - left. split; [constructor | reflexivity].
  - destruct (Qgtb (score x) q0) eqn:E.
    + apply Qgtb_true in E.
      destruct (IH (lab x) (score x)) as [[Hall Hp] | (h & (l1 & l2 & -> & H1 & H2) & Hlt & Hp)].
      * right. exists x. split; [exists [], l; auto | auto].
      * right. exists h. split; [| split; [eapply Qlt_trans; eauto | exact Hp]].
        exists (x :: l1), l2. split; [reflexivity | split; auto].
    + apply Qgtb_false in E.
      destruct (IH b0 q0) as [[Hall Hp] | (h & (l1 & l2 & -> & H1 & H2) & Hlt & Hp)].
      * left. split; [constructor; auto | exact Hp].
      * right. exists h. split; [| split; [exact Hlt | exact Hp]].
        exists (x :: l1), l2. split; [reflexivity | split; auto].
        constructor; [eapply Qle_lt_trans; eauto | exact H1].
Qed.
End PickFacts.

(** *** The rule-based intent classifier *)

Lemma re_search_compiles pattern text :
  compiles pattern = true ->
  exists r, Re.compile pattern = Some r /\
            re_search pattern text = Ok (Re.search r text).
Proof.
  unfold compiles, re_search. destruct (Re.compile pattern) as [r|]; [|discriminate].
  intros _. exists r. auto.
Qed.

Lemma re_sub_compiles pattern repl text :
  compiles pattern = true ->
  exists s, re_sub pattern repl text = Ok s.
Proof.
  unfold compiles, re_sub. destruct (Re.compile pattern) as [r|]; [|discriminate].
  intros _. eexists. reflexivity.
Qed.

Lemma intent_table_compiles : table_compiles Joint.INTENT_PATTERNS = true.
Proof. vm_compute. reflexivity. Qed.

Lemma slot_table_compiles : table_compiles Joint.SLOT_PATTERNS = true.
Proof. vm_compute. reflexivity. Qed.

Lemma scan_rules_pick intent text patterns best :
  rules_compile patterns = true ->
  Joint.scan_rules intent text patterns best =
  Ok (pick rule_score rule_intent
           (List.filter (rule_matches text) (tag_rules intent patterns)) best).
Proof.
  revert best. induction patterns as [|[p c] ps IH]; intros best H; simpl in *.
  - reflexivity.
  - apply andb_prop in H as [Hp Hps].
    destruct (re_search_compiles p text Hp) as (r & _ & Hs).
    unfold rule_matches; simpl. rewrite Hs. simpl.
    destruct (Re.search r text); simpl; rewrite IH by exact Hps; reflexivity.
Qed.

Lemma scan_intents_pick text table best :
  table_compiles table = true ->
  Joint.scan_intents text table best =
  Ok (pick rule_score rule_intent
           (List.filter (rule_matches text)
              (flat_map (fun '(intent, patterns) => tag_rules intent patterns)
                        table)) best).
Proof.
  revert best. induction table as [|[i ps] tb IH]; intros best H; simpl in *.
  - reflexivity.
  - apply andb_prop in H as [Hp Htb].
    rewrite scan_rules_pick by exact Hp. simpl.
    rewrite IH by exact Htb. rewrite List.filter_app, pick_app. reflexivity.
Qed.

Lemma classify_intent_pick text :
  Joint._classify_intent text =
  Ok (pick rule_score rule_intent (matching_rules text) ("product.list", 0.5)).
Proof.
  unfold Joint._classify_intent.
  rewrite scan_intents_pick by apply intent_table_compiles.
  unfold matching_rules, all_rules. reflexivity.
Qed.

Lemma rule_scores_beat_default :
  forallb (fun x => Qgtb (rule_score x) 0.5) all_rules = true.
Proof. vm_compute. reflexivity. Qed.

Lemma rule_scores_in_unit :
  forallb (fun x => Qle_bool 0 (rule_score x) && Qle_bool (rule_score x) 1)
          all_rules = true.
Proof. vm_compute. reflexivity. Qed.

Lemma rule_intents_known :
  forallb (fun x => existsb (String.eqb (rule_intent x)) tool_ids) all_rules
  = true.
Proof. vm_compute. reflexivity. Qed.

Lemma matching_rules_incl text x :
  In x (matching_rules text) -> In x all_rules /\ rule_matches text x = true.
Proof. unfold matching_rules. apply List.filter_In. Qed.

Lemma first_max_in {A} (score : A -> Q) l h : first_max score l h -> In h l.
Proof. intros (l1 & l2 & -> & _). apply in_or_app. right. left. reflexivity. Qed.

Lemma pick_above_default {A B} (score : A -> Q) (lab : A -> B) l b0 q0 :
  Forall (fun x => q0 < score x) l ->
  (l = [] -> pick score lab l (b0, q0) = (b0, q0)) /\
  (l <> [] -> exists h, first_max score l h /\
                        pick score lab l (b0, q0) = (lab h, score h)).
Proof.
  intros Habove.
  destruct (pick_spec score lab l b0 q0) as [[Hall Hp] | (h & Hmax & Hlt & Hp)].
  - split; [intros _; exact Hp|]. intros Hne.
    destruct l as [|x l']; [congruence|]. exfalso.
    inversion Hall as [|? ? Hx _]; subst. inversion Habove as [|? ? Hy _]; subst.
    apply (Qlt_not_le _ _ Hy Hx).
  - split.
    + intros E. subst l. apply first_max_in in Hmax. destruct Hmax.
    + intros _. exists h. split; [exact Hmax | exact Hp].
Qed.

Lemma matching_rules_above_default text :
  Forall (fun x => 0.5 < rule_score x) (matching_rules text).
Proof.
  apply Forall_forall. intros x Hin.
  apply matching_rules_incl in Hin as [Hin _].
  pose proof rule_scores_beat_default as Hb.
  rewrite forallb_forall in Hb. apply Qgtb_true, Hb, Hin.
Qed.

Lemma classify_intent_of_result text r :
  Joint.classify text = Ok r ->
  Joint._classify_intent (Py.lower text)
  = Ok (Joint.intent r, Joint.intent_confidence r).
Proof.
  unfold Joint.classify. intros Hr.
  destruct (Joint._classify_intent (Py.lower text)) as [[i c]|e];
    simpl in Hr; [|discriminate].
  destruct (Joint._extract_slots text (Py.lower text) i) as [sl|];
    simpl in Hr; [|discriminate].
  destruct (Joint._post_process_slots sl i text) as [sl'|];
    simpl in Hr; [|discriminate].
  injection Hr as <-. reflexivity.
Qed.

(** C3.  For every input, the rule-based intent classifier returns: the
    default [product.list] with confidence 0.5 when no rule matches;
    otherwise the intent and the score of the first rule, in table order
    (intent by intent, then rule by rule), whose score is the greatest
    among the matching rules, where the score of a rule is its base
    confidence plus 0.05 when the pattern text is longer than 20.  The
    public [classify] runs it on the lower-cased input. *)
Theorem C3_rule_intent_selection (text : string) :
  exists best,
    Joint._classify_intent text = Ok best /\
    (matching_rules text = [] -> best = ("product.list", 0.5)) /\
    (matching_rules text <> [] ->
     exists h, first_max rule_score (matching_rules text) h /\
               best = (rule_intent h, rule_score h)) /\
    (forall r, Joint.classify text = Ok r ->
       Joint._classify_intent (Py.lower text)
       = Ok (Joint.intent r, Joint.intent_confidence r)).
Proof.
  exists (pick rule_score rule_intent (matching_rules text)
               ("product.list", 0.5)).
  split; [apply classify_intent_pick|].
  destruct (pick_above_default rule_score rule_intent (matching_rules text)
              "product.list" 0.5 (matching_rules_above_default text))
    as [H0 H1].
  split; [exact H0|]. split; [exact H1|].
  intros r. apply classify_intent_of_result.
Qed.

(** *** Captured groups *)

Section Captures.
Import Re.
Variable n : nat.

Lemma step_char_keeps p k st res :
  step_char p k st = Some res ->
  exists st', k st' = Some res /\ keeps n st st'.
Proof.
  unfold step_char. destruct (rest st) as [|c l]; [discriminate|].
  destruct (p c); [|discriminate]. intros H.
  exists (advance st c l). split; [exact H | intros X; exact X].
Qed.

Lemma rep_loop_sets body flag :
  (forall k st res, body k st = Some res ->
     exists st', k st' = Some res /\ keeps n st st' /\
                 (flag = true -> cap_set n st' = true)) ->
  forall fuel mn mx greedy k cnt st res,
    rep_loop body mn mx greedy k fuel cnt st = Some res ->
    exists st', k st' = Some res /\ keeps n st st' /\
      (flag = true -> (0 < mn)%nat ->
       ((0 < cnt)%nat -> cap_set n st = true) -> cap_set n st' = true).
Proof.
  intros Hbody. induction fuel as [|f IH]; intros mn mx greedy k cnt st res H;
    [discriminate|].
  simpl in H.
  assert (Hstop : (if (mn <=? cnt)%nat then k st else None) = Some res ->
            exists st', k st' = Some res /\ keeps n st st' /\
              (flag = true -> (0 < mn)%nat ->
               ((0 < cnt)%nat -> cap_set n st = true) -> cap_set n st' = true)).
  { destruct (mn <=? cnt)%nat eqn:E; [|discriminate]. intros Hk.
    apply Nat.leb_le in E. exists st. split; [exact Hk|].
    split; [intros X; exact X|]. intros _ Hmn Hc. apply Hc. lia. }
  assert (Hmore : (if below cnt mx
                   then body (fun st' =>
                          if (pos st <? pos st')%nat || (cnt <? mn)%nat
                          then rep_loop body mn mx greedy k f (S cnt) st'
                          else None) st
                   else None) = Some res ->
            exists st', k st' = Some res /\ keeps n st st' /\
              (flag = true -> (0 < mn)%nat ->
               ((0 < cnt)%nat -> cap_set n st = true) -> cap_set n st' = true)).
  { destruct (below cnt mx); [|discriminate]. intros Hb.
    apply Hbody in Hb as (st1 & Hk1 & Hkeep1 & Hflag1).
    destruct ((pos st <? pos st1)%nat || (cnt <? mn)%nat); [|discriminate].
    apply IH in Hk1 as (st2 & Hk2 & Hkeep2 & Hflag2).
    exists st2. split; [exact Hk2|]. split; [intros X; auto|].
    intros Hf Hmn _. apply Hflag2; auto. }
  destruct greedy; unfold or_else in H.
  - match type of H with match ?a with _ => _ end = _ =>
      destruct a as [x|] eqn:E end.
    + injection H as ->. apply Hmore. reflexivity.
    + apply Hstop. exact H.
  - match type of H with match ?a with _ => _ end = _ =>
      destruct a as [x|] eqn:E end.
    + injection H as ->. apply Hstop. reflexivity.
    + apply Hmore. exact H.
Qed.

(** A match that succeeds reaches its continuation in a state that
    keeps the groups captured before and has captured group [n] when
    the pattern captures it on every path. *)
Lemma m_sets r :
  forall k st res, m r k st = Some res ->
    exists st', k st' = Some res /\ keeps n st st' /\
                (sets_group n r = true -> cap_set n st' = true).
Proof.
  induction r as [ |c| |neg c|neg items| | |neg|a IHa b IHb|a IHa b IHb
                 |mn mx greedy r' IH|i r' IH]; intros k st res H;
    cbn [m sets_group] in *.
  - exists st. split; [exact H|]. split; [intros X; exact X | discriminate].
  - apply step_char_keeps in H as (st' & ? & ?). exists st'. repeat split; auto; discriminate.
  - apply step_char_keeps in H as (st' & ? & ?). exists st'. repeat split; auto; discriminate.
  - apply step_char_keeps in H as (st' & ? & ?). exists st'. repeat split; auto; discriminate.
  - apply step_char_keeps in H as (st' & ? & ?). exists st'. repeat split; auto; discriminate.
  - destruct (pos st =? 0)%nat; [|discriminate].
    exists st. split; [exact H|]. split; [intros X; exact X | discriminate].
  - destruct (at_eol st); [|discriminate].
    exists st. split; [exact H|]. split; [intros X; exact X | discriminate].
  - destruct (xorb neg (at_boundary st)); [|discriminate].
    exists st. split; [exact H|]. split; [intros X; exact X | discriminate].
  - apply IHa in H as (st1 & H1 & K1 & S1).
    apply IHb in H1 as (st2 & H2 & K2 & S2).
    exists st2. split; [exact H2|]. split; [intros X; auto|].
    intros Hs. apply orb_prop in Hs as [Hs|Hs]; auto.
  - unfold or_else in H. destruct (m a k st) as [x|] eqn:E.
    + injection H as ->. apply IHa in E as (st1 & H1 & K1 & S1).
      exists st1. repeat split; auto. intros Hs. apply andb_prop in Hs as [? ?]; auto.
    + apply IHb in H as (st1 & H1 & K1 & S1).
      exists st1. repeat split; auto. intros Hs. apply andb_prop in Hs as [? ?]; auto.
  - apply (rep_loop_sets (m r') (sets_group n r')) in H as (st' & Hk & Hkeep & Hf);
      [|exact IH].
    exists st'. split; [exact Hk|]. split; [exact Hkeep|].
    intros Hs. apply andb_prop in Hs as [Hmn Hs]. apply Nat.ltb_lt in Hmn.
    apply Hf; auto. lia.
  - apply IH in H as (st1 & H1 & K1 & S1).
    exists (set_cap i (pos st) st1). split; [exact H1|].
    unfold keeps, cap_set, set_cap; simpl.
    split.
    + intros X. destruct (i =? n)%nat; [reflexivity|]. apply K1. exact X.
    + intros Hs. destruct (i =? n)%nat; [reflexivity|]. simpl in Hs. apply S1. exact Hs.
Qed.

Lemma search_from_sets r subject l st mt :
  sets_group n r = true ->
  search_from r subject st l = Some mt ->
  cap_set n (m_end mt) = true.
Proof.
  intros Hs. revert st. induction l as [|c l IH]; intros st H; simpl in H.
  - destruct (m r Some st) eqn:E; [|discriminate]. injection H as <-. simpl.
    apply m_sets in E as (st' & [= ->] & _ & S1). auto.
  - destruct (m r Some st) eqn:E.
    + injection H as <-. simpl.
      apply m_sets in E as (st' & [= ->] & _ & S1). auto.
    + eapply IH. exact H.
Qed.

Lemma search_group r s mt :
  sets_group n r = true ->
  search r s = Some mt ->
  exists g se, group mt n = Some g /\ span mt n = Some se.
Proof.
  intros Hs H. unfold search in H. apply search_from_sets in H; [|exact Hs].
  unfold group, span. unfold cap_set in H.
  destruct (lookup_cap n (caps (m_end mt))) as [[a b]|]; [|discriminate].
  eauto.
Qed.
End Captures.

(** *** Patterns built at run time compile *)

Section DynamicPatterns.
Import Re.

Lemma of_str_app a b : Py.of_str (a ++ b) = Py.of_str a ++ Py.of_str b.
Proof. induction a as [|c a IH]; simpl; [reflexivity | f_equal; exact IH]. Qed.

Lemma of_to_str l : Py.of_str (Py.to_str l) = l.
Proof. apply list_ascii_of_string_of_list_ascii. Qed.

Lemma compile_app a b :
  compile (a ++ b)
  = finish (fold_left pstep (Py.of_str b) (fold_left pstep (Py.of_str a) pinit)).
Proof. unfold compile. rewrite of_str_app, fold_left_app. reflexivity. Qed.

Lemma ready_finish st : ready st -> exists r, finish st = Some r.
Proof.
  destruct st as [stk t md n lq]. intros [H1 H2]; simpl in *; subst.
  eexists. reflexivity.
Qed.

Lemma ready_push a st : ready st -> ready (push a st).
Proof. intros [H1 H2]. split; [reflexivity | exact H2]. Qed.

(** An escaped character is read as that character. *)
Lemma pstep_escaped c st :
  ready st ->
  fold_left pstep (if is_special c then ["\"%char; c] else [c]) st
  = push (RChar c) st.
Proof.
  destruct st as [stk [cap alts cur] md n lq]. intros [H1 H2]; simpl in *; subst.
  destruct c as [[] [] [] [] [] [] [] []]; reflexivity.
Qed.

Lemma ready_escaped l st :
  ready st -> ready (fold_left pstep (escape_chars l) st).
Proof.
  revert st. induction l as [|c l IH]; intros st H; simpl; [exact H|].
  unfold escape_chars in *. rewrite fold_left_app, pstep_escaped by exact H.
  apply IH, ready_push, H.
Qed.

Lemma ready_plain l st :
  forallb plain l = true -> ready st -> ready (fold_left pstep l st).
Proof.
  revert st. induction l as [|c l IH]; intros st Hl H; simpl in *; [exact H|].
  apply andb_prop in Hl as [Hc Hl]. apply IH; [exact Hl|].
  destruct st as [stk [cap alts cur] md n lq]. destruct H as [H1 H2]; simpl in *; subst.
  destruct c as [[] [] [] [] [] [] [] []]; try discriminate Hc; split; reflexivity.
Qed.

(** A fixed piece of pattern text that can follow any item keeps the
    reader ready. *)
Ltac ready_segment :=
  let stk := fresh in let cap := fresh in let alts := fresh in
  let cur := fresh in let md := fresh in let n := fresh in let lq := fresh in
  let H1 := fresh in let H2 := fresh in
  intros [stk [cap alts cur] md n lq] [H1 H2]; simpl in H1, H2; subst;
  split; reflexivity.

Lemma ready_alt_eol st :
  ready st -> ready (fold_left pstep (Py.of_str "|$") st).
Proof. revert st. ready_segment. Qed.

Lemma ready_alt st :
  ready st -> ready (fold_left pstep (Py.of_str "|") st).
Proof. revert st. ready_segment. Qed.

Lemma ready_dollars st :
  ready st -> ready (fold_left pstep (Py.of_str "\s*dollars?") st).
Proof. revert st. ready_segment. Qed.

Lemma ready_name_prefix :
  ready (fold_left pstep (Py.of_str Joint.name_prefix) pinit).
Proof. split; reflexivity. Qed.

Lemma ready_price_prefix :
  ready (fold_left pstep (Py.of_str "price\s*\$?") pinit).
Proof. split; reflexivity. Qed.

Lemma name_pattern_compiles v :
  compiles (Joint.name_prefix ++ escape v) = true.
Proof.
  unfold compiles. rewrite compile_app. unfold escape. rewrite of_to_str.
  destruct (ready_finish _ (ready_escaped (Py.of_str v) _ ready_name_prefix))
    as [r ->].
  reflexivity.
Qed.

Lemma price_pattern_compiles v :
  forallb plain (Py.of_str v) = true ->
  compiles (Joint.price_pattern v) = true.
Proof.
  intros Hv. unfold compiles, Joint.price_pattern, compile.
  rewrite !of_str_app, !fold_left_app.
  match goal with |- match finish ?st with _ => _ end = _ =>
    assert (H : ready st) end.
  { apply ready_dollars, ready_plain, ready_alt, ready_plain, ready_alt_eol,
      ready_plain, ready_price_prefix; exact Hv. }
  destruct (ready_finish _ H) as [r ->]. reflexivity.
Qed.

End DynamicPatterns.

(** *** The rule-based classifier always returns *)

Lemma digit_char_plain n : plain (Py.digit_char n) = true.
Proof.
  unfold Py.digit_char. pose proof (Nat.mod_upper_bound n 10) as H.
  destruct (n mod 10) as [|[|[|[|[|[|[|[|[|[|k]]]]]]]]]]; try reflexivity. lia.
Qed.

Lemma nat_digits_plain fuel n acc :
  forallb plain acc = true -> forallb plain (Py.nat_digits fuel n acc) = true.
Proof.
  revert n acc. induction fuel as [|f IH]; intros n acc H;
    cbn [Py.nat_digits]; [exact H|].
  destruct (n <? 10)%nat; [|apply IH]; cbn [forallb];
    rewrite digit_char_plain; exact H.
Qed.

Lemma frac_digits_plain fuel r d :
  forallb plain (Py.frac_digits fuel r d) = true.
Proof.
  revert r. induction fuel as [|f IH]; intros r; cbn [Py.frac_digits];
    [reflexivity|].
  destruct (r =? 0)%Z; [reflexivity|]. cbn [forallb].
  rewrite digit_char_plain. apply IH.
Qed.

Lemma str_of_float_plain q : forallb plain (Py.of_str (Py.str_of_float q)) = true.
Proof.
  unfold Py.str_of_float. rewrite of_to_str, forallb_app.
  apply andb_true_intro. split.
  - apply nat_digits_plain. reflexivity.
  - cbn [forallb]. change (plain ".") with true. cbn [andb].
    pose proof (frac_digits_plain 17 (Qnum q mod Z.pos (Qden q))
                                  (Z.pos (Qden q))) as H.
    destruct (Py.frac_digits 17 _ _); [reflexivity | exact H].
Qed.

Lemma slot_table_captures : table_captures Joint.SLOT_PATTERNS = true.
Proof. vm_compute. reflexivity. Qed.

Lemma dict_get_In {V} k (d : list (string * V)) v :
  dict_get k d = Some v -> In (k, v) d.
Proof.
  induction d as [|[k' v'] d IH]; simpl; [discriminate|].
  destruct (String.eqb_spec k' k) as [->|_].
  - intros [= ->]. left. reflexivity.
  - intros H. right. apply IH, H.
Qed.

Lemma whitespace_compiles : compiles "\s+" = true.
Proof. vm_compute. reflexivity. Qed.

Lemma leading_comma_compiles : compiles "^\s*[,]\s*" = true.
Proof. vm_compute. reflexivity. Qed.

(** Every value processor returns, and the name and price processors
    return a string and a float. *)
Lemma processors_total slot_name proc raw :
  dict_get slot_name Joint.VALUE_PROCESSORS = Some proc ->
  exists o, proc raw = Ok o /\
            forall v, o = Some v -> slot_value_ok slot_name v.
Proof.
  intros H. apply dict_get_In in H.
  destruct H as [H|[H|[H|[H|[]]]]]; injection H as <- <-.
  - unfold Joint.process_name.
    destruct (re_sub_compiles "\s+" " " raw whitespace_compiles) as [s ->].
    res_simpl.
    eexists. split; [reflexivity|]. intros v Hv.
    destruct (String.eqb (Py.strip s) ""); [discriminate|]. injection Hv as <-.
    split; [eauto | discriminate].
  - unfold Joint.process_price. eexists. split; [reflexivity|]. intros v Hv.
    destruct (Py.float_of_str raw); [|discriminate]. injection Hv as <-.
    split; [discriminate | eauto].
  - unfold Joint.process_id. eexists. split; [reflexivity|]. intros v Hv.
    split; discriminate.
  - unfold Joint.process_description.
    destruct (re_sub_compiles "\s+" " " raw whitespace_compiles) as [s ->].
    res_simpl.
    eexists. split; [reflexivity|]. intros v Hv. split; discriminate.
Qed.

Lemma extract_slot_rules_total slot_name text_lower patterns :
  forallb (fun pc => captures_one (fst pc)) patterns = true ->
  exists o, Joint.extract_slot_rules slot_name text_lower patterns = Ok o /\
            forall s, o = Some s -> Joint.name s = slot_name /\ slot_ok s.
Proof.
  induction patterns as [|[p c] ps IH]; intros H;
    cbn [Joint.extract_slot_rules forallb fst] in *.
  - eexists. split; [reflexivity | discriminate].
  - apply andb_prop in H as [Hp Hps]. specialize (IH Hps).
    unfold captures_one in Hp. unfold re_search.
    destruct (Re.compile p) as [r|]; [|discriminate]. res_simpl.
    destruct (Re.search r text_lower) as [mt|] eqn:Es; [|exact IH].
    destruct (search_group 1 r text_lower mt Hp Es) as (g & [a b] & -> & ->).
    destruct (dict_get slot_name Joint.VALUE_PROCESSORS) as [proc|] eqn:Ed;
      [|exact IH].
    destruct (processors_total slot_name proc (Py.strip g) Ed) as (o & -> & Ho).
    res_simpl. destruct o as [v|]; [|exact IH].
    eexists. split; [reflexivity|]. intros s [= <-]. cbn [Joint.name].
    split; [reflexivity|]. apply Ho. reflexivity.
Qed.

Lemma extract_slot_total slot_name text text_lower :
  exists o, Joint.extract_slot slot_name text text_lower = Ok o /\
            forall s, o = Some s -> Joint.name s = slot_name /\ slot_ok s.
Proof.
  unfold Joint.extract_slot.
  destruct (dict_get slot_name Joint.SLOT_PATTERNS) as [ps|] eqn:E.
  - apply extract_slot_rules_total.
    apply dict_get_In in E. pose proof slot_table_captures as H.
    unfold table_captures in H. rewrite forallb_forall in H.
    apply (H (slot_name, ps) E).
  - eexists. split; [reflexivity | discriminate].
Qed.

Lemma append_opt_ok slots o n :
  Forall slot_ok slots ->
  (forall s, o = Some s -> Joint.name s = n /\ slot_ok s) ->
  Forall slot_ok (Joint.append_opt slots o).
Proof.
  intros H Ho. destruct o as [s|]; simpl; [|exact H].
  apply Forall_app. split; [exact H|].
  constructor; [apply (Ho s eq_refl) | constructor].
Qed.

Ltac slots_ok :=
  repeat (eapply append_opt_ok; [|eassumption]); constructor.

Ltac use_extract_slot n text tl :=
  let o := fresh "o" in let E := fresh "E" in let Ho := fresh "Ho" in
  destruct (extract_slot_total n text tl) as (o & E & Ho);
  rewrite E.

Lemma extract_create_slots_total text tl :
  exists sl, Joint.extract_create_slots text tl = Ok sl /\ Forall slot_ok sl.
Proof.
  unfold Joint.extract_create_slots.
  use_extract_slot "name" text tl. use_extract_slot "price" text tl.
  use_extract_slot "description" text tl.
  eexists. split; [reflexivity|].
  slots_ok.
Qed.

Lemma extract_update_slots_total text tl :
  exists sl, Joint.extract_update_slots text tl = Ok sl /\ Forall slot_ok sl.
Proof.
  unfold Joint.extract_update_slots.
  use_extract_slot "id" text tl. use_extract_slot "name" text tl.
  use_extract_slot "price" text tl. use_extract_slot "description" text tl.
  eexists. split; [reflexivity|].
  slots_ok.
Qed.

Lemma extract_delete_slots_total text tl :
  exists sl, Joint.extract_delete_slots text tl = Ok sl /\ Forall slot_ok sl.
Proof.
  unfold Joint.extract_delete_slots. use_extract_slot "id" text tl.
  eexists. split; [reflexivity|].
  slots_ok.
Qed.

Lemma extract_get_slots_total text tl :
  exists sl, Joint.extract_get_slots text tl = Ok sl /\ Forall slot_ok sl.
Proof.
  unfold Joint.extract_get_slots. use_extract_slot "id" text tl.
  eexists. split; [reflexivity|].
  slots_ok.
Qed.

Lemma extract_slots_total text tl intent :
  exists sl, Joint._extract_slots text tl intent = Ok sl /\ Forall slot_ok sl.
Proof.
  unfold Joint._extract_slots.
  destruct (String.eqb intent "product.create");
    [apply extract_create_slots_total|].
  destruct (String.eqb intent "product.update");
    [apply extract_update_slots_total|].
  destruct (String.eqb intent "product.delete");
    [apply extract_delete_slots_total|].
  destruct (String.eqb intent "product.get");
    [apply extract_get_slots_total|].
  eexists. split; [reflexivity | constructor].
Qed.

Lemma remove_slot_total temp_text slot :
  slot_ok slot -> exists s, Joint.remove_slot temp_text slot = Ok s.
Proof.
  intros [Hn Hp]. unfold Joint.remove_slot.
  destruct (String.eqb_spec (Joint.name slot) "name") as [E|_].
  - destruct (Hn E) as [v ->]. apply re_sub_compiles, name_pattern_compiles.
  - destruct (String.eqb_spec (Joint.name slot) "price") as [E|_].
    + destruct (Hp E) as [q ->]. apply re_sub_compiles, price_pattern_compiles.
      apply str_of_float_plain.
    + eexists. reflexivity.
Qed.

Lemma remove_slots_total slots temp_text :
  Forall slot_ok slots -> exists s, Joint.remove_slots temp_text slots = Ok s.
Proof.
  intros H. revert temp_text.
  induction H as [|slot slots Hs _ IH]; intros temp_text;
    cbn [Joint.remove_slots].
  - eexists. reflexivity.
  - destruct (remove_slot_total temp_text slot Hs) as [s ->]. res_simpl.
    apply IH.
Qed.

Lemma extract_description_fallback_total text slots :
  Forall slot_ok slots ->
  exists o, Joint.extract_description_fallback text slots = Ok o /\
            forall s, o = Some s -> slot_ok s.
Proof.
  intros H. unfold Joint.extract_description_fallback.
  destruct (remove_slots_total slots (Py.lower text) H) as [s1 ->]. res_simpl.
  destruct (re_sub_compiles "^\s*[,]\s*" "" s1 leading_comma_compiles)
    as [s2 ->]. res_simpl.
  destruct (re_sub_compiles "\s+" " " s2 whitespace_compiles) as [s3 ->].
  res_simpl.
  destruct (2 <? String.length (Py.strip s3))%nat; eexists;
    (split; [reflexivity|]); [|discriminate].
  intros s [= <-]. split; cbn [Joint.name]; discriminate.
Qed.

Lemma post_process_slots_total slots intent text :
  Forall slot_ok slots ->
  exists sl, Joint._post_process_slots slots intent text = Ok sl.
Proof.
  intros H. unfold Joint._post_process_slots.
  destruct (String.eqb intent "product.create"); [|eexists; reflexivity].
  destruct (existsb _ slots); [eexists; reflexivity|].
  destruct (extract_description_fallback_total text slots H) as (o & -> & _).
  res_simpl. eexists. reflexivity.
Qed.

(** The rule-based classifier returns a result for every input: no
    pattern fails to compile and no capture is missing. *)
Lemma classify_total text : exists r, Joint.classify text = Ok r.
Proof.
  unfold Joint.classify. rewrite classify_intent_pick.
  destruct (pick _ _ _ _) as [i c].
  destruct (extract_slots_total text (Py.lower text) i) as (sl & Esl & Hsl).
  destruct (post_process_slots_total sl i text Hsl) as [sl' Epp].
  exists (Joint.mkIntentSlotResult i c sl' text).
  res_simpl. rewrite Esl. res_simpl. rewrite Epp. reflexivity.
Qed.

Lemma classify_intent_range text i c :
  Joint._classify_intent text = Ok (i, c) -> In i tool_ids /\ in_unit c.
Proof.
  rewrite classify_intent_pick.
  destruct (pick_spec rule_score rule_intent (matching_rules text)
                      "product.list" 0.5)
    as [[_ Hp] | (h & Hmax & _ & Hp)]; rewrite Hp; intros [= <- <-].
  - split; [simpl; tauto | split; discriminate].
  - apply first_max_in, matching_rules_incl in Hmax as [Hin _].
    pose proof rule_scores_in_unit as Hu. pose proof rule_intents_known as Hk.
    rewrite forallb_forall in Hu, Hk.
    apply Hu in Hin as Hu'. apply Hk in Hin as Hk'.
    apply andb_prop in Hu' as [H0 H1]. apply Qle_bool_iff in H0, H1.
    split; [|split; assumption].
    apply existsb_exists in Hk' as (t & Ht & Heq).
    apply String.eqb_eq in Heq. rewrite Heq. exact Ht.
Qed.

(** The rule-based entry point: [to_dict (classify text)] is defined for
    every input, with a tool among the five and a confidence in [0,1]. *)
Lemma rule_based_range text :
  exists r, Joint.classify text = Ok r /\
            In (Joint.d_tool_name (Joint.to_dict r)) tool_ids /\
            in_unit (Joint.d_confidence (Joint.to_dict r)).
Proof.
  destruct (classify_total text) as [r Hr]. exists r. split; [exact Hr|].
  apply classify_intent_of_result in Hr.
  apply classify_intent_range in Hr. exact Hr.
Qed.

(** *** The corpus-trained classifier *)

Section CorpusBasics.
Import Corpus Corpus.MLClassifier.

Lemma similarity_jaccard message p :
  similarity message p = jaccard message (query_pattern p).
Proof.
  unfold similarity, jaccard, _calculate_similarity, words.
  destruct (decide (list_to_set (Py.split (Py.lower (query_pattern p)))
                    = (∅ : gset string))) as [E|E]; [reflexivity|].
  destruct (decide _) as [U|_]; [|reflexivity].
  exfalso. apply E. apply (f_equal (fun s : gset string => s ∩ list_to_set (Py.split (Py.lower (query_pattern p))))) in U.
  set_solver.
Qed.

Lemma best_match_pick message tool pats best :
  best_match message tool pats best
  = pick (similarity message) Some (candidates tool pats) best.
Proof.
  revert best. induction pats as [|p ps IH]; intros best; simpl; [reflexivity|].
  rewrite IH. destruct (String.eqb (qp_tool_name p) tool); reflexivity.
Qed.

Lemma candidates_in tool pats h :
  In h (candidates tool pats) -> In h pats /\ qp_tool_name h = tool.
Proof.
  unfold candidates. rewrite List.filter_In, String.eqb_eq. tauto.
Qed.

Lemma py_max_in xs mx : py_max xs = Ok mx -> In mx xs.
Proof.
  destruct xs as [|x xs]; [discriminate|]. intros [= <-].
  cut (forall l a, fold_left (fun mx y => if Qgtb y mx then y else mx) l a = a
                   \/ In (fold_left (fun mx y => if Qgtb y mx then y else mx) l a) l).
  { intros H. destruct (H xs x) as [->|Hin]; [left; reflexivity | right; exact Hin]. }
  induction l as [|y l IH]; intros a; simpl; [left; reflexivity|].
  destruct (IH (if Qgtb y a then y else a)) as [->|Hin]; [|right; right; exact Hin].
  destruct (Qgtb y a); [right; left; reflexivity | left; reflexivity].
Qed.

Lemma fold_max_ge l a :
  a <= fold_left (fun mx y => if Qgtb y mx then y else mx) l a /\
  Forall (fun x => x <= fold_left (fun mx y => if Qgtb y mx then y else mx) l a) l.
Proof.
  revert a. induction l as [|y l IH]; intros a; simpl.
  - split; [apply Qle_refl | constructor].
  - destruct (IH (if Qgtb y a then y else a)) as [H1 H2].
    destruct (Qgtb y a) eqn:E.
    + apply Qgtb_true in E. split; [|constructor; assumption].
      eapply Qle_trans; [apply Qlt_le_weak, E | exact H1].
    + apply Qgtb_false in E. split; [exact H1|]. constructor; [|exact H2].
      eapply Qle_trans; [exact E | exact H1].
Qed.

Lemma py_max_ge xs mx : py_max xs = Ok mx -> Forall (fun x => x <= mx) xs.
Proof.
  destruct xs as [|x xs]; [discriminate|]. intros [= <-].
  destruct (fold_max_ge xs x) as [H1 H2]. constructor; assumption.
Qed.

Lemma py_max_total xs : xs <> [] -> exists mx, py_max xs = Ok mx.
Proof. destruct xs; [congruence | eexists; reflexivity]. Qed.

Lemma in_unit_mult a b : in_unit a -> in_unit b -> in_unit (a * b).
Proof. unfold in_unit. intros [? ?] [? ?]. split; nra. Qed.

Lemma default_result_range message :
  In (tool_name (_default_result message)) tool_ids /\
  in_unit (confidence (_default_result message)).
Proof. split; [simpl; tauto | split; discriminate]. Qed.

End CorpusBasics.

Section CorpusFacts.
Import Corpus Corpus.MLClassifier.
Variable fit : list string -> list string -> Res Pipeline.
Variable literal_eval : string -> option (gmap string pyvalue).

(** What [classify] returns once a pipeline is fitted: the default when
    no candidate has a positive similarity, and otherwise the result
    built from the first candidate of greatest similarity. *)
Lemma classify_trained self p message conf :
  trained self p ->
  py_max (predict_proba p message) = Ok conf ->
  (Forall (fun q => similarity message q <= 0)
          (candidates (predict p message) (patterns self)) /\
   classify fit literal_eval self message = Ok (_default_result message, self))
  \/
  (exists h,
     first_max (similarity message)
               (candidates (predict p message) (patterns self)) h /\
     0 < similarity message h /\
     classify fit literal_eval self message
     = Ok (result_of literal_eval conf h, self)).
Proof.
  intros [Ht Hp] Hmax. unfold classify. rewrite Ht. res_simpl. rewrite Hp, Hmax.
  res_simpl. rewrite best_match_pick.
  destruct (pick_spec (similarity message) Some
              (candidates (predict p message) (patterns self)) None 0)
    as [[Hall Hpick] | (h & Hfm & Hpos & Hpick)]; rewrite Hpick; cbn [fst].
  - left. split; [exact Hall | reflexivity].
  - right. exists h. split; [exact Hfm|]. split; [exact Hpos | reflexivity].
Qed.

Lemma classify_trained_range self p message :
  trained self p -> pipeline_ok p ->
  confidences_ok (patterns self) -> tools_ok (patterns self) ->
  exists r, classify fit literal_eval self message = Ok (r, self) /\
            In (tool_name r) tool_ids /\ in_unit (confidence r) /\
            (r = _default_result message \/ method r = "ml_classifier").
Proof.
  intros Ht Hok Hc Htl. destruct (Hok message) as [Hne Hall].
  destruct (py_max_total _ Hne) as [conf Hmax].
  destruct (classify_trained self p message conf Ht Hmax)
    as [[_ ->] | (h & Hfm & _ & ->)].
  - eexists. split; [reflexivity|].
    destruct (default_result_range message) as [H1 H2]. auto.
  - eexists. split; [reflexivity|].
    apply first_max_in, candidates_in in Hfm as [Hin _].
    unfold confidences_ok, tools_ok in *. rewrite Forall_forall in Hc, Htl, Hall.
    split; [apply Htl, Hin|]. cbn [confidence result_of].
    split; [|right; reflexivity].
    apply in_unit_mult; [apply Hall, py_max_in, Hmax | apply Hc, Hin].
Qed.

(** C5.  An untrained classifier trains on its first classification:
    with no pattern loaded, training leaves it without a model and every
    input gets exactly the default result (tool [product.list], no
    argument, confidence 0.5, method [default]) instead of an
    exception; with patterns, the pipeline is fitted first and the
    input is classified by the trained classifier. *)
Theorem C5_untrained_default (self : t) (message : string) :
  is_trained self = false -> pipeline self = None ->
  (patterns self = [] ->
   classify fit literal_eval self message
   = Ok (mkClassificationResult "product.list" ∅ 0.5 "default" "simple"
           "products" "list" "Default fallback", self)) /\
  (forall p, patterns self <> [] ->
     fit (map query_pattern (patterns self)) (map qp_tool_name (patterns self))
     = Ok p ->
     classify fit literal_eval self message
     = classify fit literal_eval (mk (patterns self) (Some p) true) message).
Proof.
  intros Ht Hp. split.
  - intros He. unfold classify, train. rewrite Ht, He. res_simpl. rewrite Hp.
    reflexivity.
  - intros p Hne Hfit. unfold classify at 1. unfold train. rewrite Ht.
    destruct (patterns self) as [|q qs] eqn:E; [congruence|].
    rewrite Hfit. res_simpl. reflexivity.
Qed.

End CorpusFacts.

Section CorpusClaims.
Import Corpus Corpus.MLClassifier.
Variable fit : list string -> list string -> Res Pipeline.
Variable literal_eval : string -> option (gmap string pyvalue).

Lemma classify_usable_range self message :
  usable fit self ->
  confidences_ok (patterns self) -> tools_ok (patterns self) ->
  exists r self',
    classify fit literal_eval self message = Ok (r, self') /\
    In (tool_name r) tool_ids /\ in_unit (confidence r) /\
    (r = _default_result message \/ method r = "ml_classifier").
Proof.
  intros Hu Hc Htl.
  destruct Hu as [self p Ht Hok | self Ht Hp He | self p Ht Hne Hfit Hok].
  - destruct (classify_trained_range fit literal_eval self p message
                Ht Hok Hc Htl) as (r & Hr & H).
    exists r, self. split; [exact Hr | exact H].
  - exists (_default_result message), self.
    destruct (default_result_range message) as [H1 H2].
    split; [|auto].
    unfold classify, train. rewrite Ht, He. res_simpl. rewrite Hp. reflexivity.
  - assert (Ht' : trained (mk (patterns self) (Some p) true) p)
      by (split; reflexivity).
    destruct (classify_trained_range fit literal_eval _ p message
                Ht' Hok Hc Htl) as (r & Hr & H).
    exists r, (mk (patterns self) (Some p) true). split; [|exact H].
    rewrite <- Hr. unfold classify at 1. unfold train. rewrite Ht.
    destruct (patterns self) as [|q qs] eqn:E; [congruence|].
    rewrite Hfit. res_simpl. reflexivity.
Qed.

(** C1, amended.  For every input the rule-based classifier returns a
    result with a tool among the five and a confidence in [0,1], and the
    list tool when no rule matches.  The corpus classifier does so when
    it can answer (a pipeline is fitted or can be fitted, and its class
    probabilities are probabilities), every loaded pattern has a base
    confidence in [0,1] and, in addition to the claim's precondition,
    every loaded pattern is labelled with one of the five tools; when it
    selects no pattern it answers with the default result, whose tool is
    the list tool. *)
Theorem C1_results_in_range (self : t) (text message : string) :
  usable fit self ->
  confidences_ok (patterns self) ->
  tools_ok (patterns self) ->
  (exists r,
     Joint.classify text = Ok r /\
     In (Joint.d_tool_name (Joint.to_dict r)) tool_ids /\
     in_unit (Joint.d_confidence (Joint.to_dict r)) /\
     (matching_rules (Py.lower text) = [] ->
      Joint.d_tool_name (Joint.to_dict r) = "product.list")) /\
  (exists r self',
     classify fit literal_eval self message = Ok (r, self') /\
     In (tool_name r) tool_ids /\ in_unit (confidence r) /\
     (method r = "ml_classifier" \/
      (method r = "default" /\ tool_name r = "product.list"))).
Proof.
  intros Hu Hc Htl. split.
  - destruct (rule_based_range text) as (r & Hr & Hin & Hconf).
    exists r. split; [exact Hr|]. split; [exact Hin|]. split; [exact Hconf|].
    intros Hnone. apply classify_intent_of_result in Hr.
    rewrite classify_intent_pick, Hnone in Hr. injection Hr as Hi _.
    symmetry. exact Hi.
  - destruct (classify_usable_range self message Hu Hc Htl)
      as (r & self' & Hr & Hin & Hconf & Hm).
    exists r, self'. split; [exact Hr|]. split; [exact Hin|].
    split; [exact Hconf|].
    destruct Hm as [-> | Hm]; [right; split; reflexivity | left; exact Hm].
Qed.

(** C2, amended.  With a fitted pipeline, the predicted confidence is the
    greatest class probability and the similarity of a pattern is the
    word-set Jaccard similarity of the input and the pattern text.  If
    some pattern labelled with the predicted tool has a positive
    similarity, the first such pattern of greatest similarity in corpus
    order is selected and the result carries its tool, the confidence
    [predicted_confidence * base_confidence] and the method
    [ml_classifier].  The default result is returned when no pattern
    labelled with the predicted tool has a positive similarity, which
    includes the case that no pattern is labelled with it. *)
Theorem C2_best_pattern_selection (self : t) (p : Pipeline)
    (message : string) (conf : Q) :
  trained self p ->
  py_max (predict_proba p message) = Ok conf ->
  (In conf (predict_proba p message) /\
   Forall (fun x => x <= conf) (predict_proba p message)) /\
  (forall q, similarity message q = jaccard message (query_pattern q)) /\
  ((Forall (fun q => similarity message q <= 0)
           (candidates (predict p message) (patterns self)) /\
    classify fit literal_eval self message
    = Ok (_default_result message, self))
   \/
   (exists h,
      first_max (similarity message)
                (candidates (predict p message) (patterns self)) h /\
      0 < similarity message h /\
      classify fit literal_eval self message
      = Ok (mkClassificationResult
              (qp_tool_name h)
              (match literal_eval (qp_tool_args h) with
               | Some d => d
               | None => ∅
               end)
              (conf * qp_confidence h)
              "ml_classifier"
              (qp_query_type h) (qp_entity h) (qp_intent h)
              (qp_description h), self))).
Proof.
  intros Ht Hmax. split; [split; [apply py_max_in | apply py_max_ge]; exact Hmax|].
  split; [intros q; apply similarity_jaccard|].
  exact (classify_trained fit literal_eval self p message conf Ht Hmax).
Qed.

End CorpusClaims.

(** C1, counterexample.  A corpus whose only pattern has a base
    confidence in [0,1] but is labelled [product.search]: the corpus
    classifier answers [product.search], which is none of the five
    tools. *)
Lemma C1_counterexample :
  confidences_ok (Corpus.MLClassifier.patterns search_classifier) /\
  exists r,
    Corpus.MLClassifier.classify first_label_fit empty_dict_eval
      search_classifier "search gadgets" = Ok (r, search_classifier) /\
    Corpus.tool_name r = "product.search" /\
    ~ In (Corpus.tool_name r) tool_ids.
Proof.
  split.
  - repeat constructor; discriminate.
  - eexists. split; [vm_compute; reflexivity|]. split; [reflexivity|].
    simpl. intuition discriminate.
Qed.

Lemma const_pipeline_ok tool : pipeline_ok (const_pipeline tool 1).
Proof.
  intros message. split; [discriminate|].
  repeat constructor; discriminate.
Qed.

Lemma C1_witness :
  (exists r,
     Joint.classify "hello there" = Ok r /\
     In (Joint.d_tool_name (Joint.to_dict r)) tool_ids /\
     in_unit (Joint.d_confidence (Joint.to_dict r)) /\
     (matching_rules (Py.lower "hello there") = [] ->
      Joint.d_tool_name (Joint.to_dict r) = "product.list")) /\
  (exists r self',
     Corpus.MLClassifier.classify first_label_fit empty_dict_eval
       list_classifier "list products" = Ok (r, self') /\
     In (Corpus.tool_name r) tool_ids /\ in_unit (Corpus.confidence r) /\
     (Corpus.method r = "ml_classifier" \/
      (Corpus.method r = "default" /\ Corpus.tool_name r = "product.list"))).
Proof.
  apply (C1_results_in_range first_label_fit empty_dict_eval list_classifier
           "hello there" "list products").
  - apply (usable_trained _ _ (const_pipeline "product.list" 1)).
    + split; reflexivity.
    + apply const_pipeline_ok.
  - repeat constructor; discriminate.
  - repeat constructor; simpl; tauto.
Defined.

(** C2, counterexample.  The corpus holds patterns labelled
    [product.list], the pipeline predicts [product.list], and the input
    shares no word with them: the default result is returned although
    patterns match the predicted tool. *)
Lemma C2_counterexample :
  candidates "product.list" (Corpus.MLClassifier.patterns list_classifier)
  = [list_pattern; list_all_pattern] /\
  Corpus.MLClassifier.classify first_label_fit empty_dict_eval
    list_classifier "hello"
  = Ok (Corpus.MLClassifier._default_result "hello", list_classifier).
Proof. split; vm_compute; reflexivity. Qed.

(** *** The dynamic argument extractor always returns *)

Section ExtractorTotal.
Import Corpus Corpus.ArgumentExtractor.

Lemma argument_patterns_capture :
  forallb captures_one
    (name_patterns ++ price_patterns ++ id_patterns ++ description_patterns
       ++ name_prefix_patterns) = true.
Proof. vm_compute. reflexivity. Qed.

Lemma first_group_total patterns message_lower :
  forallb captures_one patterns = true ->
  exists o, first_group patterns message_lower = Ok o.
Proof.
  induction patterns as [|p ps IH]; intros H; cbn [first_group forallb] in *.
  - eexists. reflexivity.
  - apply andb_prop in H as [Hp Hps]. specialize (IH Hps).
    unfold captures_one in Hp. unfold re_search.
    destruct (Re.compile p) as [r|]; [|discriminate]. res_simpl.
    destruct (Re.search r message_lower) as [mt|] eqn:Es; [|exact IH].
    destruct (search_group 1 r message_lower mt Hp Es) as (g & se & -> & _).
    eexists. reflexivity.
Qed.

Lemma first_converted_total {A} (conv : string -> option A) patterns
    message_lower :
  forallb captures_one patterns = true ->
  exists o, first_converted conv patterns message_lower = Ok o.
Proof.
  induction patterns as [|p ps IH]; intros H;
    cbn [first_converted forallb] in *.
  - eexists. reflexivity.
  - apply andb_prop in H as [Hp Hps]. specialize (IH Hps).
    unfold captures_one in Hp. unfold re_search.
    destruct (Re.compile p) as [r|]; [|discriminate]. res_simpl.
    destruct (Re.search r message_lower) as [mt|] eqn:Es; [|exact IH].
    destruct (search_group 1 r message_lower mt Hp Es) as (g & se & -> & _).
    destruct (conv g); [eexists; reflexivity | exact IH].
Qed.

Lemma extract_name_total message ml :
  exists o, _extract_name message ml = Ok o.
Proof.
  unfold _extract_name.
  destruct (first_group_total name_patterns ml eq_refl) as [[g|] E];
    rewrite E; res_simpl; [|eexists; reflexivity].
  destruct (re_sub_compiles "\s+" " " (Py.strip g) whitespace_compiles)
    as [s Es]. rewrite Es. eexists. reflexivity.
Qed.

Lemma extract_price_total message ml :
  exists o, _extract_price message ml = Ok o.
Proof. apply first_converted_total. reflexivity. Qed.

Lemma extract_id_total message ml :
  exists o, _extract_id message ml = Ok o.
Proof. apply first_converted_total. reflexivity. Qed.

Lemma extract_name_prefix_total message ml :
  exists o, _extract_name_prefix message ml = Ok o.
Proof.
  unfold _extract_name_prefix.
  destruct (first_group_total name_prefix_patterns ml eq_refl) as [o E].
  rewrite E. eexists. reflexivity.
Qed.

Lemma extract_description_total message ml :
  exists o, _extract_description message ml = Ok o.
Proof.
  unfold _extract_description.
  destruct (extract_name_total message ml) as [name En].
  destruct (extract_price_total message ml) as [price Ep].
  destruct (first_group_total description_patterns ml eq_refl) as [[g|] E];
    rewrite E, ?En, ?Ep; res_step.
  - destruct (re_sub_compiles "\s+" " " (Py.strip g) whitespace_compiles)
      as [s Es]. rewrite Es. res_step. eexists. reflexivity.
  - destruct name as [n|]; [|eexists; reflexivity].
    destruct (truthy_str (Some n)); [|eexists; reflexivity].
    destruct (re_sub_compiles (name_prefix ++ Re.escape (Py.lower n)) "" ml
                (name_pattern_compiles (Py.lower n))) as [s1 E1].
    rewrite E1. res_step.
    assert (E2 : exists s2,
               match price with
               | Some p =>
                   if truthy_float price
                   then re_sub (price_pattern (Py.str_of_float p)) "" s1
                   else mret s1
               | None => mret s1
               end = Ok s2).
    { destruct price as [q|]; [|eexists; reflexivity].
      destruct (truthy_float (Some q)); [|eexists; reflexivity].
      apply re_sub_compiles.
      apply (price_pattern_compiles (Py.str_of_float q)), str_of_float_plain. }
    destruct E2 as [s2 E2]. rewrite E2. res_step.
    destruct (re_sub_compiles "^\s*[,]\s*" "" s2 leading_comma_compiles)
      as [s3 E3]. rewrite E3. res_step.
    destruct (re_sub_compiles "\s+" " " s3 whitespace_compiles) as [s4 E4].
    rewrite E4. res_step.
    destruct (2 <? String.length (Py.strip s4))%nat; eexists; reflexivity.
Qed.

Lemma extract_arguments_total message tool static_args :
  exists args, extract_arguments message tool static_args = Ok args.
Proof.
  unfold extract_arguments.
  destruct (extract_name_total message (Py.lower message)) as [n En].
  destruct (extract_price_total message (Py.lower message)) as [pr Ep].
  destruct (extract_id_total message (Py.lower message)) as [i Ei].
  destruct (extract_description_total message (Py.lower message)) as [d Ed].
  destruct (extract_name_prefix_total message (Py.lower message)) as [x Ex].
  destruct (String.eqb tool "product.create").
  { unfold _extract_create_args. rewrite En, Ep, Ed. eexists. reflexivity. }
  destruct (String.eqb tool "product.update").
  { unfold _extract_update_args. rewrite Ei, En, Ep, Ed. eexists. reflexivity. }
  destruct (String.eqb tool "product.delete").
  { unfold _extract_delete_args. rewrite Ei. eexists. reflexivity. }
  destruct (String.eqb tool "product.get").
  { unfold _extract_get_args. rewrite Ei. eexists. reflexivity. }
  destruct (String.eqb tool "product.list").
  { unfold _extract_list_args. rewrite Ex. eexists. reflexivity. }
  eexists. reflexivity.
Qed.

End ExtractorTotal.

(** *** The result assembler *)

Section Assembler.
Import Corpus Corpus.CSVBasedClassifier.

Lemma enhance_total message result :
  exists result', _enhance_with_dynamic_extraction message result = Ok result'.
Proof.
  unfold _enhance_with_dynamic_extraction.
  destruct (extract_arguments_total message (tool_name result)
              (tool_args result)) as [args E].
  rewrite E. res_step. eexists. reflexivity.
Qed.

Lemma enhance_args message result result' :
  _enhance_with_dynamic_extraction message result = Ok result' ->
  exists args,
    ArgumentExtractor.extract_arguments message (tool_name result)
                                        (tool_args result) = Ok args /\
    result' = with_args result
                (if String.eqb (tool_name result) "product.list"
                    && mentions_recent message
                 then <["recent_only" := VBool true]>
                        (<["limit" := VInt 1]> args)
                 else args).
Proof.
  unfold _enhance_with_dynamic_extraction. intros H.
  destruct (ArgumentExtractor.extract_arguments message (tool_name result)
              (tool_args result)) as [args|e]; [|discriminate].
  rewrite bind_Ok in H. injection H as <-. exists args.
  split; reflexivity.
Qed.

(** C4.  When the resolved intent is [product.list] and the lower-cased
    raw text contains "recent", "latest" or "newest", the final
    arguments hold [limit = 1] and [recent_only = True], whatever the
    arguments held before: in the dictionary the rule-based classifier
    returns, and in the result the corpus classifier returns after its
    dynamic extraction (which always returns).  "show latest products"
    is classified as [product.list] by the rules and gets both entries
    on either path. *)
Theorem C4_recent_forces_limit :
  (forall r : Joint.IntentSlotResult,
     Joint.intent r = "product.list" ->
     mentions_recent (Joint.raw_text r) = true ->
     Joint.d_tool_args (Joint.to_dict r) !! "limit" = Some (VInt 1) /\
     Joint.d_tool_args (Joint.to_dict r) !! "recent_only" = Some (VBool true))
  /\
  (forall (message : string) (result : ClassificationResult),
     tool_name result = "product.list" ->
     mentions_recent message = true ->
     exists result',
       _enhance_with_dynamic_extraction message result = Ok result' /\
       tool_args result' !! "limit" = Some (VInt 1) /\
       tool_args result' !! "recent_only" = Some (VBool true))
  /\
  (exists r,
     Joint.classify "show latest products" = Ok r /\
     Joint.intent r = "product.list" /\
     Joint.d_tool_args (Joint.to_dict r) !! "limit" = Some (VInt 1) /\
     Joint.d_tool_args (Joint.to_dict r) !! "recent_only" = Some (VBool true))
  /\
  (forall result : ClassificationResult,
     tool_name result = "product.list" ->
     exists result',
       _enhance_with_dynamic_extraction "show latest products" result
       = Ok result' /\
       tool_args result' !! "limit" = Some (VInt 1) /\
       tool_args result' !! "recent_only" = Some (VBool true)).
Proof.
  assert (Hcorpus : forall (message : string) (result : ClassificationResult),
     tool_name result = "product.list" ->
     mentions_recent message = true ->
     exists result',
       _enhance_with_dynamic_extraction message result = Ok result' /\
       tool_args result' !! "limit" = Some (VInt 1) /\
       tool_args result' !! "recent_only" = Some (VBool true)).
  { intros message result Ht Hr.
    destruct (enhance_total message result) as [result' E].
    exists result'. split; [exact E|].
    apply enhance_args in E as (args & _ & ->).
    rewrite Ht, Hr. cbn [with_args tool_args]. rewrite String.eqb_refl.
    cbn [andb].
    split.
    - rewrite lookup_insert_ne by discriminate. apply lookup_insert_eq.
    - apply lookup_insert_eq. }
  split; [|split; [exact Hcorpus | split]].
  - intros r Hi Hr. unfold Joint.to_dict. cbn [Joint.d_tool_args].
    rewrite Hi, String.eqb_refl.
    cbn [andb]. unfold mentions_recent in Hr. unfold Joint.recent_words.
    rewrite Hr. split.
    + rewrite lookup_insert_ne by discriminate. apply lookup_insert_eq.
    + apply lookup_insert_eq.
  - eexists. split; [vm_compute; reflexivity|].
    split; [reflexivity|]. split; vm_compute; reflexivity.
  - intros result Ht. apply Hcorpus; [exact Ht | vm_compute; reflexivity].
Qed.

(** C6, counterexample.  The selected pattern's template asks for
    [limit = 10]; the input "list products" gives the dynamic extraction
    nothing to extract, and the final arguments are empty: the template
    value is not kept as a default. *)
Lemma C6_counterexample :
  tool_args list_ten_result !! "limit" = Some (VInt 10) /\
  _enhance_with_dynamic_extraction "list products" list_ten_result
  = Ok (with_args list_ten_result ∅).
Proof. split; vm_compute; reflexivity. Qed.

(** C6, amended.  The dynamic extraction always returns.  For the five
    product tools it builds the final arguments from the input text
    alone: they do not depend on the argument template of the selected
    pattern, whose values are dropped.  For any other tool the template
    arguments are the final arguments, unchanged. *)
Theorem C6_template_replaced (message : string)
    (result : ClassificationResult) :
  (exists result', _enhance_with_dynamic_extraction message result = Ok result') /\
  (In (tool_name result) tool_ids ->
   forall template,
     _enhance_with_dynamic_extraction message (with_args result template)
     = _enhance_with_dynamic_extraction message result) /\
  (~ In (tool_name result) tool_ids ->
   _enhance_with_dynamic_extraction message result = Ok result).
Proof.
  split; [apply enhance_total|]. split.
  - intros Hin template. unfold _enhance_with_dynamic_extraction.
    cbn [with_args tool_name tool_args confidence method query_type entity
         intent description].
    unfold ArgumentExtractor.extract_arguments.
    destruct (String.eqb_spec (tool_name result) "product.create");
      [reflexivity|].
    destruct (String.eqb_spec (tool_name result) "product.update");
      [reflexivity|].
    destruct (String.eqb_spec (tool_name result) "product.delete");
      [reflexivity|].
    destruct (String.eqb_spec (tool_name result) "product.get");
      [reflexivity|].
    destruct (String.eqb_spec (tool_name result) "product.list");
      [reflexivity|].
    exfalso. simpl in Hin. intuition congruence.
  - intros Hnot. unfold _enhance_with_dynamic_extraction,
      ArgumentExtractor.extract_arguments.
    assert (Hne : forall t, In t tool_ids -> String.eqb (tool_name result) t = false).
    { intros t Ht. apply String.eqb_neq. intros E. apply Hnot.
      rewrite E. exact Ht. }
    rewrite !Hne by (simpl; tauto). rewrite bind_Ok. cbn [andb].
    destruct result; reflexivity.
Qed.

End Assembler.

(** *** Slot extraction on the lamp example, determinism, zero values *)

(** C7.  On "add Smart Lamp, with remote control, price $49.99" the slot
    extractor yields the name "Smart Lamp", the price 49.99 as a float
    and the description "remote control", which holds neither the price
    nor the word "price"; the classifier resolves the input to
    [product.create] with exactly these three slots. *)
Theorem C7_lamp_slots :
  Joint.extract_slot "name" lamp_text (Py.lower lamp_text)
  = Ok (Some (Joint.mkSlot "name" (VStr "Smart Lamp") 0.9 4 14)) /\
  Joint.extract_slot "price" lamp_text (Py.lower lamp_text)
  = Ok (Some (Joint.mkSlot "price" (VFloat 49.99) 0.95 44 49)) /\
  Joint.extract_slot "description" lamp_text (Py.lower lamp_text)
  = Ok (Some (Joint.mkSlot "description" (VStr "remote control") 0.9 21 35)) /\
  Py.contains "remote control" "remote control" = true /\
  Py.contains "49.99" "remote control" = false /\
  Py.contains "price" "remote control" = false /\
  (exists r,
     Joint.classify lamp_text = Ok r /\
     Joint.intent r = "product.create" /\
     map (fun s => (Joint.name s, Joint.value s)) (Joint.slots r)
     = [("name", VStr "Smart Lamp"); ("price", VFloat 49.99);
        ("description", VStr "remote control")]).
Proof.
  repeat split; try (vm_compute; reflexivity).
  eexists. split; [vm_compute; reflexivity|]. split; vm_compute; reflexivity.
Qed.

(** C9.  Two evaluations of the slot extractor on the same slot name and
    text return the same outcome: both return (no exception), either
    both no slot or both a slot with the same name, value, confidence
    and span.  The outcome depends on the lower-cased text only: the raw
    text the callers pass along is not read. *)
Theorem C9_extract_slot_deterministic (slot_name text : string)
    (r1 r2 : Res (option Joint.Slot)) :
  r1 = Joint.extract_slot slot_name text (Py.lower text) ->
  r2 = Joint.extract_slot slot_name text (Py.lower text) ->
  (exists o, r1 = Ok o /\ r2 = Ok o /\
     match o with
     | None => True
     | Some s => Joint.name s = slot_name
     end) /\
  (forall s1 s2, r1 = Ok (Some s1) -> r2 = Ok (Some s2) ->
     Joint.name s1 = Joint.name s2 /\ Joint.value s1 = Joint.value s2 /\
     Joint.confidence s1 = Joint.confidence s2 /\
     Joint.start_pos s1 = Joint.start_pos s2 /\
     Joint.end_pos s1 = Joint.end_pos s2) /\
  (r1 = Ok None <-> r2 = Ok None) /\
  (forall raw, Joint.extract_slot slot_name raw (Py.lower text) = r1).
Proof.
  intros -> ->.
  destruct (extract_slot_total slot_name text (Py.lower text)) as (o & E & Ho).
  split; [|split; [|split]].
  - exists o. split; [exact E|]. split; [exact E|].
    destruct o as [s|]; [apply (Ho s eq_refl) | exact I].
  - intros s1 s2 H1 H2. rewrite H1 in H2. injection H2 as <-.
    repeat split; reflexivity.
  - tauto.
  - intros raw. reflexivity.
Qed.

Section ZeroValues.
Import Corpus Corpus.ArgumentExtractor.

Lemma set_if_other {A} truthy (inj : A -> pyvalue) key o args k :
  k <> key -> set_if truthy inj key o args !! k = args !! k.
Proof.
  intros Hk. unfold set_if. destruct o as [v|]; [|reflexivity].
  destruct (truthy (Some v)); [|reflexivity].
  apply lookup_insert_ne. congruence.
Qed.

End ZeroValues.

(** *** The pattern loader *)

Section Loader.
Import Corpus Corpus.CSVPatternLoader.

Lemma load_rows_parsed good pats rest acc :
  rows_parse good pats ->
  load_rows (good ++ rest) acc = load_rows rest (acc ++ pats).
Proof.
  intros H. revert acc. induction H as [|r p good pats Hr _ IH]; intros acc.
  - rewrite app_nil_r. reflexivity.
  - cbn [app load_rows]. rewrite Hr, IH, <- app_assoc. reflexivity.
Qed.

Lemma load_patterns_concat files acc :
  fold_left (fun patterns f => patterns ++ _load_csv_file f) files acc
  = acc ++ concat (map _load_csv_file files).
Proof.
  revert acc. induction files as [|f fs IH]; intros acc; simpl.
  - rewrite app_nil_r. reflexivity.
  - rewrite IH, app_assoc. reflexivity.
Qed.

(** C8, counterexample.  A file with a well-formed row, a row whose
    confidence is not a number, and another well-formed row: the loader
    returns the first pattern only, so the well-formed row after the
    malformed one is lost too. *)
Lemma C8_counterexample :
  (exists p, pattern_of_row good_row_2 = Ok p) /\
  pattern_of_row bad_row = Raise ValueError /\
  exists p1,
    pattern_of_row good_row_1 = Ok p1 /\
    load_patterns_from_csv [Ok [good_row_1; bad_row; good_row_2]] = [p1].
Proof.
  split; [eexists; vm_compute; reflexivity|].
  split; [vm_compute; reflexivity|].
  eexists. split; vm_compute; reflexivity.
Qed.

(** C8, amended.  The loader returns a list for every input (a file that
    cannot be read and a row that cannot be parsed raise nothing): the
    concatenation, in file order, of what each file yields.  A file that
    cannot be read yields nothing; a file whose rows all parse yields
    their patterns in row order; a malformed row ends the reading of its
    file, which yields the patterns of the rows before it and loses the
    malformed row and every row after it, while the other files are
    still loaded. *)
Theorem C8_loader_partial_failure :
  (forall files,
     load_patterns_from_csv files = concat (map _load_csv_file files)) /\
  (forall e, _load_csv_file (Raise e) = []) /\
  (forall rows pats, rows_parse rows pats -> _load_csv_file (Ok rows) = pats) /\
  (forall good pats bad e rest,
     rows_parse good pats -> pattern_of_row bad = Raise e ->
     _load_csv_file (Ok (good ++ bad :: rest)) = pats) /\
  (forall before after good pats bad e rest,
     rows_parse good pats -> pattern_of_row bad = Raise e ->
     load_patterns_from_csv (before ++ Ok (good ++ bad :: rest) :: after)
     = load_patterns_from_csv before ++ pats ++ load_patterns_from_csv after).
Proof.
  assert (Hconcat : forall files,
            load_patterns_from_csv files = concat (map _load_csv_file files)).
  { intros files. unfold load_patterns_from_csv.
    rewrite load_patterns_concat. reflexivity. }
  assert (Hbad : forall good pats bad e rest,
            rows_parse good pats -> pattern_of_row bad = Raise e ->
            _load_csv_file (Ok (good ++ bad :: rest)) = pats).
  { intros good pats bad e rest Hg Hb. unfold _load_csv_file.
    rewrite (load_rows_parsed good pats (bad :: rest) [] Hg).
    cbn [load_rows app]. rewrite Hb. reflexivity. }
  split; [exact Hconcat|]. split; [reflexivity|]. split; [|split].
  - intros rows pats H. unfold _load_csv_file.
    rewrite <- (app_nil_r rows), (load_rows_parsed rows pats [] [] H).
    reflexivity.
  - exact Hbad.
  - intros before after good pats bad e rest Hg Hb.
    rewrite !Hconcat, map_app, concat_app. cbn [map concat].
    rewrite (Hbad good pats bad e rest Hg Hb). reflexivity.
Qed.

End Loader.

(** *** Instances *)

Lemma C2_witness :
  (In 1 (Corpus.predict_proba (const_pipeline "product.list" 1) "list products") /\
   Forall (fun x => x <= 1)
          (Corpus.predict_proba (const_pipeline "product.list" 1) "list products")) /\
  (forall q, similarity "list products" q
             = jaccard "list products" (Corpus.query_pattern q)) /\
  ((Forall (fun q => similarity "list products" q <= 0)
           (candidates
              (Corpus.predict (const_pipeline "product.list" 1) "list products")
              (Corpus.MLClassifier.patterns list_classifier)) /\
    Corpus.MLClassifier.classify first_label_fit empty_dict_eval
      list_classifier "list products"
    = Ok (Corpus.MLClassifier._default_result "list products", list_classifier))
   \/
   (exists h,
      first_max (similarity "list products")
                (candidates
                   (Corpus.predict (const_pipeline "product.list" 1) "list products")
                   (Corpus.MLClassifier.patterns list_classifier)) h /\
      0 < similarity "list products" h /\
      Corpus.MLClassifier.classify first_label_fit empty_dict_eval
        list_classifier "list products"
      = Ok (Corpus.mkClassificationResult
              (Corpus.qp_tool_name h)
              (match empty_dict_eval (Corpus.qp_tool_args h) with
               | Some d => d
               | None => ∅
               end)
              (1 * Corpus.qp_confidence h)
              "ml_classifier"
              (Corpus.qp_query_type h) (Corpus.qp_entity h)
              (Corpus.qp_intent h) (Corpus.qp_description h),
            list_classifier))).
Proof.
  apply (C2_best_pattern_selection first_label_fit empty_dict_eval
           list_classifier (const_pipeline "product.list" 1) "list products" 1).
  - split; reflexivity.
  - reflexivity.
Defined.

Lemma C5_witness :
  (Corpus.MLClassifier.patterns (Corpus.MLClassifier.init []) = [] ->
   Corpus.MLClassifier.classify first_label_fit empty_dict_eval
     (Corpus.MLClassifier.init []) "show me everything"
   = Ok (Corpus.mkClassificationResult "product.list" ∅ 0.5 "default"
           "simple" "products" "list" "Default fallback",
         Corpus.MLClassifier.init [])) /\
  (forall p,
     Corpus.MLClassifier.patterns (Corpus.MLClassifier.init []) <> [] ->
     first_label_fit
       (map Corpus.query_pattern
            (Corpus.MLClassifier.patterns (Corpus.MLClassifier.init [])))
       (map Corpus.qp_tool_name
            (Corpus.MLClassifier.patterns (Corpus.MLClassifier.init [])))
     = Ok p ->
     Corpus.MLClassifier.classify first_label_fit empty_dict_eval
       (Corpus.MLClassifier.init []) "show me everything"
     = Corpus.MLClassifier.classify first_label_fit empty_dict_eval
         (Corpus.MLClassifier.mk
            (Corpus.MLClassifier.patterns (Corpus.MLClassifier.init []))
            (Some p) true) "show me everything").
Proof.
  apply (C5_untrained_default first_label_fit empty_dict_eval
           (Corpus.MLClassifier.init []) "show me everything"); reflexivity.
Defined.

Lemma C9_witness :
  (exists o,
     Joint.extract_slot "id" "delete product 42" (Py.lower "delete product 42")
     = Ok o /\
     Joint.extract_slot "id" "delete product 42" (Py.lower "delete product 42")
     = Ok o /\
     match o with
     | None => True
     | Some s => Joint.name s = "id"
     end) /\
  (forall s1 s2,
     Joint.extract_slot "id" "delete product 42" (Py.lower "delete product 42")
     = Ok (Some s1) ->
     Joint.extract_slot "id" "delete product 42" (Py.lower "delete product 42")
     = Ok (Some s2) ->
     Joint.name s1 = Joint.name s2 /\ Joint.value s1 = Joint.value s2 /\
     Joint.confidence s1 = Joint.confidence s2 /\
     Joint.start_pos s1 = Joint.start_pos s2 /\
     Joint.end_pos s1 = Joint.end_pos s2) /\
  (Joint.extract_slot "id" "delete product 42" (Py.lower "delete product 42")
   = Ok None <->
   Joint.extract_slot "id" "delete product 42" (Py.lower "delete product 42")
   = Ok None) /\
  (forall raw,
     Joint.extract_slot "id" raw (Py.lower "delete product 42")
     = Joint.extract_slot "id" "delete product 42"
                          (Py.lower "delete product 42")).
Proof.
  apply (C9_extract_slot_deterministic "id" "delete product 42");
    reflexivity.
Defined.

(** *** The matcher and its relational reading *)

Section MatcherSound.
Import Re.

Lemma step_char_sound r p k st res :
  atom_pred r = Some p ->
  step_char p k st = Some res ->
  exists st', matches r st st' /\ k st' = Some res.
Proof.
  intros Ha. unfold step_char. destruct (rest st) as [|x l] eqn:E; [discriminate|].
  destruct (p x) eqn:Hp; [|discriminate]. intros H.
  exists (advance st x l). split; [eapply M_atom; eauto | exact H].
Qed.

Lemma rep_loop_sound r mx greedy :
  (forall k st res, m r k st = Some res ->
     exists st', matches r st st' /\ k st' = Some res) ->
  forall fuel mn k cnt st res,
    rep_loop (m r) mn mx greedy k fuel cnt st = Some res ->
    exists st', matches (RRep (mn - cnt) mx greedy r) st st' /\
                k st' = Some res.
Proof.
  intros Hbody. induction fuel as [|f IH]; intros mn k cnt st res H;
    [discriminate|].
  cbn [rep_loop] in H.
  assert (Hstop : (if (mn <=? cnt)%nat then k st else None) = Some res ->
            exists st', matches (RRep (mn - cnt) mx greedy r) st st' /\
                        k st' = Some res).
  { destruct (mn <=? cnt)%nat eqn:E; [|discriminate]. intros Hk.
    apply Nat.leb_le in E. exists st. split; [|exact Hk].
    replace (mn - cnt)%nat with 0%nat by lia. apply M_rep_stop. }
  assert (Hmore : (if below cnt mx
                   then m r (fun st' =>
                          if (pos st <? pos st')%nat || (cnt <? mn)%nat
                          then rep_loop (m r) mn mx greedy k f (S cnt) st'
                          else None) st
                   else None) = Some res ->
            exists st', matches (RRep (mn - cnt) mx greedy r) st st' /\
                        k st' = Some res).
  { destruct (below cnt mx); [|discriminate]. intros Hb.
    apply Hbody in Hb as (st1 & Hm1 & Hk1).
    destruct ((pos st <? pos st1)%nat || (cnt <? mn)%nat); [|discriminate].
    apply IH in Hk1 as (st2 & Hm2 & Hk2).
    exists st2. split; [|exact Hk2].
    eapply M_rep_more; [exact Hm1|].
    replace (Nat.pred (mn - cnt)) with (mn - S cnt)%nat by lia. exact Hm2. }
  destruct greedy; unfold or_else in H.
  - match type of H with match ?a with _ => _ end = _ =>
      destruct a as [x|] eqn:E end.
    + injection H as ->. apply Hmore. reflexivity.
    + apply Hstop. exact H.
  - match type of H with match ?a with _ => _ end = _ =>
      destruct a as [x|] eqn:E end.
    + injection H as ->. apply Hstop. reflexivity.
    + apply Hmore. exact H.
Qed.

(** Whatever the matcher accepts, the relation allows. *)
Lemma m_sound r :
  forall k st res, m r k st = Some res ->
    exists st', matches r st st' /\ k st' = Some res.
Proof.
  induction r as [ |c| |neg c|neg items| | |neg|a IHa b IHb|a IHa b IHb
                 |mn mx greedy r' IH|i r' IH]; intros k st res H;
    cbn [m] in H.
  - exists st. split; [constructor | exact H].
  - eapply step_char_sound; [reflexivity | exact H].
  - eapply step_char_sound; [reflexivity | exact H].
  - eapply step_char_sound; [reflexivity | exact H].
  - eapply step_char_sound; [reflexivity | exact H].
  - destruct (pos st =? 0)%nat; [|discriminate].
    exists st. split; [constructor | exact H].
  - destruct (at_eol st); [|discriminate].
    exists st. split; [constructor | exact H].
  - destruct (xorb neg (at_boundary st)); [|discriminate].
    exists st. split; [constructor | exact H].
  - apply IHa in H as (st1 & M1 & H1). apply IHb in H1 as (st2 & M2 & H2).
    exists st2. split; [econstructor; eauto | exact H2].
  - unfold or_else in H. destruct (m a k st) as [x|] eqn:E.
    + injection H as ->. apply IHa in E as (st1 & M1 & H1).
      exists st1. split; [apply M_alt_l, M1 | exact H1].
    + apply IHb in H as (st1 & M1 & H1).
      exists st1. split; [apply M_alt_r, M1 | exact H1].
  - apply (rep_loop_sound r' mx greedy IH) in H as (st' & M1 & H1).
    rewrite Nat.sub_0_r in M1. exists st'. split; [exact M1 | exact H1].
  - apply IH in H as (st1 & M1 & H1).
    exists (set_cap i (pos st) st1). split; [apply M_group, M1 | exact H1].
Qed.

Lemma all_chars_in c : In c all_chars.
Proof.
  unfold all_chars. rewrite <- (ascii_nat_embedding c).
  apply in_map, in_seq. pose proof (nat_ascii_bounded c). lia.
Qed.

(** What a match reads: the characters [pre] between the two states. *)
Lemma matches_reads c P r st st' :
  matches r st st' ->
  exists pre,
    rest st = pre ++ rest st' /\
    pos st' = (pos st + length pre)%nat /\
    (needs c r = true -> In c pre) /\
    (reads_only P r = true -> forallb P pre = true).
Proof.
  induction 1 as [st|r p x l st Ha Hr Hp|st|st|neg st
                 |a b st st1 st2 _ IH1 _ IH2|a b st st' _ IH|a b st st' _ IH
                 |n r st st' _ IH|mx greedy r st
                 |mn mx greedy r st st1 st2 _ IH1 _ IH2].
  - exists []. repeat split; simpl; auto; try lia; discriminate.
  - exists [x]. split; [exact Hr|]. split; [simpl; lia|]. split.
    + destruct r; try discriminate. simpl in *. injection Ha as <-.
      intros Hc. apply Ascii.eqb_eq in Hp, Hc. left. congruence.
    + intros Hall. simpl. rewrite andb_true_r.
      assert (Hf : forallb (fun x => implb (p x) (P x)) all_chars = true).
      { destruct r; try discriminate; simpl in Hall, Ha; rewrite ?Ha in Hall;
          injection Ha as <-; exact Hall. }
      rewrite forallb_forall in Hf. specialize (Hf x (all_chars_in x)).
      rewrite Hp in Hf. exact Hf.
  - exists []. repeat split; simpl; auto; try lia; discriminate.
  - exists []. repeat split; simpl; auto; try lia; discriminate.
  - exists []. repeat split; simpl; auto; try lia; discriminate.
  - destruct IH1 as (p1 & E1 & L1 & N1 & A1), IH2 as (p2 & E2 & L2 & N2 & A2).
    exists (p1 ++ p2). split; [rewrite E1, E2, app_assoc; reflexivity|].
    split; [rewrite L2, L1, length_app; lia|]. split.
    + cbn [needs]. intros Hn. apply in_or_app. apply orb_prop in Hn as [?|?]; auto.
    + cbn [reads_only]. intros Hn. apply andb_prop in Hn as [? ?].
      rewrite forallb_app, A1, A2 by assumption. reflexivity.
  - destruct IH as (p1 & E1 & L1 & N1 & A1). exists p1.
    split; [exact E1|]. split; [exact L1|]. cbn [needs reads_only]. split.
    + intros Hn. apply andb_prop in Hn as [? ?]. auto.
    + intros Hn. apply andb_prop in Hn as [? ?]. auto.
  - destruct IH as (p1 & E1 & L1 & N1 & A1). exists p1.
    split; [exact E1|]. split; [exact L1|]. cbn [needs reads_only]. split.
    + intros Hn. apply andb_prop in Hn as [? ?]. auto.
    + intros Hn. apply andb_prop in Hn as [? ?]. auto.
  - destruct IH as (p1 & E1 & L1 & N1 & A1). exists p1.
    split; [exact E1|]. split; [exact L1|]. split; assumption.
  - exists []. split; [reflexivity|]. split; [simpl; lia|].
    split; [discriminate | reflexivity].
  - destruct IH1 as (p1 & E1 & L1 & N1 & A1), IH2 as (p2 & E2 & L2 & N2 & A2).
    exists (p1 ++ p2). split; [rewrite E1, E2, app_assoc; reflexivity|].
    split; [rewrite L2, L1, length_app; lia|]. cbn [needs reads_only] in *.
    split.
    + intros Hn. apply andb_prop in Hn as [_ Hn]. apply in_or_app. auto.
    + intros Hn. rewrite forallb_app, A1, A2 by assumption. reflexivity.
Qed.

End MatcherSound.

Section MatcherFacts.
Import Re.

Lemma matches_in_subject subj r st st' :
  matches r st st' -> in_subject subj st ->
  in_subject subj st' /\
  exists pre, slice subj (pos st) (pos st') = pre /\
              rest st = pre ++ rest st' /\
              (forall P, reads_only P r = true -> forallb P pre = true).
Proof.
  intros Hm [Hr Hl].
  destruct (matches_reads "000"%char (fun _ => true) r st st' Hm)
    as (pre & E & L & _ & _).
  assert (Hlen : (length pre + length (rest st') = length subj - pos st)%nat).
  { rewrite <- length_app, <- E, Hr. apply length_skipn. }
  assert (Hr' : rest st' = skipn (pos st') subj).
  { rewrite L, Nat.add_comm, <- skipn_skipn, <- Hr, E.
    rewrite skipn_app, skipn_all, Nat.sub_diag. reflexivity. }
  split; [split; [exact Hr' | lia]|].
  exists pre. split; [|split; [exact E|]].
  - unfold slice. rewrite <- Hr, E, L.
    replace (pos st + length pre - pos st)%nat with (length pre) by lia.
    rewrite firstn_app, firstn_all, Nat.sub_diag. simpl. apply app_nil_r.
  - intros P HP.
    destruct (matches_reads "000"%char P r st st' Hm) as (pre' & E' & L' & _ & A).
    assert (pre' = pre).
    { assert (length pre' = length pre) by lia.
      rewrite E' in E. clear - E H. revert pre H E.
      induction pre' as [|a p IH]; intros [|b q] Hlen Heq; simpl in *;
        try discriminate; [reflexivity|].
      injection Heq as -> Heq. f_equal. apply IH; [lia | exact Heq]. }
    subst pre'. apply A, HP.
Qed.

(** Matching keeps the captures of group [n] within [P] when every group
    [n] of the pattern only reads characters in [P]. *)
Lemma matches_caps P n subj r st st' :
  matches r st st' -> group_reads P n r = true ->
  in_subject subj st -> caps_read P n subj st ->
  caps_read P n subj st'.
Proof.
  induction 1 as [st|r p x l st Ha Hr Hp|st|st|neg st
                 |a b st st1 st2 M1 IH1 M2 IH2|a b st st' _ IH|a b st st' _ IH
                 |i r st st' M IH|mx greedy r st
                 |mn mx greedy r st st1 st2 M1 IH1 M2 IH2];
    intros Hg Hs Hc; try exact Hc.
  - cbn [group_reads] in Hg. apply andb_prop in Hg as [G1 G2].
    apply IH2; [exact G2 | | apply IH1; assumption].
    apply (matches_in_subject subj a st st1 M1 Hs).
  - cbn [group_reads] in Hg. apply andb_prop in Hg as [G1 G2]. auto.
  - cbn [group_reads] in Hg. apply andb_prop in Hg as [G1 G2]. auto.
  - cbn [group_reads] in Hg. apply andb_prop in Hg as [G1 G2].
    specialize (IH G2 Hs Hc). intros s e. unfold set_cap. cbn [caps lookup_cap].
    destruct (i =? n)%nat eqn:E; [|apply IH].
    intros [= <- <-].
    destruct (matches_in_subject subj r st st' M Hs) as (_ & pre & <- & _ & A).
    apply A, G1.
  - cbn [group_reads] in Hg.
    apply IH2; [exact Hg | | apply IH1; assumption].
    apply (matches_in_subject subj r st st1 M1 Hs).
Qed.

Lemma in_skipn_in {A} (x : A) k l : In x (skipn k l) -> In x l.
Proof.
  revert l. induction k as [|k IH]; intros [|y l] H; simpl in *; auto.
Qed.

Lemma search_from_facts P n c r subj l st mt :
  rest st = l -> in_subject subj st -> caps st = [] ->
  search_from r subj st l = Some mt ->
  (group_reads P n r = true -> caps_read P n subj (m_end mt)) /\
  (needs c r = true -> In c subj) /\
  m_subject mt = subj.
Proof.
  revert st. induction l as [|x l IH]; intros st Hr Hs Hc H;
    cbn [search_from] in H.
  - destruct (m r Some st) as [e|] eqn:E; [|discriminate].
    injection H as <-. apply m_sound in E as (st' & M & [= ->]).
    cbn [m_end m_subject]. split; [|split; [|reflexivity]].
    + intros Hg. apply (matches_caps P n subj r st e M Hg Hs).
      intros s e'. rewrite Hc. discriminate.
    + intros Hn. destruct (matches_reads c P r st e M) as (pre & E & _ & N & _).
      specialize (N Hn). destruct Hs as [Hs _]. rewrite Hr in E.
      destruct pre; [destruct N | discriminate].
  - destruct (m r Some st) as [e|] eqn:E.
    + injection H as <-. apply m_sound in E as (st' & M & [= ->]).
      cbn [m_end m_subject]. split; [|split; [|reflexivity]].
      * intros Hg. apply (matches_caps P n subj r st e M Hg Hs).
        intros s e'. rewrite Hc. discriminate.
      * intros Hn. destruct (matches_reads c P r st e M) as (pre & E & _ & N & _).
        specialize (N Hn). destruct Hs as [Hs _].
        assert (Hin : In c (rest st)) by (rewrite E; apply in_or_app; auto).
        rewrite Hs in Hin. apply (in_skipn_in _ _ _ Hin).
    + apply (IH (advance st x l)); [reflexivity | | exact Hc | exact H].
      assert (M : matches RAny st (advance st x l) \/
                  matches (RChar x) st (advance st x l)).
      { right. eapply M_atom; [reflexivity | exact Hr | apply Ascii.eqb_refl]. }
      destruct M as [M|M]; apply (matches_in_subject subj _ st _ M Hs).
Qed.

(** The capture of a group that only reads characters in [P] consists
    of characters in [P]. *)
Lemma search_group_reads P n r s mt g :
  search r s = Some mt -> group_reads P n r = true ->
  group mt n = Some g -> forallb P (Py.of_str g) = true.
Proof.
  unfold search. intros H Hg Hgr.
  destruct (search_from_facts P n "000"%char r (Py.of_str s) (Py.of_str s)
              (start_state (Py.of_str s)) mt eq_refl) as (Hc & _ & Hsub);
    [split; [reflexivity | simpl; lia] | reflexivity | exact H |].
  unfold group, span in Hgr.
  destruct (lookup_cap n (caps (m_end mt))) as [[a b]|] eqn:E; [|discriminate].
  injection Hgr as <-. rewrite of_to_str, Hsub. apply (Hc Hg a b E).
Qed.

(** A pattern that has to read [c] matches no text without [c]. *)
Lemma search_needs c r s :
  needs c r = true -> ~ In c (Py.of_str s) -> search r s = None.
Proof.
  intros Hn Hnot. destruct (search r s) as [mt|] eqn:H; [|reflexivity].
  exfalso. apply Hnot. unfold search in H.
  destruct (search_from_facts (fun _ => true) 0 c r (Py.of_str s) (Py.of_str s)
              (start_state (Py.of_str s)) mt eq_refl) as (_ & Hc & _);
    [split; [reflexivity | simpl; lia] | reflexivity | exact H |].
  apply Hc, Hn.
Qed.

Lemma lower_char_not_upper c : Py.is_upper (Py.lower_char c) = false.
Proof. destruct c as [[] [] [] [] [] [] [] []]; reflexivity. Qed.

Lemma lower_no_upper s c :
  In c (Py.of_str (Py.lower s)) -> Py.is_upper c = false.
Proof.
  unfold Py.lower. rewrite of_to_str. intros H.
  apply in_map_iff in H as (x & <- & _). apply lower_char_not_upper.
Qed.

End MatcherFacts.

(** *** The two extraction paths compared *)

Section TwoPaths.
Import Corpus Corpus.ArgumentExtractor.

Lemma lstrip_no_space l : forallb no_space l = true -> Py.lstrip l = l.
Proof.
  destruct l as [|c l]; [reflexivity|]. cbn [forallb Py.lstrip].
  intros H. apply andb_prop in H as [H _]. unfold no_space in H.
  apply negb_true_iff in H. rewrite H. reflexivity.
Qed.

Lemma strip_no_space g :
  forallb no_space (Py.of_str g) = true -> Py.strip g = g.
Proof.
  intros H. unfold Py.strip, Py.rstrip. rewrite (lstrip_no_space _ H).
  rewrite lstrip_no_space.
  - rewrite rev_involutive. apply string_of_list_ascii_of_string.
  - rewrite forallb_forall in *. intros x Hx. apply H, in_rev, Hx.
Qed.

Lemma re_search_capture P pattern text :
  capture_ok P pattern = true ->
  re_search pattern text = Ok None \/
  exists mt g se,
    re_search pattern text = Ok (Some mt) /\
    Re.group mt 1 = Some g /\ Re.span mt 1 = Some se /\
    forallb P (Py.of_str g) = true.
Proof.
  unfold capture_ok, re_search.
  destruct (Re.compile pattern) as [r|]; [|discriminate].
  intros H. apply andb_prop in H as [Hs Hg].
  destruct (Re.search r text) as [mt|] eqn:E; [right | left; reflexivity].
  destruct (search_group 1 r text mt Hs E) as (g & se & Eg & Es).
  exists mt, g, se. repeat split; try assumption.
  apply (search_group_reads P 1 r text mt g E Hg Eg).
Qed.

(** The loop of the rule-based extractor and the loop of the corpus
    extractor over the same patterns end with the same outcome, when the
    processor is the corpus conversion and no capture holds
    whitespace. *)
Lemma loops_agree {A} (conv : string -> option A) (inj : A -> pyvalue)
    slot_name proc (patterns : list (string * Q)) text_lower :
  dict_get slot_name Joint.VALUE_PROCESSORS = Some proc ->
  (forall raw, proc raw = Ok (option_map inj (conv raw))) ->
  forallb (capture_ok no_space) (map fst patterns) = true ->
  exists o a,
    Joint.extract_slot_rules slot_name text_lower patterns = Ok o /\
    first_converted conv (map fst patterns) text_lower = Ok a /\
    same_outcome inj slot_name o a.
Proof.
  intros Hd Hproc. induction patterns as [|[p c] ps IH]; intros H;
    cbn [map fst forallb Joint.extract_slot_rules first_converted] in *.
  - exists None, None. repeat split.
  - apply andb_prop in H as [Hp Hps]. specialize (IH Hps).
    destruct (re_search_capture no_space p text_lower Hp)
      as [E | (mt & g & [s e] & E & Eg & Es & Hg)]; rewrite E, !bind_Ok.
    + exact IH.
    + rewrite Eg, Es, Hd, Hproc, bind_Ok, (strip_no_space g Hg).
      destruct (conv g) as [v|]; cbn [option_map]; [|exact IH].
      eexists _, _. split; [reflexivity|]. split; [reflexivity|].
      split; reflexivity.
Qed.

Lemma first_converted_dead {A} (conv : string -> option A) ps p text_lower :
  re_search p text_lower = Ok None ->
  first_converted conv (ps ++ [p]) text_lower
  = first_converted conv ps text_lower.
Proof.
  intros Hp. induction ps as [|q ps IH]; cbn [app first_converted].
  - rewrite Hp, bind_Ok. reflexivity.
  - destruct (re_search q text_lower) as [[mt|]|e]; rewrite ?bind_Ok;
      try reflexivity; [|exact IH].
    destruct (Re.group mt 1) as [g|]; [|reflexivity].
    destruct (conv g); [reflexivity | exact IH].
Qed.

Lemma needs_upper_never_matches c pattern message :
  pattern_needs c pattern = true -> Py.is_upper c = true ->
  re_search pattern (Py.lower message) = Ok None.
Proof.
  unfold pattern_needs, re_search.
  destruct (Re.compile pattern) as [r|]; [|discriminate].
  intros Hn Hu. rewrite (search_needs c r (Py.lower message) Hn); [reflexivity|].
  intros Hin. apply lower_no_upper in Hin. congruence.
Qed.

Lemma usd_never_matches message :
  re_search "(\d+(?:\.\d{2})?)\s*USD" (Py.lower message) = Ok None.
Proof. apply (needs_upper_never_matches "U"); reflexivity. Qed.

Lemma extract_price_first_three message :
  _extract_price message (Py.lower message)
  = first_converted Py.float_of_str (firstn 3 price_patterns)
                    (Py.lower message).
Proof.
  unfold _extract_price.
  change price_patterns
    with (firstn 3 price_patterns ++ ["(\d+(?:\.\d{2})?)\s*USD"]).
  apply first_converted_dead, usd_never_matches.
Qed.

(** X1.  The fourth price pattern of the corpus extractor, which ends in
    the upper-case text [USD], is matched against the lower-cased
    message and so never matches: for every message the corpus price is
    what the first three patterns give. *)
Theorem X1_usd_pattern_never_matches (message : string) :
  re_search "(\d+(?:\.\d{2})?)\s*USD" (Py.lower message) = Ok None /\
  _extract_price message (Py.lower message)
  = first_converted Py.float_of_str (firstn 3 price_patterns)
                    (Py.lower message).
Proof.
  split; [apply usd_never_matches | apply extract_price_first_three].
Qed.

(** X2.  The two paths extract the same id from every message: the
    corpus extractor returns an integer exactly when the rule-based
    extractor returns an [id] slot, and the slot holds that integer. *)
Theorem X2_id_paths_agree (message : string) :
  exists o a,
    Joint.extract_slot "id" message (Py.lower message) = Ok o /\
    _extract_id message (Py.lower message) = Ok a /\
    same_outcome VInt "id" o a.
Proof.
  apply (loops_agree Py.int_of_str VInt "id" Joint.process_id
           [("(?:product\s+)?id\s+(\d+)", 0.95);
            ("(?:update|modify|change|edit|delete|remove|drop|get|find|retrieve)\s+(?:product\s+)?(\d+)", 0.9)]
           (Py.lower message)).
  - reflexivity.
  - intros raw. reflexivity.
  - vm_compute. reflexivity.
Qed.

(** X3.  The two paths extract the same price from every message,
    although the corpus extractor lists one more pattern: it returns a
    float exactly when the rule-based extractor returns a [price] slot,
    and the slot holds that float. *)
Theorem X3_price_paths_agree (message : string) :
  exists o a,
    Joint.extract_slot "price" message (Py.lower message) = Ok o /\
    _extract_price message (Py.lower message) = Ok a /\
    same_outcome VFloat "price" o a.
Proof.
  rewrite extract_price_first_three.
  apply (loops_agree Py.float_of_str VFloat "price" Joint.process_price
           [("price\s*\$?(\d+(?:\.\d{2})?)", 0.95);
            ("\$(\d+(?:\.\d{2})?)", 0.9);
            ("(\d+(?:\.\d{2})?)\s*dollars?", 0.85)]
           (Py.lower message)).
  - reflexivity.
  - intros raw. reflexivity.
  - vm_compute. reflexivity.
Qed.

End TwoPaths.

Section CaptureLength.
Import Re.

Lemma matches_len r st st' k :
  matches r st st' -> fixed_len r = Some k -> pos st' = (pos st + k)%nat.
Proof.
  intros M. revert k.
  induction M as [st|r p x l st Ha Hr Hp|st|st|neg st
                 |a b st st1 st2 _ IH1 _ IH2|a b st st' _ IH|a b st st' _ IH
                 |n r st st' _ IH|mx greedy r st
                 |mn mx greedy r st st1 st2 _ IH1 _ IH2]; intros k Hk;
    cbn [fixed_len atom_pred] in Hk; try discriminate;
    try (injection Hk as <-; lia).
  - assert (k = 1%nat) as ->.
    { destruct r; try discriminate; cbn [fixed_len atom_pred] in Hk;
        congruence. }
    cbn [advance pos]. lia.
  - destruct (fixed_len a) as [x|]; [|discriminate].
    destruct (fixed_len b) as [y|]; [|discriminate]. injection Hk as <-.
    rewrite (IH2 y eq_refl), (IH1 x eq_refl). lia.
  - destruct (fixed_len a) as [x|]; [|discriminate].
    destruct (fixed_len b) as [y|]; [|discriminate].
    destruct (x =? y)%nat; [|discriminate]. injection Hk as <-. auto.
  - destruct (fixed_len a) as [x|]; [|discriminate].
    destruct (fixed_len b) as [y|]; [|discriminate].
    destruct (x =? y)%nat eqn:E; [|discriminate]. injection Hk as <-.
    apply Nat.eqb_eq in E. subst. auto.
  - cbn [set_cap pos]. auto.
Qed.

Lemma matches_caps_span k n subj r st st' :
  matches r st st' -> group_len k n r = true ->
  in_subject subj st -> caps_span k n subj st ->
  caps_span k n subj st'.
Proof.
  induction 1 as [st|r p x l st Ha Hr Hp|st|st|neg st
                 |a b st st1 st2 M1 IH1 M2 IH2|a b st st' _ IH|a b st st' _ IH
                 |i r st st' M IH|mx greedy r st
                 |mn mx greedy r st st1 st2 M1 IH1 M2 IH2];
    intros Hg Hs Hc; try exact Hc.
  - cbn [group_len] in Hg. apply andb_prop in Hg as [G1 G2].
    apply IH2; [exact G2 | | apply IH1; assumption].
    apply (matches_in_subject subj a st st1 M1 Hs).
  - cbn [group_len] in Hg. apply andb_prop in Hg as [G1 G2]. auto.
  - cbn [group_len] in Hg. apply andb_prop in Hg as [G1 G2]. auto.
  - cbn [group_len] in Hg. apply andb_prop in Hg as [G1 G2].
    specialize (IH G2 Hs Hc). intros s e. unfold set_cap. cbn [caps lookup_cap].
    destruct (i =? n)%nat eqn:E; [|apply IH].
    intros [= <- <-].
    destruct (fixed_len r) as [x|] eqn:Ex; [|discriminate].
    apply Nat.eqb_eq in G1. subst x.
    split; [apply (matches_len r st st' k M Ex)|].
    apply (matches_in_subject subj r st st' M Hs).
  - cbn [group_len] in Hg.
    apply IH2; [exact Hg | | apply IH1; assumption].
    apply (matches_in_subject subj r st st1 M1 Hs).
Qed.

Lemma search_from_span k n r subj l st mt :
  rest st = l -> in_subject subj st -> caps st = [] ->
  search_from r subj st l = Some mt ->
  group_len k n r = true ->
  caps_span k n subj (m_end mt) /\ m_subject mt = subj.
Proof.
  revert st. induction l as [|x l IH]; intros st Hr Hs Hc H Hg;
    cbn [search_from] in H.
  - destruct (m r Some st) as [e|] eqn:E; [|discriminate].
    injection H as <-. apply m_sound in E as (st' & M & [= ->]).
    split; [|reflexivity]. apply (matches_caps_span k n subj r st e M Hg Hs).
    intros s e'. rewrite Hc. discriminate.
  - destruct (m r Some st) as [e|] eqn:E.
    + injection H as <-. apply m_sound in E as (st' & M & [= ->]).
      split; [|reflexivity]. apply (matches_caps_span k n subj r st e M Hg Hs).
      intros s e'. rewrite Hc. discriminate.
    + apply (IH (advance st x l)); [reflexivity | | exact Hc | exact H | exact Hg].
      assert (M : matches (RChar x) st (advance st x l)).
      { eapply M_atom; [reflexivity | exact Hr | apply Ascii.eqb_refl]. }
      apply (matches_in_subject subj _ st _ M Hs).
Qed.

Lemma length_to_str l : String.length (Py.to_str l) = length l.
Proof. induction l as [|c l IH]; simpl; [reflexivity | f_equal; exact IH]. Qed.

(** The capture of a group of fixed length has that length. *)
Lemma search_group_len k n r s mt g :
  search r s = Some mt -> group_len k n r = true ->
  group mt n = Some g -> String.length g = k.
Proof.
  unfold search. intros H Hg Hgr.
  destruct (search_from_span k n r (Py.of_str s) (Py.of_str s)
              (start_state (Py.of_str s)) mt eq_refl) as (Hc & Hsub);
    [split; [reflexivity | simpl; lia] | reflexivity | exact H | exact Hg |].
  unfold group, span in Hgr.
  destruct (lookup_cap n (caps (m_end mt))) as [[a b]|] eqn:E; [|discriminate].
  injection Hgr as <-. destruct (Hc a b E) as [-> Hle].
  rewrite length_to_str, Hsub. unfold slice.
  rewrite length_firstn, length_skipn. lia.
Qed.

End CaptureLength.

Section NamePrefix.
Import Corpus Corpus.ArgumentExtractor.

Lemma first_group_found patterns text g :
  first_group patterns text = Ok (Some g) ->
  exists p mt, In p patterns /\ re_search p text = Ok (Some mt) /\
               Re.group mt 1 = Some g.
Proof.
  induction patterns as [|p ps IH]; cbn [first_group]; [discriminate|].
  destruct (re_search p text) as [[mt|]|e] eqn:E; rewrite ?bind_Ok;
    [| |discriminate].
  - destruct (Re.group mt 1) as [g'|] eqn:Eg; [|discriminate].
    intros [= ->]. exists p, mt. split; [left; reflexivity | auto].
  - intros H. destruct (IH H) as (q & mt & Hin & Hq).
    exists q, mt. split; [right; exact Hin | exact Hq].
Qed.

Lemma upper_of_letter c :
  Py.is_alpha c = true ->
  Py.is_upper (Py.upper_char c) = true /\ Py.is_space c = false.
Proof.
  destruct c as [[] [] [] [] [] [] [] []]; try discriminate;
    intros _; split; reflexivity.
Qed.

(** X4.  A name prefix the list extractor returns is one upper-case
    letter. *)
Theorem X4_name_prefix_is_one_upper_letter (message prefix : string) :
  _extract_name_prefix message (Py.lower message) = Ok (Some prefix) ->
  exists c, prefix = String c "" /\ Py.is_upper c = true.
Proof.
  unfold _extract_name_prefix.
  destruct (first_group name_prefix_patterns (Py.lower message))
    as [[g|]|e] eqn:E; rewrite ?bind_Ok; try discriminate.
  intros [= <-].
  apply first_group_found in E as (p & mt & Hin & Hs & Hg).
  assert (Hp : captures_letter p = true).
  { assert (Hall : forallb captures_letter name_prefix_patterns = true)
      by (vm_compute; reflexivity).
    rewrite forallb_forall in Hall. apply Hall, Hin. }
  unfold captures_letter in Hp. unfold re_search in Hs.
  destruct (Re.compile p) as [r|]; [|discriminate].
  injection Hs as Hs.
  apply andb_prop in Hp as [Hp Hlen]. apply andb_prop in Hp as [_ Hread].
  pose proof (search_group_len 1 1 r _ mt g Hs Hlen Hg) as Hl.
  pose proof (search_group_reads Py.is_alpha 1 r _ mt g Hs Hread Hg) as Ha.
  destruct g as [|c [|c' g]]; try discriminate Hl.
  cbn [Py.of_str list_ascii_of_string forallb] in Ha.
  apply andb_prop in Ha as [Ha _].
  destruct (upper_of_letter c Ha) as [Hu Hsp].
  exists (Py.upper_char c). split; [|exact Hu].
  unfold Py.strip, Py.upper, Py.rstrip.
  cbn [Py.of_str list_ascii_of_string Py.lstrip]. rewrite Hsp.
  cbn [rev app Py.lstrip]. rewrite Hsp. reflexivity.
Qed.

Lemma X4_witness :
  exists c, "A" = String c "" /\ Py.is_upper c = true.
Proof.
  apply (X4_name_prefix_is_one_upper_letter
           "show products starting with a" "A").
  vm_compute. reflexivity.
Defined.

End NamePrefix.

(** *** Slots of the rule-based classifier *)

Section SlotFacts.
Import Joint.

Lemma digits_val_nonneg l acc : (0 <= acc)%Z -> (0 <= Py.digits_val acc l)%Z.
Proof.
  revert acc. induction l as [|c l IH]; intros acc H; cbn [Py.digits_val];
    [exact H|].
  apply IH. unfold Py.digit_val. lia.
Qed.

Lemma drop_spaces_incl c l : In c (Py.drop_spaces l) -> In c l.
Proof.
  induction l as [|x l IH]; cbn [Py.drop_spaces]; [tauto|].
  destruct (Py.is_numeral_space x); [right; apply IH; assumption | tauto].
Qed.

Lemma numeral_text_incl c s : In c (Py.numeral_text s) -> In c (Py.of_str s).
Proof.
  unfold Py.numeral_text. intros H.
  apply in_rev, drop_spaces_incl in H. apply in_rev in H.
  apply drop_spaces_incl, H.
Qed.

(** A numeral is read as negative only when it starts with a minus. *)
Lemma split_sign_minus l l' :
  Py.split_sign l = (true, l') -> In "-"%char l.
Proof.
  destruct l as [|c l]; cbn [Py.split_sign]; [discriminate|].
  destruct (Ascii.eqb_spec c "-"%char) as [->|_]; [intros _; left; reflexivity|].
  destruct (Ascii.eqb c "+"%char); discriminate.
Qed.

Lemma scale_nonneg m e : (0 <= m)%Z -> 0 <= Py.scale m e.
Proof.
  intros H. unfold Py.scale. destruct (0 <=? e)%Z; unfold Qle; cbn [Qnum Qden].
  - pose proof (Z.pow_nonneg 10 e). nia.
  - lia.
Qed.

Lemma mantissa_nonneg l m n : Py.mantissa l = Some (m, n) -> (0 <= m)%Z.
Proof.
  unfold Py.mantissa. destruct (Py.split_dot [] l) as [ip [fp|]].
  - destruct (_ && _); [|discriminate]. intros [= <- _].
    apply digits_val_nonneg. lia.
  - destruct (Py.all_digits ip); [|discriminate]. intros [= <- _].
    apply digits_val_nonneg. lia.
Qed.

(** [float] gives a negative number only for a text with a minus
    sign. *)
Lemma float_of_str_sign s q :
  Py.float_of_str s = Some q -> 0 <= q \/ In "-"%char (Py.of_str s).
Proof.
  unfold Py.float_of_str.
  destruct (Py.split_sign (Py.numeral_text s)) as [neg l] eqn:Es.
  destruct neg.
  - intros _. right. apply numeral_text_incl, (split_sign_minus _ l), Es.
  - destruct (Py.drop_underscores None l) as [d|]; [|discriminate].
    destruct (Py.split_exp [] d) as [mt ex].
    destruct (Py.mantissa mt) as [[m n]|] eqn:Em; [|discriminate].
    destruct (match ex with Some x => Py.exponent x | None => Some 0%Z end)
      as [e|]; [|discriminate].
    intros [= <-]. left. apply scale_nonneg. cbn [Py.signed].
    apply (mantissa_nonneg mt m n), Em.
Qed.

(** So does [int]. *)
Lemma int_of_str_sign s z :
  Py.int_of_str s = Some z -> (0 <= z)%Z \/ In "-"%char (Py.of_str s).
Proof.
  unfold Py.int_of_str.
  destruct (Py.split_sign (Py.numeral_text s)) as [neg l] eqn:Es.
  destruct neg.
  - intros _. right. apply numeral_text_incl, (split_sign_minus _ l), Es.
  - destruct (Py.drop_underscores None l) as [d|]; [|discriminate].
    destruct (Py.all_digits d); [|discriminate].
    intros [= <-]. left. cbn [Py.signed]. apply digits_val_nonneg. lia.
Qed.

Lemma lstrip_incl c l : In c (Py.lstrip l) -> In c l.
Proof.
  induction l as [|x l IH]; cbn [Py.lstrip]; [tauto|].
  destruct (Py.is_space x); [right; apply IH; assumption | tauto].
Qed.

Lemma strip_incl c s : In c (Py.of_str (Py.strip s)) -> In c (Py.of_str s).
Proof.
  unfold Py.strip, Py.rstrip. rewrite of_to_str. intros H.
  apply in_rev, lstrip_incl in H. apply in_rev in H. apply lstrip_incl, H.
Qed.

Lemma strip_chars P s :
  forallb P (Py.of_str s) = true -> forallb P (Py.of_str (Py.strip s)) = true.
Proof.
  rewrite !forallb_forall. intros H c Hc. apply H, strip_incl, Hc.
Qed.

Lemma slot_table_reads : table_reads SLOT_PATTERNS = true.
Proof. vm_compute. reflexivity. Qed.

Lemma title_nonempty s : s <> "" -> Py.title s <> "".
Proof.
  unfold Py.title. destruct s as [|c s]; [congruence|]. intros _.
  cbn [Py.of_str list_ascii_of_string Py.title_from].
  destruct (Py.is_alpha c); discriminate.
Qed.

Lemma processors_typed slot_name proc raw v :
  dict_get slot_name VALUE_PROCESSORS = Some proc ->
  forallb (slot_chars slot_name) (Py.of_str raw) = true ->
  proc raw = Ok (Some v) -> typed_value slot_name v.
Proof.
  intros H Hraw. apply dict_get_In in H.
  assert (Hminus : (slot_name = "price" \/ slot_name = "id") ->
                   ~ In "-"%char (Py.of_str raw)).
  { intros Hn Hin. rewrite forallb_forall in Hraw. specialize (Hraw _ Hin).
    destruct Hn as [-> | ->]; discriminate Hraw. }
  destruct H as [H|[H|[H|[H|[]]]]]; injection H as <- <-.
  - unfold process_name.
    destruct (re_sub "\s+" " " raw) as [s|e]; rewrite ?bind_Ok; [|discriminate].
    destruct (String.eqb_spec (Py.strip s) "") as [|Hne]; [discriminate|].
    intros [= <-]. left. split; [reflexivity|].
    eexists. split; [reflexivity | apply title_nonempty, Hne].
  - unfold process_price. destruct (Py.float_of_str raw) as [q|] eqn:E;
      [|discriminate].
    intros [= <-]. right; left. split; [reflexivity|].
    exists q. split; [reflexivity|].
    destruct (float_of_str_sign raw q E) as [Hq | Hin]; [exact Hq|].
    exfalso. apply Hminus; [left; reflexivity | exact Hin].
  - unfold process_id. destruct (Py.int_of_str raw) as [z|] eqn:E;
      [|discriminate].
    intros [= <-]. right; right; left. split; [reflexivity|].
    exists z. split; [reflexivity|].
    destruct (int_of_str_sign raw z E) as [Hz | Hin]; [exact Hz|].
    exfalso. apply Hminus; [right; reflexivity | exact Hin].
  - unfold process_description.
    destruct (re_sub "\s+" " " raw) as [s|e]; rewrite ?bind_Ok; [|discriminate].
    destruct (String.eqb_spec (Py.strip s) "") as [|Hne]; [discriminate|].
    intros [= <-]. right; right; right. split; [reflexivity|].
    eexists. split; [reflexivity | exact Hne].
Qed.

Lemma extract_slot_rules_typed slot_name text_lower patterns s :
  forallb (fun pc => capture_ok (slot_chars slot_name) (fst pc)) patterns
  = true ->
  extract_slot_rules slot_name text_lower patterns = Ok (Some s) ->
  name s = slot_name /\ typed_value slot_name (value s) /\
  In (confidence s) (map snd patterns).
Proof.
  induction patterns as [|[p c] ps IH];
    cbn [extract_slot_rules map snd forallb fst]; [discriminate|].
  intros Hall. apply andb_prop in Hall as [Hp Hps].
  assert (IH' : extract_slot_rules slot_name text_lower ps = Ok (Some s) ->
            name s = slot_name /\ typed_value slot_name (value s) /\
            In (confidence s) (c :: map snd ps)).
  { intros H. destruct (IH Hps H) as (? & ? & ?). repeat split; auto.
    right. assumption. }
  destruct (re_search_capture (slot_chars slot_name) p text_lower Hp)
    as [E | (mt & g & [a b] & E & Eg & Es & Hg)]; rewrite E, ?bind_Ok.
  - exact IH'.
  - rewrite Eg, Es.
    destruct (dict_get slot_name VALUE_PROCESSORS) as [proc|] eqn:Ed;
      [|exact IH'].
    destruct (proc (Py.strip g)) as [[v|]|e] eqn:Ep; rewrite ?bind_Ok;
      [| exact IH' | discriminate].
    intros [= <-]. cbn [name value confidence].
    split; [reflexivity|]. split; [|left; reflexivity].
    apply (processors_typed slot_name proc (Py.strip g) v Ed
             (strip_chars _ g Hg) Ep).
Qed.

(** X5.  A slot the extractor returns carries the requested name, a
    confidence of that slot's rule table, and a value of the promised
    type: a non-empty string for a name or a description, a
    non-negative float for a price, a non-negative integer for an id.
    The numbers are non-negative because of what the patterns capture:
    group 1 of a price or id pattern holds digits and points only, so
    no sign reaches [float] or [int], which accept one.  For any other
    slot name the extractor returns no slot. *)
Theorem X5_slots_are_typed (slot_name text text_lower : string) :
  (forall s, extract_slot slot_name text text_lower = Ok (Some s) ->
     name s = slot_name /\ typed_value slot_name (value s) /\
     exists patterns, dict_get slot_name SLOT_PATTERNS = Some patterns /\
                      In (confidence s) (map snd patterns)) /\
  (~ In slot_name ["name"; "price"; "id"; "description"] ->
   extract_slot slot_name text text_lower = Ok None).
Proof.
  unfold extract_slot. split.
  - intros s. destruct (dict_get slot_name SLOT_PATTERNS) as [ps|] eqn:Ed;
      [|discriminate].
    assert (Hps : forallb (fun pc => capture_ok (slot_chars slot_name) (fst pc))
                          ps = true).
    { pose proof slot_table_reads as Ht. unfold table_reads in Ht.
      rewrite forallb_forall in Ht.
      apply (Ht (slot_name, ps)), (dict_get_In _ _ _ Ed). }
    intros H. apply (extract_slot_rules_typed _ _ _ _ Hps) in H as (? & ? & ?).
    repeat split; auto. exists ps. auto.
  - intros Hnot.
    destruct (dict_get slot_name SLOT_PATTERNS) as [ps|] eqn:E;
      [|reflexivity].
    exfalso. apply Hnot. apply dict_get_In in E.
    destruct E as [E|[E|[E|[E|[]]]]]; injection E as <- _; simpl; auto 6.
Qed.

Lemma fold_slots_other (sl : list Slot) key (args : gmap string pyvalue) :
  ~ In key (map name sl) ->
  fold_left (fun a x => <[name x := value x]> a) sl args !! key = args !! key.
Proof.
  revert args. induction sl as [|x sl IH]; intros args H; cbn [fold_left];
    [reflexivity|].
  cbn [map] in H. rewrite IH by (intros Hin; apply H; right; exact Hin).
  apply lookup_insert_ne. intros E. apply H. left. exact E.
Qed.

Lemma fold_slots_lookup (sl : list Slot) s (args : gmap string pyvalue) :
  List.NoDup (map name sl) -> In s sl ->
  fold_left (fun a x => <[name x := value x]> a) sl args !! name s
  = Some (value s).
Proof.
  revert args. induction sl as [|x sl IH]; intros args Hnd Hin;
    [destruct Hin|].
  cbn [map] in Hnd. inversion Hnd as [|? ? Hx Hnd']; subst.
  cbn [fold_left]. destruct Hin as [->|Hin].
  - rewrite fold_slots_other by exact Hx. apply lookup_insert_eq.
  - apply IH; assumption.
Qed.

Lemma append_opt_names sl o n :
  (forall s, o = Some s -> name s = n /\ slot_ok s) ->
  map name (append_opt sl o)
  = map name sl ++ match o with Some _ => [n] | None => [] end.
Proof.
  intros H. destruct o as [s|]; cbn [append_opt].
  - rewrite map_app. cbn [map]. destruct (H s eq_refl) as [-> _]. reflexivity.
  - rewrite app_nil_r. reflexivity.
Qed.

Ltac names_of_slots :=
  repeat (erewrite append_opt_names by eassumption); cbn [map app].

Lemma extract_slots_names text tl i sl :
  _extract_slots text tl i = Ok sl ->
  sublist (map name sl) (allowed_slots i) /\
  (String.eqb i "product.create" = false ->
   _post_process_slots sl i text = Ok sl).
Proof.
  unfold _extract_slots, allowed_slots, _post_process_slots.
  destruct (extract_slot_total "name" text tl) as (o1 & E1 & H1).
  destruct (extract_slot_total "price" text tl) as (o2 & E2 & H2).
  destruct (extract_slot_total "description" text tl) as (o3 & E3 & H3).
  destruct (extract_slot_total "id" text tl) as (o4 & E4 & H4).
  destruct (String.eqb i "product.create").
  { unfold extract_create_slots. rewrite E1, E2, E3, !bind_Ok.
    intros [= <-]. split; [|discriminate]. names_of_slots.
    destruct o1, o2, o3; repeat constructor. }
  destruct (String.eqb i "product.update").
  { unfold extract_update_slots. rewrite E1, E2, E3, E4, !bind_Ok.
    intros [= <-]. split; [|reflexivity]. names_of_slots.
    destruct o1, o2, o3, o4; repeat constructor. }
  destruct (String.eqb i "product.delete").
  { unfold extract_delete_slots. rewrite E4, !bind_Ok.
    intros [= <-]. split; [|reflexivity]. names_of_slots.
    destruct o4; repeat constructor. }
  destruct (String.eqb i "product.get").
  { unfold extract_get_slots. rewrite E4, !bind_Ok.
    intros [= <-]. split; [|reflexivity]. names_of_slots.
    destruct o4; repeat constructor. }
  intros [= <-]. split; [constructor | reflexivity].
Qed.

End SlotFacts.

Section SlotsOfClassify.
Import Joint.

(** Computes the names of a list of slots built by [append_opt] and
    closes the subsequence goal. *)
Ltac slot_names H1 H2 H3 H4 :=
  cbn [append_opt app map];
  try rewrite (proj1 (H1 _ eq_refl)); try rewrite (proj1 (H2 _ eq_refl));
  try rewrite (proj1 (H3 _ eq_refl)); try rewrite (proj1 (H4 _ eq_refl));
  repeat constructor.

Lemma fallback_name text sl d :
  extract_description_fallback text sl = Ok (Some d) ->
  name d = "description".
Proof.
  unfold extract_description_fallback.
  destruct (remove_slots (Py.lower text) sl) as [t1|e]; rewrite ?bind_Ok;
    [|discriminate].
  destruct (re_sub "^\s*[,]\s*" "" t1) as [t2|e]; rewrite ?bind_Ok;
    [|discriminate].
  destruct (re_sub "\s+" " " t2) as [t3|e]; rewrite ?bind_Ok; [|discriminate].
  destruct (2 <? String.length (Py.strip t3))%nat; [|discriminate].
  intros [= <-]. reflexivity.
Qed.

Lemma existsb_description_last sl s :
  name s = "description" ->
  existsb (fun slot => String.eqb (name slot) "description")
          (append_opt sl (Some s)) = true.
Proof.
  intros H. cbn [append_opt]. rewrite existsb_app. cbn [existsb]. rewrite H, String.eqb_refl.
  rewrite orb_true_r. reflexivity.
Qed.

Lemma existsb_description_none o1 o2 :
  (forall s, o1 = Some s -> name s = "name" /\ slot_ok s) ->
  (forall s, o2 = Some s -> name s = "price" /\ slot_ok s) ->
  existsb (fun slot => String.eqb (name slot) "description")
          (append_opt (append_opt (append_opt [] o1) o2) None) = false.
Proof.
  intros H1 H2.
  destruct o1 as [s1|], o2 as [s2|]; cbn [append_opt app existsb];
    rewrite ?(proj1 (H1 _ eq_refl)), ?(proj1 (H2 _ eq_refl)); reflexivity.
Qed.

(** The names of the slots [classify] ends with follow the list of the
    intent. *)
Lemma slots_names text tl i sl sl' :
  _extract_slots text tl i = Ok sl ->
  _post_process_slots sl i text = Ok sl' ->
  sublist (map name sl') (allowed_slots i).
Proof.
  unfold _extract_slots, allowed_slots, _post_process_slots.
  destruct (extract_slot_total "name" text tl) as (o1 & E1 & H1).
  destruct (extract_slot_total "price" text tl) as (o2 & E2 & H2).
  destruct (extract_slot_total "description" text tl) as (o3 & E3 & H3).
  destruct (extract_slot_total "id" text tl) as (o4 & E4 & H4).
  destruct (String.eqb i "product.create").
  { unfold extract_create_slots. rewrite E1, E2, E3, !bind_Ok.
    intros [= <-]. destruct o3 as [s3|].
    - rewrite (existsb_description_last _ s3 (proj1 (H3 s3 eq_refl))).
      intros [= <-]. destruct o1, o2; slot_names H1 H2 H3 H4.
    - rewrite (existsb_description_none o1 o2 H1 H2).
      destruct (extract_description_fallback text _) as [[d|]|e] eqn:Ef;
        rewrite ?bind_Ok; [| |discriminate]; intros [= <-].
      + apply fallback_name in Ef.
        destruct o1, o2; cbn [append_opt app map]; rewrite Ef;
          slot_names H1 H2 H3 H4.
      + destruct o1, o2; slot_names H1 H2 H3 H4. }
  destruct (String.eqb i "product.update").
  { unfold extract_update_slots. rewrite E1, E2, E3, E4, !bind_Ok.
    intros [= <-] [= <-]. destruct o1, o2, o3, o4; slot_names H1 H2 H3 H4. }
  destruct (String.eqb i "product.delete").
  { unfold extract_delete_slots. rewrite E4, !bind_Ok.
    intros [= <-] [= <-]. destruct o4; slot_names H1 H2 H3 H4. }
  destruct (String.eqb i "product.get").
  { unfold extract_get_slots. rewrite E4, !bind_Ok.
    intros [= <-] [= <-]. destruct o4; slot_names H1 H2 H3 H4. }
  intros [= <-] [= <-]. constructor.
Qed.

Lemma allowed_slots_NoDup i : List.NoDup (allowed_slots i).
Proof.
  unfold allowed_slots.
  repeat match goal with |- context [if ?b then _ else _] => destruct b end;
    repeat constructor; simpl; intuition discriminate.
Qed.

(** X6.  The slots of a classification are named after the intent: a
    subsequence of name, price, description for [product.create], of
    id, name, price, description for [product.update], of id for
    [product.delete] and [product.get], and none for [product.list].
    No two slots share a name, so the argument dictionary holds the
    value of every slot under its name. *)
Theorem X6_slots_follow_intent (text : string) (r : IntentSlotResult) :
  classify text = Ok r ->
  sublist (map name (slots r)) (allowed_slots (intent r)) /\
  List.NoDup (map name (slots r)) /\
  (forall s, In s (slots r) ->
     d_tool_args (to_dict r) !! name s = Some (value s)).
Proof.
  unfold classify. rewrite classify_intent_pick, bind_Ok.
  destruct (pick _ _ _ _) as [i c].
  destruct (_extract_slots text (Py.lower text) i) as [sl|e] eqn:Es;
    rewrite ?bind_Ok; [|discriminate].
  destruct (_post_process_slots sl i text) as [sl'|e] eqn:Ep;
    rewrite ?bind_Ok; [|discriminate].
  intros [= <-]. cbn [slots intent].
  pose proof (slots_names text (Py.lower text) i sl sl' Es Ep) as Hsub.
  assert (Hnd : List.NoDup (map name sl')).
  { apply NoDup_ListNoDup. apply (sublist_NoDup _ (allowed_slots i)); [|exact Hsub].
    apply NoDup_ListNoDup, allowed_slots_NoDup. }
  split; [exact Hsub|]. split; [exact Hnd|].
  intros s Hin. unfold to_dict. cbn [d_tool_args slots intent raw_text].
  destruct (String.eqb_spec i "product.list") as [->|Hne].
  - exfalso. change (allowed_slots "product.list") with (@nil string) in Hsub.
    apply sublist_nil_r in Hsub. destruct sl'; [destruct Hin | discriminate].
  - cbn [andb]. apply fold_slots_lookup; assumption.
Qed.

Lemma X6_witness :
  sublist
    (map name
       (slots (mkIntentSlotResult "product.delete" (0.95 + 0.05)
                 [mkSlot "id" (VInt 42) 0.9 15 17] "delete product 42")))
    (allowed_slots
       (intent (mkIntentSlotResult "product.delete" (0.95 + 0.05)
                  [mkSlot "id" (VInt 42) 0.9 15 17] "delete product 42"))) /\
  List.NoDup
    (map name
       (slots (mkIntentSlotResult "product.delete" (0.95 + 0.05)
                 [mkSlot "id" (VInt 42) 0.9 15 17] "delete product 42"))) /\
  (forall s,
     In s (slots (mkIntentSlotResult "product.delete" (0.95 + 0.05)
                    [mkSlot "id" (VInt 42) 0.9 15 17] "delete product 42")) ->
     d_tool_args
       (to_dict (mkIntentSlotResult "product.delete" (0.95 + 0.05)
                   [mkSlot "id" (VInt 42) 0.9 15 17] "delete product 42"))
     !! name s = Some (value s)).
Proof.
  apply (X6_slots_follow_intent "delete product 42").
  vm_compute. reflexivity.
Defined.

End SlotsOfClassify.

(** *** Priority among the intent rules *)

Section RulePriority.

Lemma pick_saturated {A B} (score : A -> Q) (lab : A -> B) l b q :
  Forall (fun x => score x <= q) l -> pick score lab l (b, q) = (b, q).
Proof.
  induction 1 as [|x l Hx _ IH]; simpl; [reflexivity|].
  apply Qgtb_false in Hx. rewrite Hx. exact IH.
Qed.

Lemma pick_cons_gt {A B} (score : A -> Q) (lab : A -> B) x l best :
  Qgtb (score x) (snd best) = true ->
  pick score lab (x :: l) best = pick score lab l (lab x, score x).
Proof. intros H. simpl. rewrite H. reflexivity. Qed.

Lemma all_rules_create :
  all_rules = firstn 2 all_rules ++ skipn 2 all_rules.
Proof. symmetry. apply firstn_skipn. Qed.

Lemma later_rules_at_most_one text_lower :
  Forall (fun x => rule_score x <= 0.95 + 0.05)
         (List.filter (rule_matches text_lower) (skipn 2 all_rules)).
Proof.
  apply Forall_forall. intros x Hin.
  apply List.filter_In in Hin as [Hin _]. apply in_skipn_in in Hin.
  pose proof rule_scores_in_unit as Hb. rewrite forallb_forall in Hb.
  specialize (Hb x Hin). apply andb_prop in Hb as [_ Hb].
  apply Qle_bool_iff in Hb. eapply Qle_trans; [exact Hb|].
  apply Qle_bool_iff. reflexivity.
Qed.

(** The two rules of [product.create], visited first. *)
Lemma pick_create_rules (b0 b1 : bool) :
  b1 = true ->
  pick rule_score rule_intent
       ((if b0 then [("product.create",
                      "\b(?:add|create|new product|insert)\b", 0.9)]
         else [])
        ++ (if b1 then [("product.create",
                         "\b(?:add|create)\s+(?:a\s+)?(?:new\s+)?product\b",
                         0.95)]
            else []))
       ("product.list", 0.5)
  = ("product.create", 0.95 + 0.05).
Proof. intros ->. destruct b0; reflexivity. Qed.

Lemma filter_two {A} (f : A -> bool) x y :
  List.filter f [x; y] = (if f x then [x] else []) ++ (if f y then [y] else []).
Proof. simpl. destruct (f x), (f y); reflexivity. Qed.

(** X7.  A text in which the rule for adding or creating a product
    matches is classified as [product.create] with the greatest score,
    0.95 + 0.05, whatever other rules match it: no later rule scores
    strictly more, and the test that replaces the best intent is
    strict. *)
Theorem X7_create_rule_wins (text_lower : string) :
  rule_matches text_lower
    ("product.create",
     "\b(?:add|create)\s+(?:a\s+)?(?:new\s+)?product\b", 0.95) = true ->
  Joint._classify_intent text_lower = Ok ("product.create", 0.95 + 0.05).
Proof.
  intros Hm. rewrite classify_intent_pick. apply f_equal.
  unfold matching_rules. rewrite all_rules_create.
  rewrite List.filter_app, pick_app.
  change (firstn 2 all_rules)
    with [("product.create", "\b(?:add|create|new product|insert)\b", 0.9);
          ("product.create",
           "\b(?:add|create)\s+(?:a\s+)?(?:new\s+)?product\b", 0.95)].
  rewrite filter_two, (pick_create_rules _ _ Hm).
  apply pick_saturated, later_rules_at_most_one.
Qed.

Lemma X7_witness :
  Joint._classify_intent "add a new product and delete product 5"
  = Ok ("product.create", 0.95 + 0.05).
Proof.
  apply (X7_create_rule_wins "add a new product and delete product 5").
  vm_compute. reflexivity.
Defined.

End RulePriority.

(** *** The corpus classifier: similarity and state *)

Section SimilarityFacts.
Import Corpus Corpus.MLClassifier.

Lemma words_elem w s : w ∈ words s <-> In w (Py.split (Py.lower s)).
Proof. unfold words. rewrite elem_of_list_to_set. apply list_elem_of_In. Qed.

Lemma ratio_pos (n m : nat) :
  m <> 0%nat -> (0 < Z.of_nat n # Pos.of_nat m <-> (0 < n)%nat).
Proof. intros _. unfold Qlt. cbn [Qnum Qden]. lia. Qed.

Lemma ratio_le_one (n m : nat) :
  (n <= m)%nat -> m <> 0%nat -> Z.of_nat n # Pos.of_nat m <= 1.
Proof.
  intros Hle Hm. unfold Qle. cbn [Qnum Qden].
  rewrite <- (positive_nat_Z (Pos.of_nat m)), Nat2Pos.id by exact Hm. lia.
Qed.

Lemma ratio_one (n m : nat) :
  m <> 0%nat -> (Z.of_nat n # Pos.of_nat m == 1 <-> n = m).
Proof.
  intros Hm. unfold Qeq. cbn [Qnum Qden].
  rewrite <- (positive_nat_Z (Pos.of_nat m)), Nat2Pos.id by exact Hm. lia.
Qed.

(** The value of [_calculate_similarity] when the pattern has a word. *)
Lemma similarity_ratio message pattern :
  words pattern <> ∅ ->
  size (words message ∪ words pattern) <> 0%nat /\
  _calculate_similarity message pattern
  = Z.of_nat (size (words message ∩ words pattern))
    # Pos.of_nat (size (words message ∪ words pattern)).
Proof.
  intros Hne.
  assert (Hu : words message ∪ words pattern <> ∅) by set_solver.
  split.
  - intros Hs. apply size_empty_iff in Hs. apply Hu. apply leibniz_equiv, Hs.
  - unfold _calculate_similarity.
    destruct (decide (words pattern = ∅)) as [E|_]; [contradiction|].
    destruct (decide (words message ∪ words pattern = ∅)) as [E|_];
      [contradiction | reflexivity].
Qed.

Lemma similarity_empty message pattern :
  words pattern = ∅ -> _calculate_similarity message pattern = 0.
Proof.
  intros E. unfold _calculate_similarity.
  destruct (decide (words pattern = ∅)); [reflexivity | contradiction].
Qed.

(** X8.  The similarity of a message and a pattern text lies in [0,1];
    it is positive exactly when the two share a word, and 1 exactly
    when they have the same words and at least one.  Words are compared
    lower-cased, and neither their order nor their repetition counts. *)
Theorem X8_similarity_bounds (message pattern : string) :
  in_unit (_calculate_similarity message pattern) /\
  (0 < _calculate_similarity message pattern <->
   exists w, In w (Py.split (Py.lower message)) /\
             In w (Py.split (Py.lower pattern))) /\
  (_calculate_similarity message pattern == 1 <->
   words message = words pattern /\ Py.split (Py.lower pattern) <> []).
Proof.
  destruct (decide (words pattern = ∅)) as [E|Hne].
  - rewrite (similarity_empty _ _ E).
    split; [split; discriminate|]. split.
    + split; [intros H; discriminate H|].
      intros (w & _ & Hw). apply words_elem in Hw. rewrite E in Hw.
      set_solver.
    + split; [intros H; discriminate H|].
      intros [_ Hl]. exfalso. apply Hl.
      unfold words in E. destruct (Py.split (Py.lower pattern)) as [|x l];
        [reflexivity|]. set_solver.
  - destruct (similarity_ratio message pattern Hne) as [Hu ->].
    assert (Hsub : words message ∩ words pattern
                   ⊆ words message ∪ words pattern) by set_solver.
    split; [|split].
    + split; [unfold Qle; cbn [Qnum Qden]; lia|].
      apply ratio_le_one; [apply subseteq_size, Hsub | exact Hu].
    + rewrite (ratio_pos _ _ Hu). split.
      * intros Hpos. apply size_pos_elem_of in Hpos as [w Hw].
        exists w. rewrite <- !words_elem. set_solver.
      * intros (w & H1 & H2). rewrite <- words_elem in H1, H2.
        assert (Hin : w ∈ words message ∩ words pattern) by set_solver.
        destruct (size (words message ∩ words pattern)) eqn:Es; [|lia].
        apply size_empty_iff in Es. set_solver.
    + rewrite (ratio_one _ _ Hu). split.
      * intros Hs. split.
        -- assert (Heq : words message ∩ words pattern
                         = words message ∪ words pattern).
           { apply set_subseteq_size_eq; [exact Hsub | lia]. }
           apply leibniz_equiv. set_solver.
        -- intros Hl. apply Hne. unfold words. rewrite Hl. reflexivity.
      * intros [Heq _]. rewrite Heq. f_equal; apply leibniz_equiv; set_solver.
Qed.

End SimilarityFacts.

Section ClassifierState.
Import Corpus Corpus.MLClassifier.
Variable fit : list string -> list string -> Res Pipeline.
Variable literal_eval : string -> option (gmap string pyvalue).

Lemma classify_keeps_trained_state self self0 message r self' :
  (if is_trained self then mret self else train fit self) = Ok self0 ->
  classify fit literal_eval self message = Ok (r, self') -> self' = self0.
Proof.
  intros H0. unfold classify. rewrite H0, bind_Ok.
  destruct (pipeline self0) as [p|]; [|intros [= _ <-]; reflexivity].
  destruct (py_max (predict_proba p message)) as [c|e]; [|discriminate].
  rewrite bind_Ok.
  destruct (fst (best_match message (predict p message) (patterns self0) (None, 0)));
    intros [= _ <-]; reflexivity.
Qed.

Lemma classify_state self message r self' :
  classify fit literal_eval self message = Ok (r, self') ->
  (self' = self /\ (is_trained self = true \/ patterns self = []))
  \/ (is_trained self = false /\ patterns self <> [] /\
      exists p, fit (map query_pattern (patterns self))
                    (map qp_tool_name (patterns self)) = Ok p /\
                self' = mk (patterns self) (Some p) true).
Proof.
  intros Hc.
  destruct (is_trained self) eqn:Ht.
  - left. split; [|left; reflexivity].
    apply (classify_keeps_trained_state self self message r self'); [|exact Hc].
    rewrite Ht. reflexivity.
  - destruct (patterns self) as [|q qs] eqn:Ep.
    + left. split; [|right; reflexivity].
      apply (classify_keeps_trained_state self self message r self'); [|exact Hc].
      rewrite Ht. unfold train. rewrite Ep. reflexivity.
    + right. split; [reflexivity|]. split; [discriminate|].
      destruct (fit (map query_pattern (q :: qs)) (map qp_tool_name (q :: qs)))
        as [p|e] eqn:Ef.
      * exists p. split; [reflexivity|].
        apply (classify_keeps_trained_state self _ message r self'); [|exact Hc].
        rewrite Ht. unfold train. rewrite Ep, Ef. reflexivity.
      * exfalso. revert Hc. unfold classify. rewrite Ht. unfold train.
        rewrite Ep, Ef. discriminate.
Qed.

(** X9.  A classification that returns never changes the patterns of
    the classifier, leaves a trained classifier as it is, and fits the
    pipeline at most once: after the first call that returns, every
    later call that returns leaves the classifier unchanged. *)
Theorem X9_trains_at_most_once (self self' : t) (message : string)
    (r : ClassificationResult) :
  classify fit literal_eval self message = Ok (r, self') ->
  patterns self' = patterns self /\
  (is_trained self = true -> self' = self) /\
  (forall message' r' self'',
     classify fit literal_eval self' message' = Ok (r', self'') ->
     self'' = self').
Proof.
  intros Hc.
  destruct (classify_state _ _ _ _ Hc)
    as [[-> Hs] | (Ht & Hne & p & _ & ->)].
  - split; [reflexivity|]. split; [reflexivity|].
    intros message' r' self'' Hc'.
    destruct (classify_state _ _ _ _ Hc')
      as [[-> _] | (Ht' & Hne' & _)]; [reflexivity|].
    destruct Hs as [Hs|Hs]; congruence.
  - split; [reflexivity|]. split; [congruence|].
    intros message' r' self'' Hc'.
    destruct (classify_state _ _ _ _ Hc')
      as [[-> _] | (Ht' & _)]; [reflexivity | discriminate Ht'].
Qed.

End ClassifierState.

Section ClassifierStateInstance.
Import Corpus Corpus.MLClassifier.

(** X9, instance: a one-pattern corpus, fitted on the first call. *)
Lemma X9_witness :
  patterns (mk [list_pattern] (Some (const_pipeline "product.list" 1)) true)
  = patterns (init [list_pattern]) /\
  (is_trained (init [list_pattern]) = true ->
   mk [list_pattern] (Some (const_pipeline "product.list" 1)) true
   = init [list_pattern]) /\
  (forall message' r' self'',
     classify first_label_fit empty_dict_eval
       (mk [list_pattern] (Some (const_pipeline "product.list" 1)) true)
       message' = Ok (r', self'') ->
     self'' = mk [list_pattern] (Some (const_pipeline "product.list" 1)) true).
Proof.
  apply (X9_trains_at_most_once first_label_fit empty_dict_eval
           (init [list_pattern]) _ "list products"
           (result_of empty_dict_eval 1 list_pattern)).
  vm_compute. reflexivity.
Defined.

End ClassifierStateInstance.

(** *** The arguments of the corpus path *)

Section CorpusArguments.
Import Corpus Corpus.ArgumentExtractor.

Lemma set_if_lookup {A} truthy (inj : A -> pyvalue) key o args k v :
  set_if truthy inj key o args !! k = Some v ->
  (k = key /\ exists x, o = Some x /\ truthy (Some x) = true /\ v = inj x)
  \/ args !! k = Some v.
Proof.
  unfold set_if. destruct o as [x|]; [|right; assumption].
  destruct (truthy (Some x)) eqn:Et; [|right; assumption].
  destruct (decide (k = key)) as [->|Hne].
  - rewrite lookup_insert_eq. intros [= <-]. left. split; [reflexivity|].
    exists x. auto.
  - rewrite lookup_insert_ne by congruence. right. assumption.
Qed.

Lemma truthy_str_nonempty s : truthy_str (Some s) = true -> s <> "".
Proof.
  cbn [truthy_str]. intros H ->. discriminate H.
Qed.

Lemma truthy_float_nonzero q : truthy_float (Some q) = true -> ~ q == 0.
Proof.
  cbn [truthy_float]. intros H Hq. apply Qeq_bool_iff in Hq.
  rewrite Hq in H. discriminate H.
Qed.

Lemma truthy_int_nonzero z : truthy_int (Some z) = true -> z <> 0%Z.
Proof.
  cbn [truthy_int]. intros H ->. discriminate H.
Qed.

(** One step of reading an argument back: it was set by the last
    conditional assignment, or before it. *)
Ltac arg_step H :=
  apply set_if_lookup in H as [(-> & x & _ & Ht & ->) | H];
  [ first [ apply truthy_str_nonempty in Ht
          | apply truthy_float_nonzero in Ht
          | apply truthy_int_nonzero in Ht ];
    split; [simpl; auto 6 | cbn [truthy_for]; auto 6]
  | ].

Lemma create_args_ok message ml args k v :
  _extract_create_args message ml = Ok args -> args !! k = Some v ->
  In k ["name"; "price"; "description"] /\ truthy_for k v.
Proof.
  unfold _extract_create_args.
  destruct (_extract_name message ml) as [n|]; [|discriminate].
  rewrite bind_Ok.
  destruct (_extract_price message ml) as [p|]; [|discriminate].
  rewrite bind_Ok.
  destruct (_extract_description message ml) as [d|]; [|discriminate].
  rewrite bind_Ok. intros [= <-] H.
  arg_step H. arg_step H. arg_step H.
  rewrite lookup_empty in H. discriminate H.
Qed.

Lemma update_args_ok message ml args k v :
  _extract_update_args message ml = Ok args -> args !! k = Some v ->
  In k ["id"; "name"; "price"; "description"] /\ truthy_for k v.
Proof.
  unfold _extract_update_args.
  destruct (_extract_id message ml) as [i|]; [|discriminate].
  rewrite bind_Ok.
  destruct (_extract_name message ml) as [n|]; [|discriminate].
  rewrite bind_Ok.
  destruct (_extract_price message ml) as [p|]; [|discriminate].
  rewrite bind_Ok.
  destruct (_extract_description message ml) as [d|]; [|discriminate].
  rewrite bind_Ok. intros [= <-] H.
  arg_step H. arg_step H. arg_step H. arg_step H.
  rewrite lookup_empty in H. discriminate H.
Qed.

Lemma id_args_ok (o : option Z) k v :
  set_if truthy_int VInt "id" o (∅ : gmap string pyvalue) !! k = Some v ->
  In k ["id"] /\ truthy_for k v.
Proof.
  intros H. arg_step H. rewrite lookup_empty in H. discriminate H.
Qed.

Lemma delete_args_ok message ml args k v :
  _extract_delete_args message ml = Ok args -> args !! k = Some v ->
  In k ["id"] /\ truthy_for k v.
Proof.
  unfold _extract_delete_args.
  destruct (_extract_id message ml) as [i|]; [|discriminate].
  rewrite bind_Ok. intros [= <-]. apply id_args_ok.
Qed.

Lemma get_args_ok message ml args k v :
  _extract_get_args message ml = Ok args -> args !! k = Some v ->
  In k ["id"] /\ truthy_for k v.
Proof.
  unfold _extract_get_args.
  destruct (_extract_id message ml) as [i|]; [|discriminate].
  rewrite bind_Ok. intros [= <-]. apply id_args_ok.
Qed.

Lemma list_args_ok message ml args k v :
  _extract_list_args message ml = Ok args -> args !! k = Some v ->
  In k ["name_prefix"] /\ truthy_for k v.
Proof.
  unfold _extract_list_args.
  destruct (_extract_name_prefix message ml) as [i|]; [|discriminate].
  rewrite bind_Ok. intros [= <-] H.
  arg_step H. rewrite lookup_empty in H. discriminate H.
Qed.

(** X10.  For each of the five tools the corpus path sets only the
    arguments of that tool (name, price and description to create;
    these and id to update; id to delete and to get; name_prefix to
    list), each with a value of its type that is true in a condition:
    an id is a nonzero integer, a price a nonzero float, a name, a
    description and a prefix a nonempty string.  No argument of the
    pattern's template is among them unless it is extracted again. *)
Theorem X10_corpus_arguments (message tool_name : string)
    (static_args args : gmap string pyvalue) (k : string) (v : pyvalue) :
  In tool_name tool_ids ->
  extract_arguments message tool_name static_args = Ok args ->
  args !! k = Some v ->
  In k (argument_keys tool_name) /\ truthy_for k v.
Proof.
  intros Hin.
  destruct Hin as [<-|[<-|[<-|[<-|[<-|[]]]]]].
  - apply create_args_ok.
  - apply update_args_ok.
  - apply delete_args_ok.
  - apply get_args_ok.
  - apply list_args_ok.
Qed.

Lemma X10_witness :
  In "id" (argument_keys "product.delete") /\ truthy_for "id" (VInt 42).
Proof.
  apply (X10_corpus_arguments "delete product 42" "product.delete" ∅
           (<["id" := VInt 42]> ∅)).
  - simpl. auto.
  - vm_compute. reflexivity.
  - vm_compute. reflexivity.
Defined.

End CorpusArguments.

(** *** The public entry of the corpus path *)

Section CsvEntry.
Import Corpus Corpus.CSVBasedClassifier.
Variable fit : list string -> list string -> Res Pipeline.
Variable literal_eval : string -> option (gmap string pyvalue).
Variable load_model_data : model_data.

Lemma csv_classify_loaded self ml message ml_r ml' r :
  is_loaded self = true -> ml_classifier self = Some ml ->
  MLClassifier.classify fit literal_eval ml message = Ok (ml_r, ml') ->
  _enhance_with_dynamic_extraction message ml_r = Ok r ->
  classify fit literal_eval load_model_data self message
  = Ok (r, mk (patterns self) (Some ml') true).
Proof.
  intros Hl Hm Hc He. unfold classify. rewrite Hl, bind_Ok, Hm, Hc, bind_Ok.
  rewrite He, bind_Ok, Hl. reflexivity.
Qed.

(** X11.  On a loaded classifier whose corpus classifier can answer and
    whose patterns carry confidences in [0,1] and tools among the five,
    the public entry returns for every message: the result has the
    tool, the confidence and the method of the corpus classifier's
    result, so a tool among the five, a confidence in [0,1] and the
    method [ml_classifier] or [default]; only the arguments are
    extracted anew.  The classifier stays loaded with the same
    patterns. *)
Theorem X11_csv_entry_answers (self : t) (ml : MLClassifier.t)
    (message : string) :
  is_loaded self = true ->
  ml_classifier self = Some ml ->
  usable fit ml ->
  confidences_ok (MLClassifier.patterns ml) ->
  tools_ok (MLClassifier.patterns ml) ->
  exists ml_r ml' r self',
    MLClassifier.classify fit literal_eval ml message = Ok (ml_r, ml') /\
    classify fit literal_eval load_model_data self message = Ok (r, self') /\
    tool_name r = tool_name ml_r /\
    confidence r = confidence ml_r /\
    method r = method ml_r /\
    In (tool_name r) tool_ids /\
    in_unit (confidence r) /\
    (method r = "ml_classifier" \/ method r = "default") /\
    is_loaded self' = true /\
    patterns self' = patterns self /\
    ml_classifier self' = Some ml'.
Proof.
  intros Hl Hm Hu Hc Ht.
  destruct (classify_usable_range fit literal_eval ml message Hu Hc Ht)
    as (ml_r & ml' & Hr & Hin & Hconf & Hmeth).
  destruct (enhance_total message ml_r) as [r He].
  exists ml_r, ml', r, (mk (patterns self) (Some ml') true).
  split; [exact Hr|].
  split; [apply (csv_classify_loaded self ml message ml_r ml' r); assumption|].
  destruct (enhance_args message ml_r r He) as (args & _ & ->).
  cbn [with_args tool_name confidence method is_loaded patterns ml_classifier].
  repeat (split; [first [reflexivity | assumption]|]).
  split; [|repeat split].
  destruct Hmeth as [-> | Hmeth]; [right; reflexivity | left; exact Hmeth].
Qed.

(** X12.  The first call on a classifier that is not loaded loads the
    persisted model before it classifies.  With no persisted data it
    raises, for every message.  With data, the classifier it continues
    with is loaded, holds the persisted patterns (none when the data
    has no such entry) and a corpus classifier over them that is
    trained exactly when the data holds a pipeline; the call then
    answers as a call on that classifier does. *)
Theorem X12_first_call_loads (self : t) (message : string) :
  is_loaded self = false ->
  (md_pipeline load_model_data = None ->
   md_patterns load_model_data = None ->
   exists e,
     classify fit literal_eval load_model_data self message = Raise e) /\
  (forall self1,
     load_model load_model_data self = Ok self1 ->
     is_loaded self1 = true /\
     patterns self1 = default [] (md_patterns load_model_data) /\
     (exists ml,
        ml_classifier self1 = Some ml /\
        MLClassifier.patterns ml = patterns self1 /\
        MLClassifier.pipeline ml = md_pipeline load_model_data /\
        MLClassifier.is_trained ml
        = bool_decide (is_Some (md_pipeline load_model_data))) /\
     classify fit literal_eval load_model_data self message
     = classify fit literal_eval load_model_data self1 message).
Proof.
  intros Hl. split.
  - intros Hp Hs. exists OSError. unfold classify, load_model.
    rewrite Hl, Hp, Hs. reflexivity.
  - intros self1 Hload.
    assert (H1 : is_loaded self1 = true /\
                 patterns self1 = default [] (md_patterns load_model_data) /\
                 (exists ml,
                    ml_classifier self1 = Some ml /\
                    MLClassifier.patterns ml = patterns self1 /\
                    MLClassifier.pipeline ml = md_pipeline load_model_data /\
                    MLClassifier.is_trained ml
                    = bool_decide (is_Some (md_pipeline load_model_data)))).
    { revert Hload. unfold load_model.
      destruct (md_pipeline load_model_data) as [p|],
               (md_patterns load_model_data) as [ps|];
        try discriminate; intros [= <-]; cbn;
        (split; [reflexivity|]; split; [reflexivity|]);
        eexists; repeat split. }
    destruct H1 as (Hl1 & Hp1 & Hml). repeat (split; [assumption|]).
    unfold classify. rewrite Hl, Hl1, Hload. reflexivity.
Qed.

End CsvEntry.

Section CsvEntryInstances.
Import Corpus Corpus.CSVBasedClassifier.

Lemma X11_witness :
  exists ml_r ml' r self',
    MLClassifier.classify first_label_fit empty_dict_eval list_classifier
      "list products" = Ok (ml_r, ml') /\
    classify first_label_fit empty_dict_eval (mkModelData None None)
      (mk [list_pattern; list_all_pattern] (Some list_classifier) true)
      "list products" = Ok (r, self') /\
    tool_name r = tool_name ml_r /\
    confidence r = confidence ml_r /\
    method r = method ml_r /\
    In (tool_name r) tool_ids /\
    in_unit (confidence r) /\
    (method r = "ml_classifier" \/ method r = "default") /\
    is_loaded self' = true /\
    patterns self'
    = patterns (mk [list_pattern; list_all_pattern] (Some list_classifier) true) /\
    ml_classifier self' = Some ml'.
Proof.
  apply (X11_csv_entry_answers first_label_fit empty_dict_eval
           (mkModelData None None)
           (mk [list_pattern; list_all_pattern] (Some list_classifier) true)
           list_classifier "list products").
  - reflexivity.
  - reflexivity.
  - apply (usable_trained _ _ (const_pipeline "product.list" 1)).
    + split; reflexivity.
    + intros message. split; [discriminate|].
      repeat constructor; discriminate.
  - repeat constructor; discriminate.
  - repeat constructor; simpl; tauto.
Defined.

Lemma X12_witness :
  (md_pipeline (mkModelData None (Some [list_pattern])) = None ->
   md_patterns (mkModelData None (Some [list_pattern])) = None ->
   exists e,
     classify first_label_fit empty_dict_eval
       (mkModelData None (Some [list_pattern])) init "list products"
     = Raise e) /\
  (forall self1,
     load_model (mkModelData None (Some [list_pattern])) init = Ok self1 ->
     is_loaded self1 = true /\
     patterns self1
     = default [] (md_patterns (mkModelData None (Some [list_pattern]))) /\
     (exists ml,
        ml_classifier self1 = Some ml /\
        MLClassifier.patterns ml = patterns self1 /\
        MLClassifier.pipeline ml
        = md_pipeline (mkModelData None (Some [list_pattern])) /\
        MLClassifier.is_trained ml
        = bool_decide
            (is_Some (md_pipeline (mkModelData None (Some [list_pattern]))))) /\
     classify first_label_fit empty_dict_eval
       (mkModelData None (Some [list_pattern])) init "list products"
     = classify first_label_fit empty_dict_eval
         (mkModelData None (Some [list_pattern])) self1 "list products").
Proof.
  apply (X12_first_call_loads first_label_fit empty_dict_eval
           (mkModelData None (Some [list_pattern])) init "list products").
  reflexivity.
Defined.

End CsvEntryInstances.

(** *** What the loader returns *)

Section LoadedPatterns.
Import Corpus Corpus.CSVPatternLoader.

Lemma lstrip_head c l : Py.is_space c = false -> Py.lstrip (c :: l) = c :: l.
Proof. intros H. cbn [Py.lstrip]. rewrite H. reflexivity. Qed.

Lemma lstrip_idem l : Py.lstrip (Py.lstrip l) = Py.lstrip l.
Proof.
  induction l as [|c l IH]; [reflexivity|]. cbn [Py.lstrip].
  destruct (Py.is_space c) eqn:E; [exact IH | apply lstrip_head, E].
Qed.

Lemma lstrip_snoc l c :
  Py.is_space c = false -> Py.lstrip (l ++ [c]) = Py.lstrip l ++ [c].
Proof.
  intros H. induction l as [|x l IH]; cbn [app Py.lstrip].
  - rewrite H. reflexivity.
  - destruct (Py.is_space x); [exact IH | reflexivity].
Qed.

Lemma rstrip_head c l :
  Py.is_space c = false -> Py.rstrip (c :: l) = c :: Py.rstrip l.
Proof.
  intros H. unfold Py.rstrip. cbn [rev]. rewrite (lstrip_snoc _ _ H).
  rewrite rev_app_distr. reflexivity.
Qed.

Lemma rstrip_idem l : Py.rstrip (Py.rstrip l) = Py.rstrip l.
Proof. unfold Py.rstrip. rewrite rev_involutive, lstrip_idem. reflexivity. Qed.

Lemma lstrip_rstrip_lstrip l :
  Py.lstrip (Py.rstrip (Py.lstrip l)) = Py.rstrip (Py.lstrip l).
Proof.
  induction l as [|c l IH]; [reflexivity|]. cbn [Py.lstrip].
  destruct (Py.is_space c) eqn:E; [exact IH|].
  rewrite (rstrip_head _ _ E). apply lstrip_head, E.
Qed.

(** [s.strip().strip() == s.strip()] *)
Lemma strip_idem s : Py.strip (Py.strip s) = Py.strip s.
Proof.
  unfold Py.strip. rewrite of_to_str, lstrip_rstrip_lstrip, rstrip_idem.
  reflexivity.
Qed.

Lemma field_stripped r key s : field r key = Ok s -> Py.strip s = s.
Proof.
  unfold field. destruct (r !! key) as [[x|]|]; try discriminate.
  intros [= <-]. apply strip_idem.
Qed.

(** Every text field of a parsed row is its column, stripped. *)
Lemma pattern_of_row_fields r p :
  pattern_of_row r = Ok p ->
  field r "query_pattern" = Ok (query_pattern p) /\
  field r "tool_name" = Ok (qp_tool_name p) /\
  field r "tool_args" = Ok (qp_tool_args p) /\
  float_field r "confidence" = Ok (qp_confidence p) /\
  field r "query_type" = Ok (qp_query_type p) /\
  field r "entity" = Ok (qp_entity p) /\
  field r "intent" = Ok (qp_intent p) /\
  field r "description" = Ok (qp_description p).
Proof.
  unfold pattern_of_row.
  destruct (field r "query_pattern") as [a|]; [|discriminate]. rewrite bind_Ok.
  destruct (field r "tool_name") as [b|]; [|discriminate]. rewrite bind_Ok.
  destruct (field r "tool_args") as [c|]; [|discriminate]. rewrite bind_Ok.
  destruct (float_field r "confidence") as [d|]; [|discriminate]. rewrite bind_Ok.
  destruct (field r "query_type") as [e|]; [|discriminate]. rewrite bind_Ok.
  destruct (field r "entity") as [f|]; [|discriminate]. rewrite bind_Ok.
  destruct (field r "intent") as [g|]; [|discriminate]. rewrite bind_Ok.
  destruct (field r "description") as [h|]; [|discriminate]. rewrite bind_Ok.
  intros [= <-]. repeat split; reflexivity.
Qed.

Lemma load_rows_origin rows acc :
  exists k pats,
    (k <= length rows)%nat /\
    rows_parse (firstn k rows) pats /\
    load_rows rows acc = acc ++ pats /\
    (k < length rows ->
     exists e, option_map pattern_of_row (nth_error rows k) = Some (Raise e))%nat.
Proof.
  revert acc. induction rows as [|r rows IH]; intros acc.
  - exists 0%nat, []. split; [reflexivity|]. split; [constructor|].
    split; [symmetry; apply app_nil_r|]. cbn. lia.
  - cbn [load_rows]. destruct (pattern_of_row r) as [p|e] eqn:Er.
    + destruct (IH (acc ++ [p])) as (k & pats & Hk & Hp & Hl & Hstop).
      exists (S k), (p :: pats). split; [cbn; lia|].
      split; [constructor; assumption|].
      split; [rewrite Hl, <- app_assoc; reflexivity|].
      intros Hlt. apply Hstop. cbn in Hlt. lia.
    + exists 0%nat, []. split; [cbn; lia|]. split; [constructor|].
      split; [symmetry; apply app_nil_r|].
      intros _. exists e. cbn. rewrite Er. reflexivity.
Qed.

(** X13.  Every pattern the loader returns was parsed from a row of a
    file that could be read; its text fields are the row's columns
    with the surrounding whitespace removed, so stripping them again
    changes nothing.  A file yields at most one pattern a row: the
    patterns of its rows up to the first one that cannot be parsed. *)
Theorem X13_loaded_patterns (files : list csv_file) :
  (forall p, In p (load_patterns_from_csv files) ->
     exists rows r,
       In (Ok rows) files /\ In r rows /\ pattern_of_row r = Ok p /\
       Py.strip (query_pattern p) = query_pattern p /\
       Py.strip (qp_tool_name p) = qp_tool_name p /\
       Py.strip (qp_tool_args p) = qp_tool_args p) /\
  (forall rows,
     exists k,
       (k <= length rows)%nat /\
       rows_parse (firstn k rows) (_load_csv_file (Ok rows)) /\
       length (_load_csv_file (Ok rows)) = k /\
       (k < length rows ->
        exists e,
          option_map pattern_of_row (nth_error rows k) = Some (Raise e))%nat).
Proof.
  split.
  - intros p Hin. unfold load_patterns_from_csv in Hin.
    rewrite load_patterns_concat in Hin. cbn [app] in Hin.
    apply in_concat in Hin as (l & Hl & Hp).
    apply in_map_iff in Hl as (f & <- & Hf).
    destruct f as [rows|e]; [|destruct Hp].
    unfold _load_csv_file in Hp.
    destruct (load_rows_origin rows []) as (k & pats & _ & Hparse & Hload & _).
    rewrite Hload in Hp. cbn [app] in Hp.
    assert (Hr : exists r, In r (firstn k rows) /\ pattern_of_row r = Ok p).
    { clear Hload. induction Hparse as [|r0 p0 rs ps H0 _ IH];
        [destruct Hp|].
      destruct Hp as [<-|Hp].
      - exists r0. split; [left; reflexivity | exact H0].
      - destruct (IH Hp) as (r & Hr & Hrp). exists r. split; [right|]; assumption. }
    destruct Hr as (r & Hr & Hrp).
    exists rows, r. split; [exact Hf|].
    split; [rewrite <- (firstn_skipn k rows); apply in_or_app; left; exact Hr|].
    split; [exact Hrp|].
    destruct (pattern_of_row_fields r p Hrp) as (H1 & H2 & H3 & _).
    repeat split; eapply field_stripped; eassumption.
  - intros rows.
    destruct (load_rows_origin rows []) as (k & pats & Hk & Hparse & Hload & Hstop).
    exists k. unfold _load_csv_file. rewrite Hload. cbn [app].
    split; [exact Hk|]. split; [exact Hparse|]. split; [|exact Hstop].
    apply Forall2_length in Hparse. rewrite <- Hparse.
    rewrite length_firstn. lia.
Qed.

End LoadedPatterns.

(** *** The response message *)

Section ResponseMessage.
Import Views.

Lemma base_message_known tool :
  In tool tool_ids -> default "ok" (dict_get tool INTENT_TO_MESSAGE) <> "ok".
Proof.
  intros [<-|[<-|[<-|[<-|[<-|[]]]]]]; discriminate.
Qed.

Lemma base_message_unknown tool :
  ~ In tool tool_ids -> default "ok" (dict_get tool INTENT_TO_MESSAGE) = "ok".
Proof.
  intros Hn. unfold INTENT_TO_MESSAGE. cbn [dict_get].
  repeat match goal with
  | |- context [String.eqb ?a tool] =>
      destruct (String.eqb_spec a tool) as [E|_];
      [exfalso; apply Hn; rewrite <- E; simpl; tauto|]
  end.
  reflexivity.
Qed.

(** X14.  The message of a response is the fallback "ok" exactly when
    the tool is none of the five, so never for a tool the rule-based
    classifier selects.  "No products found." is the message exactly
    when the list tool returned an empty list, and a list of one
    product gets the singular message. *)
Theorem X14_response_message (tool_name : string) (parsed_result : json) :
  (get_response_message tool_name parsed_result = "ok"
   <-> ~ In tool_name tool_ids) /\
  (get_response_message tool_name parsed_result = "No products found."
   <-> tool_name = "product.list" /\ parsed_result = JList []) /\
  (forall item,
     get_response_message "product.list" (JList [item])
     = "Here's the product:") /\
  (forall text r,
     Joint.classify text = Ok r ->
     get_response_message (Joint.d_tool_name (Joint.to_dict r)) parsed_result
     <> "ok").
Proof.
  assert (Hok : get_response_message tool_name parsed_result = "ok"
                <-> ~ In tool_name tool_ids).
  { split.
    - intros Hm Hin. revert Hm. unfold get_response_message.
      pose proof (base_message_known tool_name Hin) as Hb.
      destruct parsed_result as [| | | |items|]; try exact Hb.
      destruct (String.eqb tool_name "product.list"); [|exact Hb].
      destruct (length items =? 1)%nat; [discriminate|].
      destruct (length items =? 0)%nat; discriminate.
    - intros Hn. unfold get_response_message.
      rewrite (base_message_unknown tool_name Hn).
      destruct parsed_result as [| | | |items|]; try reflexivity.
      destruct (String.eqb_spec tool_name "product.list") as [->|_];
        [|reflexivity].
      exfalso. apply Hn. simpl. tauto. }
  split; [exact Hok|]. split; [|split].
  - split.
    + unfold get_response_message.
      destruct parsed_result as [| | | |items|];
        try (intros Hm; exfalso; revert Hm; unfold INTENT_TO_MESSAGE;
             cbn [dict_get];
             repeat (destruct (String.eqb _ tool_name); [discriminate|]);
             discriminate).
      destruct (String.eqb_spec tool_name "product.list") as [->|_].
      * destruct items as [|x [|y l]]; cbn [length Nat.eqb];
          try discriminate. intros _. split; reflexivity.
      * intros Hm; exfalso; revert Hm; unfold INTENT_TO_MESSAGE;
          cbn [dict_get];
          repeat (destruct (String.eqb _ tool_name); [discriminate|]);
          discriminate.
    + intros [-> ->]. reflexivity.
  - intros item. reflexivity.
  - intros text r Hr.
    apply classify_intent_of_result, classify_intent_range in Hr as [Hin _].
    cbn [Joint.to_dict Joint.d_tool_name].
    revert Hin. generalize (Joint.intent r). intros tool Hin.
    unfold get_response_message.
    pose proof (base_message_known tool Hin) as Hb.
    destruct parsed_result as [| | | |items|]; try exact Hb.
    destruct (String.eqb tool "product.list"); [|exact Hb].
    destruct (length items =? 1)%nat; [discriminate|].
    destruct (length items =? 0)%nat; discriminate.
Qed.

End ResponseMessage.

(** *** Training, saving and loading *)

Section TrainAndLoad.
Import Corpus.
Variable fit : list string -> list string -> Res Pipeline.

Lemma trainer_train_cases self files r :
  ClassifierTrainer.train fit self files = Ok r ->
  (CSVPatternLoader.load_patterns_from_csv files = [] /\
   r = (None, ClassifierTrainer.mk [] (ClassifierTrainer.ml_classifier self)))
  \/
  (exists p,
     CSVPatternLoader.load_patterns_from_csv files <> [] /\
     fit (map query_pattern (CSVPatternLoader.load_patterns_from_csv files))
         (map qp_tool_name (CSVPatternLoader.load_patterns_from_csv files))
     = Ok p /\
     r = (Some (MLClassifier.mk
                  (CSVPatternLoader.load_patterns_from_csv files)
                  (Some p) true),
          ClassifierTrainer.mk
            (CSVPatternLoader.load_patterns_from_csv files)
            (Some (MLClassifier.mk
                     (CSVPatternLoader.load_patterns_from_csv files)
                     (Some p) true)))).
Proof.
  unfold ClassifierTrainer.train.
  destruct (CSVPatternLoader.load_patterns_from_csv files) as [|q qs] eqn:E.
  - intros [= <-]. left. split; reflexivity.
  - unfold MLClassifier.train, MLClassifier.init. cbn [MLClassifier.patterns].
    destruct (fit (map query_pattern (q :: qs)) (map qp_tool_name (q :: qs)))
      as [p|e]; [|discriminate].
    rewrite !bind_Ok. intros [= <-]. right. exists p.
    split; [discriminate|]. split; reflexivity.
Qed.

(** X15.  When training returns a classifier, some pattern was loaded
    and the pipeline fitted on the loaded patterns; the trainer then
    saves that pipeline with those patterns, and a classifier that
    loads the saved dictionary is loaded with the same patterns and
    holds a corpus classifier equal to the one training returned.
    When training returns no classifier, no pattern was loaded, and a
    fresh trainer saves nothing. *)
Theorem X15_train_save_load (self self' : ClassifierTrainer.t)
    (files : list CSVPatternLoader.csv_file) (o : option MLClassifier.t) :
  ClassifierTrainer.train fit self files = Ok (o, self') ->
  ClassifierTrainer.patterns self'
  = CSVPatternLoader.load_patterns_from_csv files /\
  (forall ml, o = Some ml ->
     ClassifierTrainer.patterns self' <> [] /\
     exists p,
       fit (map query_pattern (ClassifierTrainer.patterns self'))
           (map qp_tool_name (ClassifierTrainer.patterns self')) = Ok p /\
       ClassifierTrainer.save_trained_model self'
       = Some (Some p, ClassifierTrainer.patterns self') /\
       CSVBasedClassifier.load_model
         (ModelPersistence.save_model p (ClassifierTrainer.patterns self'))
         CSVBasedClassifier.init
       = Ok (CSVBasedClassifier.mk (ClassifierTrainer.patterns self')
                                   (Some ml) true)) /\
  (o = None ->
   ClassifierTrainer.patterns self' = [] /\
   (ClassifierTrainer.ml_classifier self = None ->
    ClassifierTrainer.save_trained_model self' = None)).
Proof.
  intros Ht.
  destruct (trainer_train_cases self files _ Ht)
    as [[He [= -> ->]] | (p & Hne & Hfit & [= -> ->])].
  - split; [symmetry; exact He|]. split; [intros ml; discriminate|].
    intros _. split; [reflexivity|]. intros Hn.
    unfold ClassifierTrainer.save_trained_model.
    cbn [ClassifierTrainer.ml_classifier]. rewrite Hn. reflexivity.
  - split; [reflexivity|]. split; [|discriminate].
    intros ml [= <-]. cbn [ClassifierTrainer.patterns].
    split; [exact Hne|]. exists p. split; [exact Hfit|].
    split; reflexivity.
Qed.

End TrainAndLoad.

Section TrainingStats.
Import Corpus.

Lemma count_lookup counts key k :
  ClassifierTrainer.count counts key !! k
  = if String.eqb key k then Some (default 0 (counts !! key) + 1)%nat
    else counts !! k.
Proof.
  unfold ClassifierTrainer.count.
  destruct (String.eqb_spec key k) as [->|Hne].
  - apply lookup_insert_eq.
  - apply lookup_insert_ne. exact Hne.
Qed.

Lemma fold_count_lookup (f : QueryPattern -> string) ps counts k :
  fold_left (fun counts pattern => ClassifierTrainer.count counts (f pattern))
            ps counts !! k
  = if (occurrences f ps k =? 0)%nat then counts !! k
    else Some (default 0 (counts !! k) + occurrences f ps k)%nat.
Proof.
  revert counts. induction ps as [|p ps IH]; intros counts; [reflexivity|].
  cbn [fold_left]. rewrite IH, count_lookup. unfold occurrences.
  cbn [List.filter]. destruct (String.eqb_spec (f p) k) as [->|Hne].
  - cbn [length default].
    destruct (length (List.filter (fun p0 => String.eqb (f p0) k) ps)) as [|n];
      cbn [Nat.eqb]; apply f_equal; unfold id; lia.
  - reflexivity.
Qed.

Lemma fold_count_counts (f : QueryPattern -> string) ps :
  counts_of f ps
    (fold_left (fun counts pattern => ClassifierTrainer.count counts (f pattern))
               ps ∅).
Proof.
  intros k n. rewrite fold_count_lookup, lookup_empty. cbn [default].
  destruct (occurrences f ps k) as [|m] eqn:E; cbn [Nat.eqb].
  - split; [discriminate | intros [-> H]; lia].
  - split; [intros [= <-]; split; lia | intros [-> _]; reflexivity].
Qed.

(** X16.  The statistics of a trainer that holds patterns give their
    number and, for the query types, the entities and the intents, how
    many patterns carry each value: a value that occurs is counted
    exactly, and a value that does not occur has no entry.  Without
    patterns the statistics are the error dictionary. *)
Theorem X16_training_stats (self : ClassifierTrainer.t) :
  (ClassifierTrainer.patterns self = [] ->
   ClassifierTrainer.get_training_stats self
   = ClassifierTrainer.StatsError "No patterns loaded") /\
  (ClassifierTrainer.patterns self <> [] ->
   exists types entities intents trained,
     ClassifierTrainer.get_training_stats self
     = ClassifierTrainer.Stats (length (ClassifierTrainer.patterns self))
                               types entities intents trained /\
     counts_of qp_query_type (ClassifierTrainer.patterns self) types /\
     counts_of qp_entity (ClassifierTrainer.patterns self) entities /\
     counts_of qp_intent (ClassifierTrainer.patterns self) intents).
Proof.
  unfold ClassifierTrainer.get_training_stats.
  destruct (ClassifierTrainer.patterns self) as [|p ps] eqn:E.
  - split; [reflexivity | congruence].
  - split; [discriminate|]. intros _.
    eexists _, _, _, _. split; [reflexivity|].
    split; [|split]; apply fold_count_counts.
Qed.

End TrainingStats.

Section TrainAndLoadInstance.
Import Corpus.

(** X15, instance: one file with one well-formed row. *)
Lemma X15_witness :
  ClassifierTrainer.patterns one_row_trainer
  = CSVPatternLoader.load_patterns_from_csv [Ok [good_row_1]] /\
  (forall ml, Some one_row_classifier = Some ml ->
     ClassifierTrainer.patterns one_row_trainer <> [] /\
     exists p,
       first_label_fit
         (map query_pattern (ClassifierTrainer.patterns one_row_trainer))
         (map qp_tool_name (ClassifierTrainer.patterns one_row_trainer))
       = Ok p /\
       ClassifierTrainer.save_trained_model one_row_trainer
       = Some (Some p, ClassifierTrainer.patterns one_row_trainer) /\
       CSVBasedClassifier.load_model
         (ModelPersistence.save_model p
            (ClassifierTrainer.patterns one_row_trainer))
         CSVBasedClassifier.init
       = Ok (CSVBasedClassifier.mk
               (ClassifierTrainer.patterns one_row_trainer) (Some ml) true)) /\
  (Some one_row_classifier = None ->
   ClassifierTrainer.patterns one_row_trainer = [] /\
   (ClassifierTrainer.ml_classifier ClassifierTrainer.init = None ->
    ClassifierTrainer.save_trained_model one_row_trainer = None)).
Proof.
  apply (X15_train_save_load first_label_fit ClassifierTrainer.init
           one_row_trainer [Ok [good_row_1]] (Some one_row_classifier)).
  vm_compute. reflexivity.
Defined.

End TrainAndLoadInstance.

(** *** Post-processing of the slots *)

Section PostProcess.
Import Joint.

Lemma fallback_slot text sl d :
  extract_description_fallback text sl = Ok (Some d) ->
  exists v,
    d = mkSlot "description" (VStr v) 0.7 0 (String.length v) /\
    (2 < String.length v)%nat /\ Py.strip v = v.
Proof.
  unfold extract_description_fallback.
  destruct (remove_slots (Py.lower text) sl) as [t1|e]; rewrite ?bind_Ok;
    [|discriminate].
  destruct (re_sub "^\s*[,]\s*" "" t1) as [t2|e]; rewrite ?bind_Ok;
    [|discriminate].
  destruct (re_sub "\s+" " " t2) as [t3|e]; rewrite ?bind_Ok; [|discriminate].
  destruct (2 <? String.length (Py.strip t3))%nat eqn:E; [|discriminate].
  intros [= <-]. exists (Py.strip t3). split; [reflexivity|].
  split; [apply Nat.ltb_lt, E | apply strip_idem].
Qed.

(** X17.  Post-processing never removes or changes a slot: it returns
    the slots it was given, or these followed by one fallback slot.
    The fallback slot is added only for [product.create] and only when
    no slot is named description; it is named description, has
    confidence 0.7 and a text value of more than two characters
    without surrounding whitespace, and spans from 0 to the length of
    that value. *)
Theorem X17_post_process_appends (slots slots' : list Slot)
    (intent text : string) :
  _post_process_slots slots intent text = Ok slots' ->
  slots' = slots \/
  (intent = "product.create" /\
   Forall (fun slot => name slot <> "description") slots /\
   exists v,
     slots' = slots ++ [mkSlot "description" (VStr v) 0.7 0 (String.length v)] /\
     (2 < String.length v)%nat /\ Py.strip v = v).
Proof.
  unfold _post_process_slots.
  destruct (String.eqb_spec intent "product.create") as [->|_];
    [|intros [= <-]; left; reflexivity].
  destruct (existsb (fun slot => String.eqb (name slot) "description") slots)
    eqn:Ex; [intros [= <-]; left; reflexivity|].
  destruct (extract_description_fallback text slots) as [[d|]|e] eqn:Ef;
    rewrite ?bind_Ok; [| intros [= <-]; left; reflexivity | discriminate].
  intros [= <-]. right. split; [reflexivity|]. split.
  - apply Forall_forall. intros s Hs Hn.
    assert (Ht : existsb (fun slot => String.eqb (name slot) "description")
                         slots = true).
    { apply existsb_exists. exists s. split; [exact Hs|].
      rewrite Hn. apply String.eqb_refl. }
    rewrite Ht in Ex. discriminate Ex.
  - destruct (fallback_slot text slots d Ef) as (v & -> & Hlen & Hs).
    exists v. split; [reflexivity|]. split; assumption.
Qed.

Lemma X17_witness :
  [mkSlot "description" (VStr "lamp shade") 0.7 0 10] = [] \/
  ("product.create" = "product.create" /\
   Forall (fun slot => name slot <> "description") [] /\
   exists v,
     [mkSlot "description" (VStr "lamp shade") 0.7 0 10]
     = [] ++ [mkSlot "description" (VStr v) 0.7 0 (String.length v)] /\
     (2 < String.length v)%nat /\ Py.strip v = v).
Proof.
  apply (X17_post_process_appends [] _ "product.create" "Lamp  shade").
  vm_compute. reflexivity.
Defined.

End PostProcess.

(** *** A zero on the two paths *)

Section ZeroOnTwoPaths.
Import Corpus Corpus.ArgumentExtractor.

Lemma id_outcomes message :
  exists o a,
    Joint.extract_slot "id" message (Py.lower message) = Ok o /\
    _extract_id message (Py.lower message) = Ok a /\
    same_outcome VInt "id" o a.
Proof.
  apply (loops_agree Py.int_of_str VInt "id" Joint.process_id
           [("(?:product\s+)?id\s+(\d+)", 0.95);
            ("(?:update|modify|change|edit|delete|remove|drop|get|find|retrieve)\s+(?:product\s+)?(\d+)", 0.9)]
           (Py.lower message)).
  - reflexivity.
  - intros raw. reflexivity.
  - vm_compute. reflexivity.
Qed.

Lemma price_outcomes message :
  exists o a,
    Joint.extract_slot "price" message (Py.lower message) = Ok o /\
    _extract_price message (Py.lower message) = Ok a /\
    same_outcome VFloat "price" o a.
Proof.
  rewrite extract_price_first_three.
  apply (loops_agree Py.float_of_str VFloat "price" Joint.process_price
           [("price\s*\$?(\d+(?:\.\d{2})?)", 0.95);
            ("\$(\d+(?:\.\d{2})?)", 0.9);
            ("(\d+(?:\.\d{2})?)\s*dollars?", 0.85)]
           (Py.lower message)).
  - reflexivity.
  - intros raw. reflexivity.
  - vm_compute. reflexivity.
Qed.

(** The slot with the extracted value that the rule-based extractor
    returns when the corpus extractor returns a value. *)
Lemma slot_of_outcome {A} (inj : A -> pyvalue) slot_name o v :
  same_outcome inj slot_name o (Some v) ->
  exists s, o = Some s /\ Joint.name s = slot_name /\ Joint.value s = inj v.
Proof.
  destruct o as [s|]; cbn [same_outcome]; [|tauto].
  intros [Hn Hv]. exists s. auto.
Qed.

Lemma zero_id_unset (args : gmap string pyvalue) :
  set_if truthy_int VInt "id" (Some 0%Z) args = args.
Proof. reflexivity. Qed.

Lemma zero_price_unset q (args : gmap string pyvalue) :
  q == 0 -> set_if truthy_float VFloat "price" (Some q) args = args.
Proof.
  intros Hq. unfold set_if. cbn [truthy_float].
  apply Qeq_bool_iff in Hq. rewrite Hq. reflexivity.
Qed.

(** C10.  The two paths treat a zero differently.  On the corpus path
    an extracted id equal to 0 leaves the delete and the get arguments
    empty, and an extracted price equal to 0 leaves the create
    arguments without a [price].  On the rule-based path the same
    messages have an [id] slot with value 0 and a [price] slot with the
    zero price: the slot extractor returns them, they are in the slot
    lists of delete and of create, and the dictionaries hold their
    values.  "delete product 0" has no argument on the corpus path and
    [id = 0] on the rule-based path; "add lamp price 0" has no [price]
    on the corpus path and [price = 0] on the rule-based path. *)
Theorem C10_zero_values (id_message price_message : string) (price : Q) :
  _extract_id id_message (Py.lower id_message) = Ok (Some 0%Z) ->
  _extract_price price_message (Py.lower price_message) = Ok (Some price) ->
  price == 0 ->
  _extract_delete_args id_message (Py.lower id_message) = Ok ∅ /\
  _extract_get_args id_message (Py.lower id_message) = Ok ∅ /\
  (exists args,
     _extract_create_args price_message (Py.lower price_message) = Ok args /\
     args !! "price" = None) /\
  (exists s,
     Joint.extract_slot "id" id_message (Py.lower id_message) = Ok (Some s) /\
     Joint.value s = VInt 0 /\
     Joint.extract_delete_slots id_message (Py.lower id_message) = Ok [s] /\
     Joint.d_tool_args
       (Joint.to_dict
          (Joint.mkIntentSlotResult "product.delete" 1 [s] id_message))
     !! "id" = Some (VInt 0)) /\
  (exists s sl,
     Joint.extract_slot "price" price_message (Py.lower price_message)
     = Ok (Some s) /\
     Joint.value s = VFloat price /\
     Joint.extract_create_slots price_message (Py.lower price_message)
     = Ok sl /\
     In s sl /\
     Joint.d_tool_args
       (Joint.to_dict
          (Joint.mkIntentSlotResult "product.create" 1 sl price_message))
     !! "price" = Some (VFloat price)) /\
  extract_arguments "delete product 0" "product.delete" ∅ = Ok ∅ /\
  (exists r, Joint.classify "delete product 0" = Ok r /\
             Joint.d_tool_args (Joint.to_dict r) = {[ "id" := VInt 0 ]}) /\
  (exists args,
     extract_arguments "add lamp price 0" "product.create" ∅ = Ok args /\
     args !! "price" = None) /\
  (exists r, Joint.classify "add lamp price 0" = Ok r /\
             Joint.d_tool_args (Joint.to_dict r) !! "price"
             = Some (VFloat 0)).
Proof.
  intros Hid Hprice Hzero.
  destruct (id_outcomes id_message) as (o & a & Eo & Ea & Hsame).
  rewrite Hid in Ea. injection Ea as <-.
  destruct (slot_of_outcome _ _ _ _ Hsame) as (s & -> & Hn & Hv).
  destruct (price_outcomes price_message) as (o2 & a2 & Eo2 & Ea2 & Hsame2).
  rewrite Hprice in Ea2. injection Ea2 as <-.
  destruct (slot_of_outcome _ _ _ _ Hsame2) as (s2 & -> & Hn2 & Hv2).
  split; [|split; [|split; [|split; [|split; [|split; [|split; [|split]]]]]]].
  - unfold _extract_delete_args. rewrite Hid. reflexivity.
  - unfold _extract_get_args. rewrite Hid. reflexivity.
  - destruct (extract_name_total price_message (Py.lower price_message))
      as [n En].
    destruct (extract_description_total price_message (Py.lower price_message))
      as [d Ed].
    unfold _extract_create_args. rewrite En, bind_Ok, Hprice, bind_Ok, Ed, bind_Ok.
    eexists. split; [reflexivity|].
    rewrite set_if_other by discriminate.
    rewrite (zero_price_unset price _ Hzero).
    rewrite set_if_other by discriminate. apply lookup_empty.
  - exists s. split; [exact Eo|]. split; [exact Hv|]. split.
    + unfold Joint.extract_delete_slots. rewrite Eo. reflexivity.
    + unfold Joint.to_dict. cbn [Joint.d_tool_args Joint.intent Joint.slots].
      change (String.eqb "product.delete" "product.list") with false.
      cbn [andb fold_left]. rewrite Hn, Hv. apply lookup_insert_eq.
  - destruct (extract_slot_total "name" price_message (Py.lower price_message))
      as (o1 & E1 & H1).
    destruct (extract_slot_total "description" price_message
                (Py.lower price_message)) as (o3 & E3 & H3).
    exists s2,
      (Joint.append_opt (Joint.append_opt (Joint.append_opt [] o1) (Some s2))
                        o3).
    split; [exact Eo2|]. split; [exact Hv2|]. split; [|split].
    + unfold Joint.extract_create_slots. rewrite E1, bind_Ok, Eo2, bind_Ok, E3, bind_Ok.
      reflexivity.
    + destruct o1, o3; cbn [Joint.append_opt app]; rewrite ?in_app_iff;
        simpl; tauto.
    + unfold Joint.to_dict. cbn [Joint.d_tool_args Joint.intent Joint.slots].
      change (String.eqb "product.create" "product.list") with false.
      cbn [andb]. rewrite <- Hv2, <- Hn2.
      assert (Hd : forall s3, o3 = Some s3 -> Joint.name s3 <> Joint.name s2).
      { intros s3 E. destruct (H3 s3 E) as [-> _]. rewrite Hn2. discriminate. }
      clear - Hd.
      destruct o1 as [s1|], o3 as [s3|];
        cbn [Joint.append_opt app fold_left];
        try (rewrite lookup_insert_ne by (apply (Hd s3 eq_refl)));
        apply lookup_insert_eq.
  - vm_compute. reflexivity.
  - eexists. split; vm_compute; reflexivity.
  - eexists. split; vm_compute; reflexivity.
  - eexists. split; vm_compute; reflexivity.
Qed.

Lemma C10_witness :
  _extract_delete_args "delete product 0" (Py.lower "delete product 0")
  = Ok ∅ /\
  _extract_get_args "delete product 0" (Py.lower "delete product 0")
  = Ok ∅ /\
  (exists args,
     _extract_create_args "add lamp price 0" (Py.lower "add lamp price 0")
     = Ok args /\
     args !! "price" = None) /\
  (exists s,
     Joint.extract_slot "id" "delete product 0" (Py.lower "delete product 0")
     = Ok (Some s) /\
     Joint.value s = VInt 0 /\
     Joint.extract_delete_slots "delete product 0"
       (Py.lower "delete product 0") = Ok [s] /\
     Joint.d_tool_args
       (Joint.to_dict
          (Joint.mkIntentSlotResult "product.delete" 1 [s]
                                    "delete product 0"))
     !! "id" = Some (VInt 0)) /\
  (exists s sl,
     Joint.extract_slot "price" "add lamp price 0"
       (Py.lower "add lamp price 0") = Ok (Some s) /\
     Joint.value s = VFloat 0 /\
     Joint.extract_create_slots "add lamp price 0"
       (Py.lower "add lamp price 0") = Ok sl /\
     In s sl /\
     Joint.d_tool_args
       (Joint.to_dict
          (Joint.mkIntentSlotResult "product.create" 1 sl
                                    "add lamp price 0"))
     !! "price" = Some (VFloat 0)) /\
  extract_arguments "delete product 0" "product.delete" ∅ = Ok ∅ /\
  (exists r, Joint.classify "delete product 0" = Ok r /\
             Joint.d_tool_args (Joint.to_dict r) = {[ "id" := VInt 0 ]}) /\
  (exists args,
     extract_arguments "add lamp price 0" "product.create" ∅ = Ok args /\
     args !! "price" = None) /\
  (exists r, Joint.classify "add lamp price 0" = Ok r /\
             Joint.d_tool_args (Joint.to_dict r) !! "price"
             = Some (VFloat 0)).
Proof.
  apply (C10_zero_values "delete product 0" "add lamp price 0" 0).
  - vm_compute. reflexivity.
  - vm_compute. reflexivity.
  - reflexivity.
Defined.

End ZeroOnTwoPaths.
